(** * Daydream client: dream view, dream browser and API helper

    A shallow embedding of the client's three pieces of logic:

    - [Api]: [src/client/src/lib/api.ts] ([getApiBaseUrl], [createApiUrl]);
    - [DreamView]: [src/client/src/components/views/DreamView.tsx];
    - [FindDreamsDropdown]: [src/client/src/components/FindDreamsDropdown.tsx].

    A React component is modelled as a record of its [useState] cells
    together with the asynchronous calls that are suspended at an [await],
    each one carrying the variables its closure captured.  Every event (a
    click, a route change, an observer callback, a settled [fetch]) is one
    total function on that system state; an event whose control is not
    rendered, or is disabled, leaves the state as it is.

    Three conventions hold throughout.  Handlers and effects read the
    state of the latest committed render: React commits the updates of
    one event before the next event is delivered.  The two awaits of a
    call, [await fetch(...)] and [await response.json()], are one step:
    between them the call neither reads nor writes the state.  Bodies
    decode to the TypeScript type the code annotates them with. *)

From Stdlib Require Import String Ascii List Bool Arith NArith Lia.
From Stdlib Require Import DecimalString.
Import ListNotations.
Open Scope string_scope.

(** ** JavaScript values used by the client *)

Module Js.

(** Truthiness of a string: only the empty string is falsy. *)
Definition truthy (s : string) : bool :=
  match s with
  | EmptyString => false
  | String _ _ => true
  end.

(** Truthiness of a [string | null] or [string | undefined] value. *)
Definition truthy_opt (v : option string) : bool :=
  match v with
  | None => false
  | Some s => truthy s
  end.

(** [s.startsWith(p)]. *)
Fixpoint startsWith (p s : string) : bool :=
  match p, s with
  | EmptyString, _ => true
  | String _ _, EmptyString => false
  | String a p', String b s' => Ascii.eqb a b && startsWith p' s'
  end.

(** [s.slice(1)]. *)
Definition slice1 (s : string) : string :=
  match s with
  | EmptyString => EmptyString
  | String _ rest => rest
  end.

(** *** Code units

    A [string] holds a JavaScript string as its UTF-8 bytes, the form it
    has in a source file and in a JSON body.  Emptiness, equality,
    concatenation and the test for a leading ["/"] are the same on the
    bytes as on the JavaScript string.  Indexing is not: JavaScript
    counts UTF-16 code units, one for a code point below U+10000 and a
    pair of surrogates for any other. *)

(** The low six bits of a continuation byte [10xxxxxx]. *)
Definition continuation (c : ascii) : option N :=
  let b := N_of_ascii c in
  if ((128 <=? b) && (b <=? 191))%N then Some (b - 128)%N else None.

(** A code point that UTF-8 encodes in the form it was read from: not
    below [lowest] (an over-long form), no surrogate, not above
    U+10FFFF. *)
Definition scalarValue (lowest cp : N) : bool :=
  ((lowest <=? cp) && (cp <=? 1114111)
   && negb ((55296 <=? cp) && (cp <=? 57343)))%N.

(** The code units of one code point. *)
Definition unitsOfCodePoint (cp : N) : list N :=
  if (cp <? 65536)%N then [cp]
  else [(55296 + (cp - 65536) / 1024)%N;
        (56320 + (cp - 65536) mod 1024)%N].

(** The decoder: [pending] continuation bytes are still to come for
    the code point whose bits read so far are [acc]. *)
Fixpoint decodeUtf8 (pending : nat) (acc lowest : N) (s : string)
    : option (list N) :=
  match s with
  | EmptyString =>
      match pending with
      | O => Some []
      | S _ => None
      end
  | String c rest =>
      let b := N_of_ascii c in
      match pending with
      | O =>
          if (b <? 128)%N then option_map (cons b) (decodeUtf8 0 0 0 rest)
          else if (b <? 192)%N then None
          else if (b <? 224)%N then decodeUtf8 1 (b - 192) 128 rest
          else if (b <? 240)%N then decodeUtf8 2 (b - 224) 2048 rest
          else if (b <? 248)%N then decodeUtf8 3 (b - 240) 65536 rest
          else None
      | S k =>
          match continuation c with
          | None => None
          | Some x =>
              let cp := (acc * 64 + x)%N in
              match k with
              | O =>
                  if scalarValue lowest cp
                  then option_map (app (unitsOfCodePoint cp))
                         (decodeUtf8 0 0 0 rest)
                  else None
              | S _ => decodeUtf8 k cp lowest rest
              end
          end
      end
  end.

(** The UTF-16 code units of the string whose UTF-8 bytes are [s];
    [None] when [s] is not UTF-8, and then stands for no JavaScript
    string.  (A JavaScript string with an unpaired surrogate has no
    UTF-8 bytes; such strings are outside the model.) *)
Definition codeUnits (s : string) : option (list N) := decodeUtf8 0 0 0 s.

(** Every character is an ASCII one. *)
Fixpoint isAscii (s : string) : bool :=
  match s with
  | EmptyString => true
  | String c rest => (N_of_ascii c <? 128)%N && isAscii rest
  end.

(** [`${n}`] for a non-negative integer [n]. *)
Definition of_number (n : nat) : string :=
  NilEmpty.string_of_uint (Nat.to_uint n).

(** What a [catch] clause can receive: an [Error] object with its
    message, or any other thrown value. *)
Inductive Thrown :=
| ErrorObject (message : string)
| OtherValue.

(** [err instanceof Error ? err.message : fallback]. *)
Definition message_or (err : Thrown) (fallback : string) : string :=
  match err with
  | ErrorObject m => m
  | OtherValue => fallback
  end.

End Js.

(** ** The [fetch] interface as the client uses it *)

Module Fetch.

Inductive Method := GET | POST.

Record Request := { method : Method; url : string }.

(** A response: its status line and what [response.json()] gives,
    either a thrown value (body not JSON) or the decoded body. *)
Record Response (B : Type) := {
  status : nat;
  statusText : string;
  json : Js.Thrown + B
}.
Arguments status {B} _.
Arguments statusText {B} _.
Arguments json {B} _.

(** [response.ok]: the status is in the range 200-299. *)
Definition ok {B} (r : Response B) : bool :=
  ((200 <=? status r)%nat && (status r <=? 299)%nat)%bool.

(** How the promise returned by [fetch] settles. *)
Inductive Outcome (B : Type) :=
| Rejected (err : Js.Thrown)
| Fulfilled (r : Response B).
Arguments Rejected {B} _.
Arguments Fulfilled {B} _.

(** A response with status 200 and a body that decodes to [b]. *)
Definition okResponse {B} (b : B) : Response B :=
  {| status := 200; statusText := "OK"; json := inr b |}.

(** A response with the given status line and a body that is not
    JSON. *)
Definition statusResponse {B} (code : nat) (text : string) : Response B :=
  {| status := code; statusText := text;
     json := inl (Js.ErrorObject "Unexpected end of JSON input") |}.

(** The body of a call that succeeded: a response with [ok] whose
    body decodes. *)
Definition succeeded {B} (o : Outcome B) : option B :=
  match o with
  | Rejected _ => None
  | Fulfilled r =>
      if ok r then
        match json r with
        | inl _ => None
        | inr b => Some b
        end
      else None
  end.

End Fetch.

(** ** [lib/api.ts] *)

Module Api.

(** [import.meta.env.VITE_API_BASE_URL]: a string, or undefined. *)
Definition Env := option string.

Definition fallbackUrl : string := "http://localhost:8000".

(** [import.meta.env.VITE_API_BASE_URL || "http://localhost:8000"]. *)
Definition getApiBaseUrl (env : Env) : string :=
  match env with
  | Some s => if Js.truthy s then s else fallbackUrl
  | None => fallbackUrl
  end.

Definition createApiUrl (env : Env) (endpoint : string) : string :=
  let baseUrl := getApiBaseUrl env in
  let cleanEndpoint :=
    if Js.startsWith "/" endpoint then Js.slice1 endpoint else endpoint in
  baseUrl ++ "/" ++ cleanEndpoint.

(** *** The join the specification asks for

    These three definitions follow the specification's words, not the
    code: base and endpoint are joined by exactly one slash, whatever
    slashes the two carry at the joint. *)

Fixpoint trimLeadingSlashes (s : string) : string :=
  match s with
  | String "/" rest => trimLeadingSlashes rest
  | _ => s
  end.

Fixpoint trimTrailingSlashes (s : string) : string :=
  match s with
  | EmptyString => EmptyString
  | String c rest =>
      match trimTrailingSlashes rest with
      | EmptyString =>
          if Ascii.eqb c "/" then EmptyString else String c EmptyString
      | rest' => String c rest'
      end
  end.

Definition joinWithOneSlash (base endpoint : string) : string :=
  trimTrailingSlashes base ++ "/" ++ trimLeadingSlashes endpoint.

(** [s] ends with a slash. *)
Fixpoint endsWithSlash (s : string) : bool :=
  match s with
  | EmptyString => false
  | String c EmptyString => Ascii.eqb c "/"
  | String _ rest => endsWithSlash rest
  end.

End Api.

(** ** Runs of a component

    A component is driven by a list of events, oldest first; each event
    is one total step on the component's state. *)

Section Runs.

Context {Sys Event : Type}.
Variable step : Event -> Sys -> Sys.

Definition runWith (events : list Event) (s : Sys) : Sys :=
  fold_left (fun acc e => step e acc) events s.

End Runs.

(** ** Small list helpers *)

(** The list without its [i]-th element (the list itself when [i] is out
    of range). *)
Fixpoint remove_nth {A} (i : nat) (l : list A) : list A :=
  match l, i with
  | [], _ => []
  | _ :: rest, O => rest
  | x :: rest, S j => x :: remove_nth j rest
  end.

Definition option_string_eqb (a b : option string) : bool :=
  match a, b with
  | None, None => true
  | Some x, Some y => String.eqb x y
  | _, _ => false
  end.

(** ** [components/views/DreamView.tsx] *)

Module DreamView.

Import Js Fetch.

Record Dream := { id : string; created_at : string }.

(** Modelled from the spec: the type [ConceptResponse] is imported from
    [@/types/concept], which is not among the sources; its fields are
    the wire shape the specification gives,
    [{ id, content, parent1_id?, parent2_id? }]. *)
Record ConceptResponse := {
  concept_id : string;
  content : string;
  parent1_id : option string;
  parent2_id : option string
}.

Record DreamGetResponse := {
  data_dream : Dream;
  data_concepts : list ConceptResponse
}.

Record DreamContinueResponse := { success : bool }.

(** The six [useState] cells of the component. *)
Record State := {
  isLoading : bool;
  isContinuing : bool;
  dream : option Dream;
  concepts : list ConceptResponse;
  error : option string;
  copied : bool
}.

Definition setIsLoading (v : bool) (st : State) : State :=
  {| isLoading := v; isContinuing := isContinuing st; dream := dream st;
     concepts := concepts st; error := error st; copied := copied st |}.

Definition setIsContinuing (v : bool) (st : State) : State :=
  {| isLoading := isLoading st; isContinuing := v; dream := dream st;
     concepts := concepts st; error := error st; copied := copied st |}.

Definition setDream (v : option Dream) (st : State) : State :=
  {| isLoading := isLoading st; isContinuing := isContinuing st; dream := v;
     concepts := concepts st; error := error st; copied := copied st |}.

Definition setConcepts (v : list ConceptResponse) (st : State) : State :=
  {| isLoading := isLoading st; isContinuing := isContinuing st;
     dream := dream st; concepts := v; error := error st;
     copied := copied st |}.

Definition setError (v : option string) (st : State) : State :=
  {| isLoading := isLoading st; isContinuing := isContinuing st;
     dream := dream st; concepts := concepts st; error := v;
     copied := copied st |}.

Definition setCopied (v : bool) (st : State) : State :=
  {| isLoading := isLoading st; isContinuing := isContinuing st;
     dream := dream st; concepts := concepts st; error := error st;
     copied := v |}.

(** The [useState] initial values. *)
Definition initialState : State :=
  {| isLoading := true; isContinuing := false; dream := None;
     concepts := []; error := None; copied := false |}.

(** An asynchronous call suspended at its [await fetch(...)], with the
    request it issued.  [loadDream] reads nothing of its closure after
    the await; [resume] tells whether it runs as the [await loadDream()]
    of a [continueDream] call, which then goes on to its [finally].
    [continueDream] keeps the [dreamId] of the render it was created in,
    and calls the [loadDream] of that same render. *)
Inductive Suspended :=
| AwaitDreamFetch (req : Request) (resume : bool)
| AwaitContinueFetch (req : Request) (closureDreamId : string).

Definition requestOf (t : Suspended) : Request :=
  match t with
  | AwaitDreamFetch req _ => req
  | AwaitContinueFetch req _ => req
  end.

Definition isContinueCall (t : Suspended) : bool :=
  match t with
  | AwaitDreamFetch _ resume => resume
  | AwaitContinueFetch _ _ => true
  end.

Definition isDreamFetch (t : Suspended) : bool :=
  match t with
  | AwaitDreamFetch _ _ => true
  | AwaitContinueFetch _ _ => false
  end.

Definition isContinueFetch (t : Suspended) : bool :=
  match t with
  | AwaitDreamFetch _ _ => false
  | AwaitContinueFetch _ _ => true
  end.

(** The component instance: configuration, route parameter, state
    cells, calls suspended at a [fetch], every request sent so far
    (oldest first), and for [copyLink] the number of calls suspended at
    the clipboard write and the number of pending [setTimeout]
    callbacks. *)
Record Sys := {
  env : Api.Env;
  dreamId : option string;
  state : State;
  suspended : list Suspended;
  sent : list Request;
  clipboardWrites : nat;
  copyTimers : nat
}.

Definition withState (st : State) (s : Sys) : Sys :=
  {| env := env s; dreamId := dreamId s; state := st;
     suspended := suspended s; sent := sent s;
     clipboardWrites := clipboardWrites s; copyTimers := copyTimers s |}.

Definition withDreamId (d : option string) (s : Sys) : Sys :=
  {| env := env s; dreamId := d; state := state s;
     suspended := suspended s; sent := sent s;
     clipboardWrites := clipboardWrites s; copyTimers := copyTimers s |}.

Definition withSuspended (l : list Suspended) (s : Sys) : Sys :=
  {| env := env s; dreamId := dreamId s; state := state s;
     suspended := l; sent := sent s;
     clipboardWrites := clipboardWrites s; copyTimers := copyTimers s |}.

Definition withClipboardWrites (n : nat) (s : Sys) : Sys :=
  {| env := env s; dreamId := dreamId s; state := state s;
     suspended := suspended s; sent := sent s;
     clipboardWrites := n; copyTimers := copyTimers s |}.

Definition withCopyTimers (n : nat) (s : Sys) : Sys :=
  {| env := env s; dreamId := dreamId s; state := state s;
     suspended := suspended s; sent := sent s;
     clipboardWrites := clipboardWrites s; copyTimers := n |}.

(** [fetch(...)] followed by the suspension of the caller. *)
Definition issue (t : Suspended) (s : Sys) : Sys :=
  {| env := env s; dreamId := dreamId s; state := state s;
     suspended := (suspended s ++ [t])%list;
     sent := (sent s ++ [requestOf t])%list;
     clipboardWrites := clipboardWrites s; copyTimers := copyTimers s |}.

(** What [continueDream] does once its [await loadDream()] returns:
    its [finally] block. *)
Definition resumeContinue (resume : bool) (st : State) : State :=
  if resume then setIsContinuing false st else st.

(** [loadDream], up to its [await fetch(...)]. *)
Definition loadDream (resume : bool) (closureDreamId : option string)
    (s : Sys) : Sys :=
  if truthy_opt closureDreamId then
    let d := match closureDreamId with Some d => d | None => "" end in
    let req := {| method := GET;
                  url := Api.createApiUrl (env s) ("v1/dream/" ++ d) |} in
    issue (AwaitDreamFetch req resume)
          (withState (setError None (setIsLoading true (state s))) s)
  else
    withState
      (resumeContinue resume
         (setIsLoading false
            (setError (Some "No dream ID provided") (state s)))) s.

(** The [try] block of [loadDream] from the settled [fetch] on: the
    decoded body, or what is thrown. *)
Definition loadDream_try (o : Outcome DreamGetResponse)
    : Thrown + DreamGetResponse :=
  match o with
  | Rejected err => inl err
  | Fulfilled r =>
      if negb (ok r) then
        if (status r =? 404)%nat then inl (ErrorObject "Dream not found")
        else inl (ErrorObject ("Failed to load dream: " ++ statusText r))
      else json r
  end.

(** [loadDream] from its [await] to its end: [try], [catch],
    [finally]. *)
Definition loadDream_settle (resume : bool) (o : Outcome DreamGetResponse)
    (s : Sys) : Sys :=
  let st1 :=
    match loadDream_try o with
    | inr data =>
        setConcepts (data_concepts data)
          (setDream (Some (data_dream data)) (state s))
    | inl err =>
        setError (Some (message_or err "Failed to load dream")) (state s)
    end in
  withState (resumeContinue resume (setIsLoading false st1)) s.

(** [continueDream], up to its [await fetch(...)]. *)
Definition continueDream (closureDreamId : option string) (s : Sys) : Sys :=
  if truthy_opt closureDreamId then
    let d := match closureDreamId with Some d => d | None => "" end in
    let req := {| method := POST;
                  url := Api.createApiUrl (env s)
                           ("v1/dream/" ++ d ++ "/continue") |} in
    issue (AwaitContinueFetch req d)
          (withState (setError None (setIsContinuing true (state s))) s)
  else
    withState (setError (Some "No dream ID available") (state s)) s.

(** The [try] block of [continueDream] from the settled [fetch] up to
    the test of [data.success]: [inr tt] when the call goes on to
    [await loadDream()], else what is thrown. *)
Definition continueDream_try (o : Outcome DreamContinueResponse)
    : Thrown + unit :=
  match o with
  | Rejected err => inl err
  | Fulfilled r =>
      if negb (ok r) then
        inl (ErrorObject ("Failed to continue dream: " ++ statusText r))
      else
        match json r with
        | inl err => inl err
        | inr data =>
            if success data then inr tt
            else inl (ErrorObject "Dream continuation was not successful")
        end
  end.

(** [continueDream] from its [await fetch(...)] on. *)
Definition continueDream_settle (closureDreamId : string)
    (o : Outcome DreamContinueResponse) (s : Sys) : Sys :=
  match continueDream_try o with
  | inr _ => loadDream true (Some closureDreamId) s
  | inl err =>
      withState
        (setIsContinuing false
           (setError (Some (message_or err "Failed to continue dream"))
              (state s))) s
  end.

(** What the component returns, reduced to the parts that decide which
    actions exist.  [continueButton] is [None] when the button is not
    rendered and [Some d] when it is rendered with [disabled = d]. *)
Inductive View :=
| LoadingCard
| ErrorCard (message : string)
| NotFoundCard
| DreamPage (warning : bool) (continueButton : option bool)
    (cards : list ConceptResponse) (copiedIcon : bool).

Definition render (st : State) : View :=
  if isLoading st then LoadingCard
  else if truthy_opt (error st) then
    ErrorCard (match error st with Some m => m | None => "" end)
  else
    match dream st with
    | None => NotFoundCard
    | Some _ =>
        DreamPage (length (concepts st) <? 2)%nat
          (if (2 <=? length (concepts st))%nat
           then Some (isContinuing st) else None)
          (concepts st) (copied st)
    end.

(** The "Try Again" button exists. *)
Definition tryAgainAvailable (st : State) : bool :=
  match render st with
  | ErrorCard _ => true
  | _ => false
  end.

(** The continue button exists and is enabled.

    Modelled from the spec: the [Button] of [@/components/ui/button] is
    not among the sources.  The specification calls an action with
    [disabled] set "disabled/unavailable"; a disabled button, like one
    that is not rendered, delivers no click. *)
Definition continueAvailable (st : State) : bool :=
  match render st with
  | DreamPage _ (Some false) _ _ => true
  | _ => false
  end.

(** The copy-link button exists. *)
Definition copyAvailable (st : State) : bool :=
  match render st with
  | DreamPage _ _ _ _ => true
  | _ => false
  end.

(** What can happen to the component: the router gives [useParams] a
    new [dreamId] (the route [/dream/:dreamId] keeps the same component
    instance), a button is clicked, a clipboard write of [copyLink]
    succeeds or fails, a two-second timer of [copyLink] fires, the
    [i]-th suspended call has its [fetch] settled. *)
Inductive Event :=
| RouteChange (newDreamId : option string)
| ClickTryAgain
| ClickContinue
| ClickCopy
| ClipboardSettles (written : bool)
| CopiedTimeout
| DreamFetchSettles (i : nat) (o : Outcome DreamGetResponse)
| ContinueFetchSettles (i : nat) (o : Outcome DreamContinueResponse).

(** The effect with dependency list [[dreamId]]. *)
Definition dreamIdEffect (s : Sys) : Sys :=
  if truthy_opt (dreamId s) then loadDream false (dreamId s) s else s.

Definition step (e : Event) (s : Sys) : Sys :=
  match e with
  | RouteChange newDreamId =>
      if option_string_eqb newDreamId (dreamId s) then s
      else dreamIdEffect (withDreamId newDreamId s)
  | ClickTryAgain =>
      if tryAgainAvailable (state s) then loadDream false (dreamId s) s
      else s
  | ClickContinue =>
      if continueAvailable (state s) then continueDream (dreamId s) s
      else s
  | ClickCopy =>
      if copyAvailable (state s)
      then withClipboardWrites (S (clipboardWrites s)) s
      else s
  | ClipboardSettles written =>
      match clipboardWrites s with
      | O => s
      | S n =>
          if written then
            withCopyTimers (S (copyTimers s))
              (withState (setCopied true (state s))
                 (withClipboardWrites n s))
          else withClipboardWrites n s
      end
  | CopiedTimeout =>
      match copyTimers s with
      | O => s
      | S n => withCopyTimers n (withState (setCopied false (state s)) s)
      end
  | DreamFetchSettles i o =>
      match nth_error (suspended s) i with
      | Some (AwaitDreamFetch _ resume) =>
          loadDream_settle resume o
            (withSuspended (remove_nth i (suspended s)) s)
      | _ => s
      end
  | ContinueFetchSettles i o =>
      match nth_error (suspended s) i with
      | Some (AwaitContinueFetch _ d) =>
          continueDream_settle d o
            (withSuspended (remove_nth i (suspended s)) s)
      | _ => s
      end
  end.

(** Mounting: the initial state, then the first run of the effect. *)
Definition mount (e : Api.Env) (routeDreamId : option string) : Sys :=
  dreamIdEffect
    {| env := e; dreamId := routeDreamId; state := initialState;
       suspended := []; sent := []; clipboardWrites := 0;
       copyTimers := 0 |}.

Definition run : list Event -> Sys -> Sys := runWith step.

(** Requests whose [fetch] has not settled yet. *)
Definition outstanding (s : Sys) : list Request :=
  map requestOf (suspended s).

Definition outstandingContinues (s : Sys) : list Suspended :=
  filter isContinueFetch (suspended s).

Definition outstandingDreamFetches (s : Sys) : list Suspended :=
  filter isDreamFetch (suspended s).

(** *** Notions used to state the properties *)

(** A dream and its answers, for the examples. *)
Definition sampleDream : Dream :=
  {| id := "d1"; created_at := "2025-01-01T00:00:00Z" |}.

Definition seed (name : string) : ConceptResponse :=
  {| concept_id := name; content := "a seed"; parent1_id := None;
     parent2_id := None |}.

Definition sampleBody (names : list string) : DreamGetResponse :=
  {| data_dream := sampleDream; data_concepts := map seed names |}.

(** The view of dream [d1] once its load has been answered with the
    given concepts. *)
Definition loaded (names : list string) : Sys :=
  step (DreamFetchSettles 0 (Fulfilled (okResponse (sampleBody names))))
       (mount None (Some "d1")).



(** The ways a load fails, each with the text handed to [setError]:
    the [fetch] is rejected, the status is 404, the status is another
    non-success one, the body does not decode. *)
Inductive LoadFailsWith : Outcome DreamGetResponse -> string -> Prop :=
| LoadRejectedError (m : string) :
    LoadFailsWith (Rejected (ErrorObject m)) m
| LoadRejectedOther :
    LoadFailsWith (Rejected OtherValue) "Failed to load dream"
| LoadNotFound (r : Response DreamGetResponse) :
    status r = 404 -> LoadFailsWith (Fulfilled r) "Dream not found"
| LoadStatusNotOk (r : Response DreamGetResponse) :
    ok r = false -> status r <> 404 ->
    LoadFailsWith (Fulfilled r) ("Failed to load dream: " ++ statusText r)
| LoadBodyError (r : Response DreamGetResponse) (m : string) :
    ok r = true -> json r = inl (ErrorObject m) ->
    LoadFailsWith (Fulfilled r) m
| LoadBodyOther (r : Response DreamGetResponse) :
    ok r = true -> json r = inl OtherValue ->
    LoadFailsWith (Fulfilled r) "Failed to load dream".

(** The retry affordance: the "Try Again" button is shown, and a click
    on it calls [loadDream] once more, which for a non-empty route
    parameter sends the GET of that dream again, clears the error and
    shows the loading card, and without one sends nothing. *)
Definition retryOffered (s : Sys) : Prop :=
  tryAgainAvailable (state s) = true
  /\ (forall d, dreamId s = Some d -> truthy d = true ->
        let s' := step ClickTryAgain s in
        sent s'
        = (sent s
           ++ [{| method := GET;
                  url := Api.createApiUrl (env s) ("v1/dream/" ++ d) |}])%list
        /\ suspended s'
           = (suspended s
              ++ [AwaitDreamFetch
                    {| method := GET;
                       url := Api.createApiUrl (env s) ("v1/dream/" ++ d) |}
                    false])%list
        /\ error (state s') = None
        /\ render (state s') = LoadingCard)
  /\ (truthy_opt (dreamId s) = false ->
        let s' := step ClickTryAgain s in
        sent s' = sent s /\ suspended s' = suspended s
        /\ error (state s') = Some "No dream ID provided").

Definition isRouteChange (e : Event) : bool :=
  match e with
  | RouteChange _ => true
  | _ => false
  end.

(** No call is outstanding. *)
Definition idle (s : Sys) : bool :=
  match suspended s with
  | [] => true
  | _ :: _ => false
  end.

(** The event makes the effect call [loadDream]: it is a route change
    that gives the parameter a new, non-empty value. *)
Definition startsLoad (e : Event) (s : Sys) : bool :=
  match e with
  | RouteChange newDreamId =>
      negb (option_string_eqb newDreamId (dreamId s))
      && truthy_opt newDreamId
  | _ => false
  end.

(** A run in which a route change starts a load only while no call is
    outstanding, so that this load overlaps no other call.  Clicks
    cannot start overlapping calls: their buttons are not shown while
    a load is outstanding and while the error card is up, and the
    continue button is disabled while a continuation is under way. *)
Fixpoint calm (events : list Event) (s : Sys) : bool :=
  match events with
  | [] => true
  | e :: rest => (negb (startsLoad e s) || idle s) && calm rest (step e s)
  end.

(** A session: the route parameter stays what it was at mount. *)
Definition fixedRoute (events : list Event) : bool :=
  forallb (fun e => negb (isRouteChange e)) events.

(** Calls of [continueDream] that have not reached their [finally]. *)
Definition continueCalls (s : Sys) : list Suspended :=
  filter isContinueCall (suspended s).

(** The continuation lock: [isContinuing] is set exactly while one
    call of [continueDream] is under way. *)
Definition continueLock (s : Sys) : Prop :=
  length (continueCalls s) = if isContinuing (state s) then 1 else 0.

(** What holds of a session: at most one call is suspended, and the
    flags tell which. *)
Definition sessionInv (s : Sys) : Prop :=
  match suspended s with
  | [] => isContinuing (state s) = false
  | [AwaitDreamFetch _ resume] =>
      isLoading (state s) = true /\ error (state s) = None
      /\ isContinuing (state s) = resume
  | [AwaitContinueFetch _ _] =>
      isLoading (state s) = false /\ error (state s) = None
      /\ isContinuing (state s) = true
  | _ => False
  end.

(** Every request sent was built by [createApiUrl]. *)
Definition throughGateway (s : Sys) : Prop :=
  Forall (fun r => exists endpoint, url r = Api.createApiUrl (env s) endpoint)
         (sent s).

End DreamView.

(** ** [components/FindDreamsDropdown.tsx] *)

Module FindDreamsDropdown.

Import Js Fetch.

Record DreamSummary := {
  id : string;
  created_at : string;
  label : string
}.

Record DreamListResponse := {
  data_dreams : list DreamSummary;
  has_more : bool;
  total_count : nat
}.

(** The five [useState] cells of the component. *)
Record State := {
  dreams : list DreamSummary;
  loading : bool;
  hasMore : bool;
  error : option string;
  isDropdownOpen : bool
}.

Definition setDreams (f : list DreamSummary -> list DreamSummary)
    (st : State) : State :=
  {| dreams := f (dreams st); loading := loading st; hasMore := hasMore st;
     error := error st; isDropdownOpen := isDropdownOpen st |}.

Definition setLoading (v : bool) (st : State) : State :=
  {| dreams := dreams st; loading := v; hasMore := hasMore st;
     error := error st; isDropdownOpen := isDropdownOpen st |}.

Definition setHasMore (v : bool) (st : State) : State :=
  {| dreams := dreams st; loading := loading st; hasMore := v;
     error := error st; isDropdownOpen := isDropdownOpen st |}.

Definition setError (v : option string) (st : State) : State :=
  {| dreams := dreams st; loading := loading st; hasMore := hasMore st;
     error := v; isDropdownOpen := isDropdownOpen st |}.

Definition setIsDropdownOpen (v : bool) (st : State) : State :=
  {| dreams := dreams st; loading := loading st; hasMore := hasMore st;
     error := error st; isDropdownOpen := v |}.

Definition initialState : State :=
  {| dreams := []; loading := false; hasMore := true; error := None;
     isDropdownOpen := false |}.

Definition ITEMS_PER_PAGE : nat := 20.

(** A [fetchDreams] call suspended at its [await fetch(...)]: the
    request it issued and its two arguments. *)
Record Suspended := {
  req : Request;
  offset : nat;
  reset : bool
}.

(** The component instance: state cells, suspended calls, every request
    sent so far (oldest first), and the paths passed to [navigate]. *)
Record Sys := {
  state : State;
  suspended : list Suspended;
  sent : list Request;
  navigated : list string
}.

Definition withState (st : State) (s : Sys) : Sys :=
  {| state := st; suspended := suspended s; sent := sent s;
     navigated := navigated s |}.

Definition withSuspended (l : list Suspended) (s : Sys) : Sys :=
  {| state := state s; suspended := l; sent := sent s;
     navigated := navigated s |}.

Definition listUrl (offset : nat) : string :=
  "http://localhost:8000/v1/dream/list?offset=" ++ of_number offset
    ++ "&limit=" ++ of_number ITEMS_PER_PAGE.

(** [fetchDreams], up to its [await fetch(...)].  The [loading] it
    tests is the one of the render that created the callback. *)
Definition fetchDreams (offset : nat) (reset : bool) (s : Sys) : Sys :=
  if loading (state s) then s
  else
    let r := {| method := GET; url := listUrl offset |} in
    let t := {| req := r; offset := offset; reset := reset |} in
    {| state := setError None (setLoading true (state s));
       suspended := (suspended s ++ [t])%list;
       sent := (sent s ++ [r])%list;
       navigated := navigated s |}.

(** The [try] block of [fetchDreams] from the settled [fetch] on. *)
Definition fetchDreams_try (o : Outcome DreamListResponse)
    : Thrown + DreamListResponse :=
  match o with
  | Rejected err => inl err
  | Fulfilled r =>
      if negb (ok r) then
        inl (ErrorObject ("Failed to fetch dreams: " ++ statusText r))
      else json r
  end.

(** [fetchDreams] from its [await] to its end. *)
Definition fetchDreams_settle (reset : bool)
    (o : Outcome DreamListResponse) (s : Sys) : Sys :=
  let st1 :=
    match fetchDreams_try o with
    | inr data =>
        setHasMore (has_more data)
          (setDreams
             (fun prev =>
                if reset then data_dreams data
                else (prev ++ data_dreams data)%list)
             (state s))
    | inl err =>
        setError (Some (message_or err "Failed to load dreams")) (state s)
    end in
  withState (setLoading false st1) s.

(** The effect "load initial dreams when dropdown opens". *)
Definition openEffect (s : Sys) : Sys :=
  if isDropdownOpen (state s) && (length (dreams (state s)) =? 0)%nat
  then fetchDreams 0 true s
  else s.

(** Its dependency list [[isDropdownOpen, dreams.length, fetchDreams]];
    [fetchDreams] is a new function exactly when [loading] changed. *)
Definition openEffectDepsChanged (before after : State) : bool :=
  negb (Bool.eqb (isDropdownOpen before) (isDropdownOpen after))
  || negb (length (dreams before) =? length (dreams after))%nat
  || negb (Bool.eqb (loading before) (loading after)).

(** The render that follows a state change: the effect runs when one
    of its dependencies changed.  (When the effect itself starts a
    fetch, [loading] changes and the effect runs once more, finding
    [loading] set: lemma [openEffect_rerun].) *)
Definition commit (before : State) (s : Sys) : Sys :=
  if openEffectDepsChanged before (state s) then openEffect s else s.

(** What the component returns, reduced to the parts that decide which
    actions exist. *)
Record View := {
  errorBanner : option string;
  noDreamsFound : bool;
  items : list DreamSummary;
  loadingRow : bool;
  sentinel : bool;
  allLoaded : bool
}.

Definition render (st : State) : View :=
  let empty :=
    (length (dreams st) =? 0)%nat && negb (loading st)
    && negb (truthy_opt (error st)) in
  {| errorBanner := if truthy_opt (error st) then error st else None;
     noDreamsFound := empty;
     items := if empty then [] else dreams st;
     loadingRow := loading st;
     sentinel :=
       hasMore st && negb (loading st) && (0 <? length (dreams st))%nat;
     allLoaded := negb (hasMore st) && (0 <? length (dreams st))%nat |}.

Definition hasItem (dreamId : string) (l : list DreamSummary) : bool :=
  existsb (fun d => String.eqb (id d) dreamId) l.

(** What can happen to the component: the dropdown reports
    [onOpenChange], the observer reports its entry for the sentinel, an
    item is clicked, the [i]-th suspended call has its [fetch] settled.
    The observer watches the sentinel [div] only, so it reports nothing
    unless that [div] is rendered; whether the dropdown library shows
    its content is not looked at, which allows more runs than the
    browser does, never fewer. *)
Inductive Event :=
| OpenChange (open : bool)
| Intersect (isIntersecting : bool)
| SelectDream (dreamId : string)
| FetchSettles (i : nat) (o : Outcome DreamListResponse).

(** The handler of each event, before the render that follows it. *)
Definition handle (e : Event) (s : Sys) : Sys :=
  match e with
  | OpenChange open => withState (setIsDropdownOpen open (state s)) s
  | Intersect isIntersecting =>
      if sentinel (render (state s)) then
        if isIntersecting && hasMore (state s) && negb (loading (state s))
        then fetchDreams (length (dreams (state s))) false s
        else s
      else s
  | SelectDream dreamId =>
      if hasItem dreamId (items (render (state s))) then
        {| state := setIsDropdownOpen false (state s);
           suspended := suspended s; sent := sent s;
           navigated :=
             (navigated s ++ [append "/dream/" dreamId])%list |}
      else s
  | FetchSettles i o =>
      match nth_error (suspended s) i with
      | Some t =>
          fetchDreams_settle (reset t) o
            (withSuspended (remove_nth i (suspended s)) s)
      | None => s
      end
  end.

Definition step (e : Event) (s : Sys) : Sys :=
  commit (state s) (handle e s).

(** Mounting: the first run of the effect finds the dropdown closed. *)
Definition mount : Sys :=
  openEffect
    {| state := initialState; suspended := []; sent := [];
       navigated := [] |}.

Definition run : list Event -> Sys -> Sys := runWith step.

(** Requests whose [fetch] has not settled yet. *)
Definition outstanding (s : Sys) : list Request :=
  map req (suspended s).

(** *** A backend for the list endpoint

    Modelled from the spec: the backend is not among the sources.  The
    specification gives the contract of [GET /v1/dream/list]: an
    offset-based cursor and the answer [{ dreams, has_more,
    total_count }], dreams in the server's order. *)
Definition listDreams (db : list DreamSummary) (offset limit : nat)
    : DreamListResponse :=
  {| data_dreams := firstn limit (skipn offset db);
     has_more := (offset + limit <? length db)%nat;
     total_count := length db |}.

Definition answer (db : list DreamSummary) (t : Suspended)
    : Outcome DreamListResponse :=
  Fulfilled
    {| status := 200; statusText := "OK";
       json := inr (listDreams db (offset t) ITEMS_PER_PAGE) |}.

(** The backend answers the oldest outstanding request. *)
Definition served (db : list DreamSummary) (s : Sys) : Sys :=
  match suspended s with
  | t :: _ => step (FetchSettles 0 (answer db t)) s
  | [] => s
  end.

(** The scenario of the specification: open the browser, then reach
    the sentinel twice, each request answered before the next event. *)
Definition openAndScrollTwice (db : list DreamSummary) : Sys :=
  let s1 := served db (step (OpenChange true) mount) in
  let s2 := served db (step (Intersect true) s1) in
  served db (step (Intersect true) s2).

(** *** Notions used to state the properties *)

(** The fetch lock: [loading] is set exactly while one call of
    [fetchDreams] is suspended. *)
Definition fetchLock (s : Sys) : Prop :=
  length (suspended s) = if loading (state s) then 1 else 0.

(** A suspended initial fetch ([reset]) finds the list still empty
    when it settles. *)
Definition resetOnEmpty (s : Sys) : Prop :=
  forall t, In t (suspended s) -> reset t = true -> dreams (state s) = [].

(** Forty-five summaries, for the examples. *)
Definition sampleDream (n : nat) : DreamSummary :=
  {| id := of_number n; created_at := "2025-01-01T00:00:00Z";
     label := "Dream " ++ of_number n |}.

Definition sampleDreams : list DreamSummary := map sampleDream (seq 0 45).

End FindDreamsDropdown.

(** ** [components/views/NewDreamView.tsx] *)

Module NewDreamView.

Import Js Fetch.

Record GeneratedConcept := { content : string }.

Record DreamCreateResponse := { concepts : list GeneratedConcept }.

Record DreamStartRequest := { concept_1 : string; concept_2 : string }.

Record DreamStartResponse := { success : bool; dream_id : string }.

(** The five [useState] cells of the component. *)
Record State := {
  isLoading : bool;
  isStarting : bool;
  concept1 : string;
  concept2 : string;
  error : option string
}.

Definition setIsLoading (v : bool) (st : State) : State :=
  {| isLoading := v; isStarting := isStarting st; concept1 := concept1 st;
     concept2 := concept2 st; error := error st |}.

Definition setIsStarting (v : bool) (st : State) : State :=
  {| isLoading := isLoading st; isStarting := v; concept1 := concept1 st;
     concept2 := concept2 st; error := error st |}.

Definition setConcept1 (v : string) (st : State) : State :=
  {| isLoading := isLoading st; isStarting := isStarting st; concept1 := v;
     concept2 := concept2 st; error := error st |}.

Definition setConcept2 (v : string) (st : State) : State :=
  {| isLoading := isLoading st; isStarting := isStarting st;
     concept1 := concept1 st; concept2 := v; error := error st |}.

Definition setError (v : option string) (st : State) : State :=
  {| isLoading := isLoading st; isStarting := isStarting st;
     concept1 := concept1 st; concept2 := concept2 st; error := v |}.

Definition initialState : State :=
  {| isLoading := false; isStarting := false; concept1 := "";
     concept2 := ""; error := None |}.

(** A call suspended at its [await fetch(...)]; neither call reads its
    closure after the await. *)
Inductive Suspended := AwaitGenerate | AwaitStart.

Definition isStart (t : Suspended) : bool :=
  match t with
  | AwaitStart => true
  | AwaitGenerate => false
  end.

Definition isGenerate (t : Suspended) : bool :=
  match t with
  | AwaitGenerate => true
  | AwaitStart => false
  end.

(** A request as sent: method, URL, and the object given to
    [JSON.stringify] for the body, if any. *)
Record Sent := {
  request : Request;
  body : option DreamStartRequest
}.

(** The page: state cells, suspended calls, every request sent so far
    (oldest first), and the paths passed to [navigate]. *)
Record Sys := {
  state : State;
  suspended : list Suspended;
  sent : list Sent;
  navigated : list string
}.

Definition withState (st : State) (s : Sys) : Sys :=
  {| state := st; suspended := suspended s; sent := sent s;
     navigated := navigated s |}.

Definition withSuspended (l : list Suspended) (s : Sys) : Sys :=
  {| state := state s; suspended := l; sent := sent s;
     navigated := navigated s |}.

Definition generateRequest : Sent :=
  {| request := {| method := GET;
                   url := "http://localhost:8000/v1/dream/new" |};
     body := None |}.

Definition startRequest (b : DreamStartRequest) : Sent :=
  {| request := {| method := POST;
                   url := "http://localhost:8000/v1/dream/start" |};
     body := Some b |}.

(** [data.concepts[i]?.content || ""]. *)
Definition contentAt (i : nat) (data : DreamCreateResponse) : string :=
  match nth_error (concepts data) i with
  | Some c => if truthy (content c) then content c else ""
  | None => ""
  end.

(** [generateInitialConcepts], up to its [await fetch(...)]. *)
Definition generateInitialConcepts (s : Sys) : Sys :=
  {| state := setError None (setIsLoading true (state s));
     suspended := (suspended s ++ [AwaitGenerate])%list;
     sent := (sent s ++ [generateRequest])%list;
     navigated := navigated s |}.

(** The [try] block of [generateInitialConcepts] from the settled
    [fetch] on. *)
Definition generate_try (o : Outcome DreamCreateResponse)
    : Thrown + DreamCreateResponse :=
  match o with
  | Rejected err => inl err
  | Fulfilled r =>
      if negb (ok r) then
        inl (ErrorObject ("Failed to generate concepts: " ++ statusText r))
      else json r
  end.

(** [generateInitialConcepts] from its [await] to its end. *)
Definition generate_settle (o : Outcome DreamCreateResponse) (s : Sys)
    : Sys :=
  let st1 :=
    match generate_try o with
    | inr data =>
        setConcept2 (contentAt 1 data)
          (setConcept1 (contentAt 0 data) (state s))
    | inl err =>
        setError (Some (message_or err "Failed to generate concepts"))
          (state s)
    end in
  withState (setIsLoading false st1) s.

(** The [try] block of [startDreaming] from the settled [fetch] on: the
    id to navigate to, or what is thrown. *)
Definition start_try (o : Outcome DreamStartResponse) : Thrown + string :=
  match o with
  | Rejected err => inl err
  | Fulfilled r =>
      if negb (ok r) then
        inl (ErrorObject ("Failed to start dream: " ++ statusText r))
      else
        match json r with
        | inl err => inl err
        | inr data =>
            if success data && truthy (dream_id data)
            then inr (dream_id data)
            else inl (ErrorObject "Dream start was not successful")
        end
  end.

(** [startDreaming] from its [await fetch(...)] on. *)
Definition start_settle (o : Outcome DreamStartResponse) (s : Sys) : Sys :=
  match start_try o with
  | inr id =>
      {| state := setIsStarting false (state s);
         suspended := suspended s; sent := sent s;
         navigated := (navigated s ++ [append "/dream/" id])%list |}
  | inl err =>
      withState
        (setIsStarting false
           (setError (Some (message_or err "Failed to start dream"))
              (state s))) s
  end.

(** What the component returns below the heading.  The editor carries
    the two texts, the [disabled] of the start button and whether it
    reads "Starting Dream..."; [Blank] is the [null] of the last
    branch. *)
Inductive View :=
| LoadingCard
| ErrorCard (message : string)
| Editor (text1 text2 : string) (startDisabled starting : bool)
| Blank.

Section WithTrim.

(** [String.prototype.trim]. *)
Variable trim : string -> string.

(** [startDreaming], up to its [await fetch(...)]. *)
Definition startDreaming (s : Sys) : Sys :=
  if negb (truthy (trim (concept1 (state s))))
     || negb (truthy (trim (concept2 (state s))))
  then withState (setError (Some "Both concepts must be filled in") (state s)) s
  else
    let requestBody :=
      {| concept_1 := trim (concept1 (state s));
         concept_2 := trim (concept2 (state s)) |} in
    {| state := setError None (setIsStarting true (state s));
       suspended := (suspended s ++ [AwaitStart])%list;
       sent := (sent s ++ [startRequest requestBody])%list;
       navigated := navigated s |}.

Definition render (st : State) : View :=
  if isLoading st then LoadingCard
  else if truthy_opt (error st) then
    ErrorCard (match error st with Some m => m | None => "" end)
  else if truthy (concept1 st) && truthy (concept2 st) then
    Editor (concept1 st) (concept2 st)
      (isStarting st
       || negb (truthy (trim (concept1 st)))
       || negb (truthy (trim (concept2 st))))
      (isStarting st)
  else Blank.

Definition editorShown (st : State) : bool :=
  match render st with
  | Editor _ _ _ _ => true
  | _ => false
  end.

Definition startAvailable (st : State) : bool :=
  match render st with
  | Editor _ _ false _ => true
  | _ => false
  end.

Definition tryAgainAvailable (st : State) : bool :=
  match render st with
  | ErrorCard _ => true
  | _ => false
  end.

(** Mounting: the initial state, then the effect with no dependency. *)
Definition mount : Sys :=
  generateInitialConcepts
    {| state := initialState; suspended := []; sent := [];
       navigated := [] |}.

(** What can happen to the page: a textarea reports [onChange], a
    button is clicked, the [i]-th suspended call has its [fetch]
    settled.  "Re-roll Concepts" calls [window.location.reload()]: the
    page is loaded anew, which drops the calls that were suspended. *)
Inductive Event :=
| ChangeConcept1 (text : string)
| ChangeConcept2 (text : string)
| ClickTryAgain
| ClickReroll
| ClickStart
| GenerateSettles (i : nat) (o : Outcome DreamCreateResponse)
| StartSettles (i : nat) (o : Outcome DreamStartResponse).

Definition step (e : Event) (s : Sys) : Sys :=
  match e with
  | ChangeConcept1 text =>
      if editorShown (state s) then withState (setConcept1 text (state s)) s
      else s
  | ChangeConcept2 text =>
      if editorShown (state s) then withState (setConcept2 text (state s)) s
      else s
  | ClickTryAgain =>
      if tryAgainAvailable (state s) then generateInitialConcepts s else s
  | ClickReroll =>
      if editorShown (state s) then
        generateInitialConcepts
          {| state := initialState; suspended := []; sent := sent s;
             navigated := navigated s |}
      else s
  | ClickStart =>
      if startAvailable (state s) then startDreaming s else s
  | GenerateSettles i o =>
      match nth_error (suspended s) i with
      | Some AwaitGenerate =>
          generate_settle o (withSuspended (remove_nth i (suspended s)) s)
      | _ => s
      end
  | StartSettles i o =>
      match nth_error (suspended s) i with
      | Some AwaitStart =>
          start_settle o (withSuspended (remove_nth i (suspended s)) s)
      | _ => s
      end
  end.

Definition run : list Event -> Sys -> Sys := runWith step.

(** The start lock and the loading flag: each is set exactly while one
    call of its kind is suspended. *)
Definition startLock (s : Sys) : Prop :=
  length (filter isStart (suspended s))
  = if isStarting (state s) then 1 else 0.

Definition generateLock (s : Sys) : Prop :=
  length (filter isGenerate (suspended s))
  = if isLoading (state s) then 1 else 0.

End WithTrim.

(** Removal of the blanks, tabs and line ends of ASCII at both ends,
    for the examples. *)
Definition isBlank (c : ascii) : bool :=
  match c with
  | " "%char | "009"%char | "010"%char | "011"%char | "012"%char
  | "013"%char => true
  | _ => false
  end.

Fixpoint trimStart (s : string) : string :=
  match s with
  | String c rest => if isBlank c then trimStart rest else s
  | EmptyString => EmptyString
  end.

Fixpoint trimEnd (s : string) : string :=
  match s with
  | EmptyString => EmptyString
  | String c rest =>
      match trimEnd rest with
      | EmptyString => if isBlank c then EmptyString else String c EmptyString
      | rest' => String c rest'
      end
  end.

Definition trimAscii (s : string) : string := trimEnd (trimStart s).

Definition generated (a b : string) : Outcome DreamCreateResponse :=
  Fulfilled (okResponse {| concepts := [{| content := a |};
                                        {| content := b |}] |}).

End NewDreamView.

(** ** [components/ConceptCard.tsx] *)

Module ConceptCard.

Import Js DreamView.

Definition getConceptType (concept : ConceptResponse) : string :=
  if negb (truthy_opt (parent1_id concept))
     && negb (truthy_opt (parent2_id concept))
  then "Initial" else "Generated".

Inductive BadgeVariant := VariantSecondary | VariantDefault.

Definition getConceptVariant (concept : ConceptResponse) : BadgeVariant :=
  if negb (truthy_opt (parent1_id concept))
     && negb (truthy_opt (parent2_id concept))
  then VariantSecondary else VariantDefault.

(** A parent badge: the text it shows, [parentId.substring(0, 5)], and
    the id its click hands to [handleParentClick].  [substring] counts
    code units, so the text is kept as code units: the first five of
    the id, which may end in the first half of a surrogate pair. *)
Record ParentBadge := {
  badgeText : option (list N);
  badgeTarget : string
}.

Definition parentBadge (parentId : string) : ParentBadge :=
  {| badgeText := option_map (firstn 5) (codeUnits parentId);
     badgeTarget := parentId |}.

(** The right half of the card's bottom row. *)
Inductive ParentInfo :=
| Parents (first second : ParentBadge)
| Parent (only : ParentBadge)
| InitialConceptText.

Definition parentInfo (concept : ConceptResponse) : ParentInfo :=
  let unwrap v := match v with Some p => p | None => "" end in
  if truthy_opt (parent1_id concept) && truthy_opt (parent2_id concept)
  then Parents (parentBadge (unwrap (parent1_id concept)))
               (parentBadge (unwrap (parent2_id concept)))
  else if truthy_opt (parent1_id concept)
  then Parent (parentBadge (unwrap (parent1_id concept)))
  else InitialConceptText.

(** The [id] attribute of the card, and the one [handleParentClick]
    looks up. *)
Definition cardElementId (conceptId : string) : string :=
  "concept-" ++ conceptId.

End ConceptCard.

(** ** Scrolling the dream browser *)

Module Scrolling.

Import Js Fetch FindDreamsDropdown.

(** Open the browser, then reach the sentinel [n] times, the backend
    answering each request before the next event. *)
Fixpoint openAndScroll (db : list DreamSummary) (n : nat) : Sys :=
  match n with
  | O => served db (step (OpenChange true) mount)
  | S k => served db (step (Intersect true) (openAndScroll db k))
  end.

(** The request for the page that starts at [offset]. *)
Definition pageRequest (offset : nat) : Request :=
  {| method := GET; url := listUrl offset |}.

(** A fetch that leaves the list as it is: it failed, or its page is
    empty. *)
Definition bringsNothing (o : Outcome DreamListResponse) : bool :=
  match succeeded o with
  | None => true
  | Some data =>
      match data_dreams data with
      | [] => true
      | _ :: _ => false
      end
  end.

End Scrolling.

(** ** Notions used to state further properties *)

Module Notions.

Import Js Fetch.

(** The two requests of the dream view. *)
Definition dreamRequest (e : Api.Env) (id : string) : Request :=
  {| method := GET; url := Api.createApiUrl e ("v1/dream/" ++ id) |}.

Definition continueRequest (e : Api.Env) (id : string) : Request :=
  {| method := POST;
     url := Api.createApiUrl e ("v1/dream/" ++ id ++ "/continue") |}.

(** A request of the dream view for a dream with a non-empty id. *)
Definition forSomeDream (e : Api.Env) (r : Request) : Prop :=
  exists id, truthy id = true
             /\ (r = dreamRequest e id \/ r = continueRequest e id).

(** A suspended call of the dream view whose request is the one of its
    kind for a non-empty id; a continuation keeps that id. *)
Definition callForDream (e : Api.Env) (t : DreamView.Suspended) : Prop :=
  match t with
  | DreamView.AwaitDreamFetch req _ =>
      exists id, truthy id = true /\ req = dreamRequest e id
  | DreamView.AwaitContinueFetch req id =>
      truthy id = true /\ req = continueRequest e id
  end.

Definition dreamViewRequestsInv (e : Api.Env) (s : DreamView.Sys) : Prop :=
  DreamView.env s = e
  /\ Forall (callForDream e) (DreamView.suspended s)
  /\ Forall (forSomeDream e) (DreamView.sent s).

(** The "Copied!" mark is up only while a timer is pending. *)
Definition copiedInv (s : DreamView.Sys) : Prop :=
  DreamView.copied (DreamView.state s) = true -> 0 < DreamView.copyTimers s.

(** What holds of the dream browser in every reachable state, beyond
    its fetch lock. *)
Definition browserInv (s : FindDreamsDropdown.Sys) : Prop :=
  let st := FindDreamsDropdown.state s in
  (FindDreamsDropdown.isDropdownOpen st = true ->
   FindDreamsDropdown.dreams st = [] ->
   FindDreamsDropdown.loading st = true)
  /\ (FindDreamsDropdown.loading st = true ->
      FindDreamsDropdown.error st = None
      /\ (FindDreamsDropdown.hasMore st = true
          \/ FindDreamsDropdown.dreams st = []))
  /\ Forall (fun t =>
               FindDreamsDropdown.offset t
               = length (FindDreamsDropdown.dreams st)
               /\ FindDreamsDropdown.req t
                  = Scrolling.pageRequest (FindDreamsDropdown.offset t)
               /\ FindDreamsDropdown.reset t
                  = (FindDreamsDropdown.offset t =? 0)%nat)
            (FindDreamsDropdown.suspended s).

(** Every path the browser navigated to is the page of a dream of the
    accumulated list. *)
Definition navigatedListed (s : FindDreamsDropdown.Sys) : Prop :=
  Forall (fun p => exists d,
              In d (FindDreamsDropdown.dreams (FindDreamsDropdown.state s))
              /\ p = "/dream/" ++ FindDreamsDropdown.id d)
         (FindDreamsDropdown.navigated s).

(** The number of [true] in a list of flags. *)
Definition countTrue (flags : list bool) : nat :=
  length (filter (fun b => b) flags).

(** A request of the new-dream page: the generation request without a
    body, or the start request with two non-empty texts. *)
Definition newDreamRequest (x : NewDreamView.Sent) : Prop :=
  x = NewDreamView.generateRequest
  \/ exists b, x = NewDreamView.startRequest b
               /\ truthy (NewDreamView.concept_1 b) = true
               /\ truthy (NewDreamView.concept_2 b) = true.

Definition dreamPath (p : string) : Prop :=
  exists id, truthy id = true /\ p = "/dream/" ++ id.

(** What holds of the new-dream page in every reachable state: the two
    locks, no error and no other call while one call is under way,
    well-formed requests and paths. *)
Definition newDreamInv (trim : string -> string) (s : NewDreamView.Sys)
    : Prop :=
  NewDreamView.startLock s
  /\ NewDreamView.generateLock s
  /\ (NewDreamView.isLoading (NewDreamView.state s) = true ->
      NewDreamView.error (NewDreamView.state s) = None
      /\ NewDreamView.isStarting (NewDreamView.state s) = false)
  /\ (NewDreamView.isStarting (NewDreamView.state s) = true ->
      NewDreamView.error (NewDreamView.state s) = None
      /\ NewDreamView.isLoading (NewDreamView.state s) = false)
  /\ Forall newDreamRequest (NewDreamView.sent s)
  /\ Forall dreamPath (NewDreamView.navigated s).

End Notions.

(** * Properties *)

(** ** Invariants of runs *)

Section RunFacts.

Context {Sys Event : Type}.
Variable step : Event -> Sys -> Sys.
Variable P : Sys -> Prop.
Variable allowed : Event -> bool.
Hypothesis preserved : forall e s, allowed e = true -> P s -> P (step e s).

(** A property that every allowed event preserves holds after every
    run of allowed events. *)
Lemma runWith_invariant (events : list Event) :
  forall s, forallb allowed events = true -> P s ->
            P (runWith step events s).
Proof.
  induction events as [|e events IH]; intros s Ha Hs; [exact Hs|].
  simpl in Ha. apply andb_prop in Ha. destruct Ha as [He Ha].
  simpl. apply IH; [exact Ha|]. apply preserved; assumption.
Qed.

End RunFacts.

Lemma forallb_always {A} (l : list A) : forallb (fun _ => true) l = true.
Proof. induction l; [reflexivity | assumption]. Qed.

(** ** [lib/api.ts] *)

Module ApiFacts.

Import Api.

(** The base URL is never empty: an empty setting is falsy and falls
    back, like an absent one. *)
Lemma getApiBaseUrl_truthy (env : Env) :
  Js.truthy (getApiBaseUrl env) = true.
Proof.
  destruct env as [s|]; simpl; [|reflexivity].
  destruct (Js.truthy s) eqn:E; [exact E | reflexivity].
Qed.

Lemma getApiBaseUrl_absent : getApiBaseUrl None = "http://localhost:8000".
Proof. reflexivity. Qed.

Lemma trimTrailingSlashes_id (s : string) :
  endsWithSlash s = false -> trimTrailingSlashes s = s.
Proof.
  induction s as [|c rest IH]; intro H; [reflexivity|].
  destruct rest as [|c' rest'].
  - simpl in *. rewrite H. reflexivity.
  - change (endsWithSlash (String c (String c' rest')))
      with (endsWithSlash (String c' rest')) in H.
    change (trimTrailingSlashes (String c (String c' rest')))
      with (match trimTrailingSlashes (String c' rest') with
            | EmptyString =>
                if Ascii.eqb c "/" then EmptyString else String c EmptyString
            | String a r => String c (String a r)
            end).
    rewrite (IH H). reflexivity.
Qed.

Lemma startsWith_slash_cons (c : ascii) (rest : string) :
  Js.startsWith "/" (String c rest) = Ascii.eqb "/" c.
Proof.
  change (Js.startsWith "/" (String c rest))
    with (Ascii.eqb "/" c && true).
  apply Bool.andb_true_r.
Qed.

Lemma trimLeadingSlashes_id (s : string) :
  Js.startsWith "/" s = false -> trimLeadingSlashes s = s.
Proof.
  destruct s as [|c rest]; [reflexivity|].
  rewrite startsWith_slash_cons.
  destruct (Ascii.eqb_spec "/" c) as [E|E]; intro H; [discriminate H|].
  destruct c as [[] [] [] [] [] [] [] []]; try reflexivity.
  exfalso. apply E. reflexivity.
Qed.

Lemma startsWith_slash (s : string) :
  Js.startsWith "/" s = true -> s = String "/" (Js.slice1 s).
Proof.
  destruct s as [|c rest]; [discriminate|].
  rewrite startsWith_slash_cons.
  destruct (Ascii.eqb_spec "/" c) as [E|E]; intro H; [|discriminate H].
  subst c. reflexivity.
Qed.

(** The cleaned endpoint of [createApiUrl]. *)
Lemma cleanEndpoint_trimmed (endpoint : string) :
  Js.startsWith "//" endpoint = false ->
  (if Js.startsWith "/" endpoint then Js.slice1 endpoint else endpoint)
  = trimLeadingSlashes endpoint.
Proof.
  intro H.
  destruct (Js.startsWith "/" endpoint) eqn:E.
  - rewrite (startsWith_slash _ E) in H |- *.
    simpl. symmetry. apply trimLeadingSlashes_id. exact H.
  - symmetry. apply trimLeadingSlashes_id. exact E.
Qed.

(** C7, as stated, fails: a configured base URL that ends with a slash
    is joined to the endpoint with a doubled slash, and so is an
    endpoint that begins with two slashes. *)
Lemma createApiUrl_doubled_slash :
  createApiUrl (Some "https://daydream.melbournedev.com/") "v1/dream/new"
    = "https://daydream.melbournedev.com//v1/dream/new"
  /\ createApiUrl (Some "https://daydream.melbournedev.com/") "v1/dream/new"
     <> joinWithOneSlash
          (getApiBaseUrl (Some "https://daydream.melbournedev.com/"))
          "v1/dream/new"
  /\ createApiUrl None "//v1/dream/new"
     = "http://localhost:8000//v1/dream/new".
Proof.
  split; [reflexivity|]. split; [|reflexivity].
  vm_compute. discriminate.
Qed.

(** C7, amended: when the base URL does not end with a slash and the
    endpoint does not begin with two slashes, [createApiUrl] joins the
    two with exactly one slash, whether or not the endpoint has a
    leading slash: the result is the base, one slash, and the endpoint
    without its leading slash, which does not begin with a slash. *)
Theorem createApiUrl_one_slash (env : Env) (endpoint : string) :
  endsWithSlash (getApiBaseUrl env) = false ->
  Js.startsWith "//" endpoint = false ->
  createApiUrl env endpoint
    = joinWithOneSlash (getApiBaseUrl env) endpoint
  /\ createApiUrl env endpoint
     = getApiBaseUrl env ++ "/" ++ trimLeadingSlashes endpoint
  /\ Js.startsWith "/" (trimLeadingSlashes endpoint) = false
  /\ createApiUrl env (String "/" (trimLeadingSlashes endpoint))
     = createApiUrl env endpoint.
Proof.
  intros Hb He.
  assert (Hc := cleanEndpoint_trimmed endpoint He).
  assert (Hn : Js.startsWith "/" (trimLeadingSlashes endpoint) = false).
  { rewrite <- Hc. destruct (Js.startsWith "/" endpoint) eqn:E; [|exact E].
    rewrite (startsWith_slash _ E) in He. exact He. }
  unfold createApiUrl, joinWithOneSlash. cbv zeta.
  rewrite Hc, (trimTrailingSlashes_id _ Hb).
  repeat split; exact Hn.
Qed.

Lemma createApiUrl_one_slash_witness :
  createApiUrl None "/v1/dream/new" = "http://localhost:8000/v1/dream/new"
  /\ createApiUrl None "v1/dream/new" = "http://localhost:8000/v1/dream/new".
Proof.
  split.
  - rewrite (proj1 (createApiUrl_one_slash None "/v1/dream/new"
                      eq_refl eq_refl)).
    reflexivity.
  - rewrite (proj1 (createApiUrl_one_slash None "v1/dream/new"
                      eq_refl eq_refl)).
    reflexivity.
Defined.

End ApiFacts.

(** ** [DreamView.tsx] *)

Module DreamViewFacts.

Import Js Fetch DreamView.
Local Open Scope nat_scope.

(** *** Lists of suspended calls *)

Lemma nth_error_remove_nth_length {A} (p : A -> bool) (l : list A) :
  forall i x, nth_error l i = Some x ->
  length (filter p l)
  = (if p x then 1 else 0) + length (filter p (remove_nth i l)).
Proof.
  induction l as [|y l IH]; intros [|i] x H; simpl in H; try discriminate.
  - injection H as ->. simpl. destruct (p x); reflexivity.
  - simpl. specialize (IH i x H). destruct (p y); simpl; lia.
Qed.

Lemma filter_snoc_length {A} (p : A -> bool) (l : list A) (x : A) :
  length (filter p (l ++ [x]))
  = length (filter p l) + (if p x then 1 else 0).
Proof.
  rewrite filter_app, length_app. simpl. destruct (p x); reflexivity.
Qed.



(** *** The rendered view *)

Lemma render_error (st : State) (m : string) :
  isLoading st = false -> error st = Some m -> truthy m = true ->
  render st = ErrorCard m.
Proof.
  intros Hl He Hm. unfold render. rewrite Hl, He. simpl. rewrite Hm.
  reflexivity.
Qed.

Lemma continueAvailable_inv (st : State) :
  continueAvailable st = true ->
  isLoading st = false /\ truthy_opt (error st) = false
  /\ isContinuing st = false /\ 2 <= length (concepts st)
  /\ dream st <> None.
Proof.
  unfold continueAvailable, render.
  destruct (isLoading st); [discriminate|].
  destruct (truthy_opt (error st)); [discriminate|].
  destruct (dream st); [|discriminate].
  destruct (2 <=? length (concepts st)) eqn:E; [|discriminate].
  destruct (isContinuing st); [discriminate|].
  intros _. apply Nat.leb_le in E. repeat split; try assumption.
  discriminate.
Qed.

Lemma tryAgainAvailable_inv (st : State) :
  tryAgainAvailable st = true ->
  isLoading st = false /\ truthy_opt (error st) = true.
Proof.
  unfold tryAgainAvailable, render.
  destruct (isLoading st); [discriminate|].
  destruct (truthy_opt (error st)); [auto|].
  destruct (dream st); discriminate.
Qed.

(** C2: a dream with fewer than two concepts has no continue action:
    the dream page shows the warning and no continue button, and a
    click on the place of the button starts no request and changes
    nothing. *)
Theorem continue_unavailable_below_two_concepts (s : Sys) :
  length (concepts (state s)) < 2 ->
  continueAvailable (state s) = false
  /\ (forall w b c k,
        render (state s) = DreamPage w b c k -> w = true /\ b = None)
  /\ step ClickContinue s = s
  /\ sent (step ClickContinue s) = sent s.
Proof.
  intro H.
  assert (E2 : (2 <=? length (concepts (state s))) = false)
    by (apply Nat.leb_gt; exact H).
  assert (E1 : (length (concepts (state s)) <? 2) = true)
    by (apply Nat.ltb_lt; exact H).
  assert (A : continueAvailable (state s) = false).
  { unfold continueAvailable, render.
    destruct (isLoading (state s)); [reflexivity|].
    destruct (truthy_opt (error (state s))); [reflexivity|].
    destruct (dream (state s)); [|reflexivity].
    rewrite E2. reflexivity. }
  split; [exact A|]. split.
  - intros w b c k. unfold render.
    destruct (isLoading (state s)); [discriminate|].
    destruct (truthy_opt (error (state s))); [discriminate|].
    destruct (dream (state s)); [|discriminate].
    rewrite E1, E2. intro R. injection R as <- <- _ _. split; reflexivity.
  - unfold step. rewrite A. split; reflexivity.
Qed.

Lemma continue_unavailable_below_two_concepts_witness :
  render (state (loaded ["s1"]))
    = DreamPage true None [seed "s1"] false
  /\ step ClickContinue (loaded ["s1"]) = loaded ["s1"].
Proof.
  split; [reflexivity|].
  apply (continue_unavailable_below_two_concepts (loaded ["s1"])).
  simpl. lia.
Defined.

(** *** Continuation calls that fail *)











(** *** Loads that settle *)

Lemma status_404_not_ok {B} (r : Response B) :
  status r = 404 -> ok r = false.
Proof. intro H. unfold ok. rewrite H. reflexivity. Qed.

Lemma loadDream_try_succeeded (o : Outcome DreamGetResponse) :
  match succeeded o with
  | Some data => loadDream_try o = inr data
  | None => exists err, loadDream_try o = inl err
  end.
Proof.
  destruct o as [err | r]; simpl.
  - exists err. reflexivity.
  - destruct (ok r); simpl.
    + destruct (json r) as [err | data]; [exists err|]; reflexivity.
    + destruct (status r =? 404); eexists; reflexivity.
Qed.

(** A load that settles, in any state. *)
Lemma load_settle_state (s : Sys) (i : nat) (req : Request)
    (resume : bool) (o : Outcome DreamGetResponse) :
  nth_error (suspended s) i = Some (AwaitDreamFetch req resume) ->
  let s' := step (DreamFetchSettles i o) s in
  isLoading (state s') = false
  /\ suspended s' = remove_nth i (suspended s)
  /\ sent s' = sent s
  /\ isContinuing (state s')
     = (if resume then false else isContinuing (state s))
  /\ match loadDream_try o with
     | inr data =>
         dream (state s') = Some (data_dream data)
         /\ concepts (state s') = data_concepts data
         /\ error (state s') = error (state s)
     | inl err =>
         error (state s') = Some (message_or err "Failed to load dream")
         /\ dream (state s') = dream (state s)
         /\ concepts (state s') = concepts (state s)
     end.
Proof.
  intros Hi s'. subst s'. unfold step. rewrite Hi.
  unfold loadDream_settle.
  destruct (loadDream_try o) as [err | data]; destruct resume; simpl;
    repeat split; reflexivity.
Qed.

(** The error card carries the retry affordance. *)
Lemma retryOffered_error_card (s : Sys) (m : string) :
  render (state s) = ErrorCard m -> retryOffered s.
Proof.
  intro R.
  assert (A : tryAgainAvailable (state s) = true)
    by (unfold tryAgainAvailable; rewrite R; reflexivity).
  split; [exact A|]. split.
  - intros d Hd Ht s'. subst s'. unfold step. rewrite A.
    unfold loadDream. rewrite Hd. simpl. rewrite Ht. simpl.
    repeat split; reflexivity.
  - intros Hd s'. subst s'. unfold step. rewrite A.
    unfold loadDream. rewrite Hd. simpl. repeat split; reflexivity.
Qed.

(** C5, as stated, fails: a load whose [fetch] is rejected with an
    [Error] of empty message stores the empty string, which the view
    takes for no error; with no dream stored it shows the plain "Dream
    not found" card, which has no "Try Again" button, and a click at
    its place does nothing. *)
Lemma empty_message_load_failure_no_retry :
  let s' :=
    step (DreamFetchSettles 0 (Rejected (ErrorObject "")))
         (mount None (Some "d1")) in
  outstanding (mount None (Some "d1"))
  = [{| method := GET; url := "http://localhost:8000/v1/dream/d1" |}]
  /\ error (state s') = Some ""
  /\ render (state s') = NotFoundCard
  /\ tryAgainAvailable (state s') = false
  /\ step ClickTryAgain s' = s'.
Proof. repeat split. Qed.

(** C5, amended: a load answered with status 404 ends with the message
    "Dream not found", which the view shows; a load answered with any
    other non-success status ends with the message "Failed to load
    dream: " followed by the status text, which is never the not-found
    message; a load whose [fetch] is rejected ends with the message of
    the thrown [Error], or with "Failed to load dream" when the thrown
    value is no [Error].  In each case but that of an [Error] with an
    empty message the view is the error card with that message, which
    carries the "Try Again" button, and a click on it sends the GET of
    the route's dream again and shows the loading card.  An empty
    message leaves no error card and no button: the view is the plain
    not-found card, or the dream page when a dream was stored. *)
Theorem load_404_is_not_found (s : Sys) (i : nat) (req : Request)
    (resume : bool) (r : Response DreamGetResponse) :
  nth_error (suspended s) i = Some (AwaitDreamFetch req resume) ->
  (status r = 404 ->
   let s' := step (DreamFetchSettles i (Fulfilled r)) s in
   error (state s') = Some "Dream not found"
   /\ render (state s') = ErrorCard "Dream not found"
   /\ step ClickTryAgain s' = loadDream false (dreamId s') s'
   /\ retryOffered s')
  /\ (ok r = false -> status r <> 404 ->
      let s' := step (DreamFetchSettles i (Fulfilled r)) s in
      error (state s') = Some ("Failed to load dream: " ++ statusText r)
      /\ render (state s')
         = ErrorCard ("Failed to load dream: " ++ statusText r)
      /\ "Failed to load dream: " ++ statusText r <> "Dream not found"
      /\ step ClickTryAgain s' = loadDream false (dreamId s') s'
      /\ retryOffered s')
  /\ (let s' := step (DreamFetchSettles i (Rejected OtherValue)) s in
      error (state s') = Some "Failed to load dream"
      /\ render (state s') = ErrorCard "Failed to load dream"
      /\ step ClickTryAgain s' = loadDream false (dreamId s') s'
      /\ retryOffered s')
  /\ (forall msg,
      let s' := step (DreamFetchSettles i (Rejected (ErrorObject msg))) s in
      error (state s') = Some msg
      /\ (msg <> "" ->
          render (state s') = ErrorCard msg
          /\ step ClickTryAgain s' = loadDream false (dreamId s') s'
          /\ retryOffered s')
      /\ (msg = "" ->
          tryAgainAvailable (state s') = false
          /\ step ClickTryAgain s' = s'
          /\ render (state s')
             = match dream (state s) with
               | None => NotFoundCard
               | Some _ =>
                   DreamPage (length (concepts (state s)) <? 2)%nat
                     (if (2 <=? length (concepts (state s)))%nat
                      then Some (if resume then false
                                 else isContinuing (state s))
                      else None)
                     (concepts (state s)) (copied (state s))
               end)).
Proof.
  intro Hi.
  assert (T : forall o m,
             loadDream_try o = inl (ErrorObject m) -> truthy m = true ->
             let s' := step (DreamFetchSettles i o) s in
             error (state s') = Some m
             /\ render (state s') = ErrorCard m
             /\ step ClickTryAgain s' = loadDream false (dreamId s') s'
             /\ retryOffered s').
  { intros o m Ho Hm s'.
    destruct (load_settle_state s i req resume o Hi) as (Hl & _ & _ & _ & H).
    fold s' in Hl, H. rewrite Ho in H. destruct H as (He & _).
    simpl in He.
    assert (R : render (state s') = ErrorCard m)
      by (apply render_error; assumption).
    split; [exact He|]. split; [exact R|].
    split; [|exact (retryOffered_error_card s' m R)].
    unfold step at 1, tryAgainAvailable. rewrite R. reflexivity. }
  split; [|split; [|split]].
  - intro H4. apply T; [|reflexivity].
    simpl. rewrite (status_404_not_ok r H4). simpl.
    rewrite H4. reflexivity.
  - intros Hok Hn s'.
    assert (E : loadDream_try (Fulfilled r)
                = inl (ErrorObject
                         ("Failed to load dream: " ++ statusText r))).
    { simpl. rewrite Hok. simpl.
      destruct (Nat.eqb_spec (status r) 404); [contradiction|reflexivity]. }
    destruct (T _ _ E eq_refl) as (He & Hr & Ht & Ho).
    fold s' in He, Hr, Ht, Ho.
    split; [exact He|]. split; [exact Hr|]. split; [discriminate|].
    split; [exact Ht | exact Ho].
  - intro s'.
    destruct (load_settle_state s i req resume (Rejected OtherValue) Hi)
      as (Hl & _ & _ & _ & He & _).
    fold s' in Hl, He. simpl in He.
    assert (R : render (state s') = ErrorCard "Failed to load dream")
      by (apply render_error; [exact Hl | exact He | reflexivity]).
    split; [exact He|]. split; [exact R|].
    split; [|exact (retryOffered_error_card s' _ R)].
    unfold step at 1, tryAgainAvailable. rewrite R. reflexivity.
  - intros msg s'.
    destruct (load_settle_state s i req resume (Rejected (ErrorObject msg))
                Hi) as (Hl & _ & _ & Hc & He & Hd & Hcs).
    fold s' in Hl, Hc, He, Hd, Hcs. simpl in He.
    split; [exact He|]. split.
    + intro Hm.
      assert (Ht : truthy msg = true)
        by (destruct msg; [contradiction Hm; reflexivity | reflexivity]).
      assert (R : render (state s') = ErrorCard msg)
        by (apply render_error; assumption).
      split; [exact R|].
      split; [|exact (retryOffered_error_card s' msg R)].
      unfold step at 1, tryAgainAvailable. rewrite R. reflexivity.
    + intros ->.
      assert (Hk : copied (state s') = copied (state s)).
      { subst s'. unfold step. rewrite Hi. unfold loadDream_settle.
        simpl. destruct resume; reflexivity. }
      assert (R : render (state s')
                  = match dream (state s) with
                    | None => NotFoundCard
                    | Some _ =>
                        DreamPage (length (concepts (state s)) <? 2)%nat
                          (if (2 <=? length (concepts (state s)))%nat
                           then Some (if resume then false
                                      else isContinuing (state s))
                           else None)
                          (concepts (state s)) (copied (state s))
                    end).
      { unfold render. rewrite Hl, He, Hd, Hcs, Hc, Hk. reflexivity. }
      assert (A : tryAgainAvailable (state s') = false).
      { unfold tryAgainAvailable. rewrite R.
        destruct (dream (state s)); reflexivity. }
      split; [exact A|]. split; [|exact R].
      unfold step at 1. rewrite A. reflexivity.
Qed.

Lemma load_404_is_not_found_witness :
  let s' r := step (DreamFetchSettles 0 (Fulfilled r))
                   (mount None (Some "d1")) in
  render (state (s' (statusResponse 404 "Not Found")))
    = ErrorCard "Dream not found"
  /\ render (state (s' (statusResponse 500 "Internal Server Error")))
     = ErrorCard "Failed to load dream: Internal Server Error"
  /\ sent (step ClickTryAgain
             (s' (statusResponse 500 "Internal Server Error")))
     = [{| method := GET; url := "http://localhost:8000/v1/dream/d1" |};
        {| method := GET; url := "http://localhost:8000/v1/dream/d1" |}].
Proof.
  intro s'.
  pose (req := {| method := GET;
                  url := Api.createApiUrl None "v1/dream/d1" |}).
  split; [|split].
  - apply (proj1 (load_404_is_not_found (mount None (Some "d1")) 0 req
                    false (statusResponse 404 "Not Found") eq_refl)).
    reflexivity.
  - apply (proj1 (proj2 (load_404_is_not_found (mount None (Some "d1")) 0
                           req false
                           (statusResponse 500 "Internal Server Error")
                           eq_refl))); [reflexivity|].
    simpl. discriminate.
  - destruct (proj1 (proj2 (load_404_is_not_found (mount None (Some "d1"))
                              0 req false
                              (statusResponse 500 "Internal Server Error")
                              eq_refl)) eq_refl)
      as (_ & _ & _ & _ & _ & Hretry & _).
    + simpl. discriminate.
    + destruct (Hretry "d1" eq_refl eq_refl) as (Hs & _).
      etransitivity; [exact Hs | reflexivity].
Defined.

(** *** Runs *)

(** A property of the mounted view that every event preserves holds
    after every run. *)
Lemma run_invariant (P : Sys -> Prop) (allowed : Event -> bool) :
  (forall e s, allowed e = true -> P s -> P (step e s)) ->
  forall events s,
    forallb allowed events = true -> P s -> P (run events s).
Proof.
  intros Hstep events s. apply (runWith_invariant step P allowed Hstep).
Qed.

(** *** The continuation lock *)

Local Arguments Api.createApiUrl : simpl never.

Lemma continueLock_loadDream (d : option string) (s : Sys) :
  continueLock s -> continueLock (loadDream false d s).
Proof.
  unfold continueLock, continueCalls, loadDream. intro H.
  destruct (truthy_opt d); simpl; [|exact H].
  rewrite filter_snoc_length. simpl. rewrite Nat.add_0_r. exact H.
Qed.

Lemma continueLock_step (e : Event) (s : Sys) :
  continueLock s -> continueLock (step e s).
Proof.
  intro H. destruct e as [n | | | | w | | i o | i o]; unfold step.
  - destruct (option_string_eqb n (dreamId s)); [exact H|].
    unfold dreamIdEffect.
    destruct (truthy_opt (dreamId (withDreamId n s))); [|exact H].
    apply continueLock_loadDream. exact H.
  - destruct (tryAgainAvailable (state s)); [|exact H].
    apply continueLock_loadDream. exact H.
  - destruct (continueAvailable (state s)) eqn:A; [|exact H].
    destruct (continueAvailable_inv _ A) as (_ & _ & Hc & _).
    revert H. unfold continueLock, continueCalls, continueDream.
    rewrite Hc. intro H.
    destruct (truthy_opt (dreamId s)); simpl.
    + rewrite filter_snoc_length, H. reflexivity.
    + rewrite Hc. exact H.
  - destruct (copyAvailable (state s)); exact H.
  - destruct (clipboardWrites s); [|destruct w]; exact H.
  - destruct (copyTimers s); exact H.
  - destruct (nth_error (suspended s) i) as [[req resume | req d]|] eqn:Hi;
      try exact H.
    revert H. unfold continueLock, continueCalls, loadDream_settle.
    rewrite (nth_error_remove_nth_length isContinueCall _ _ _ Hi).
    destruct (loadDream_try o); destruct resume; simpl;
      destruct (isContinuing (state s)); lia.
  - destruct (nth_error (suspended s) i) as [[req resume | req d]|] eqn:Hi;
      try exact H.
    revert H. unfold continueLock, continueCalls, continueDream_settle.
    rewrite (nth_error_remove_nth_length isContinueCall _ _ _ Hi).
    simpl. intro H.
    assert (Hc : isContinuing (state s) = true)
      by (destruct (isContinuing (state s)); [reflexivity | lia]).
    rewrite Hc in H.
    destruct (continueDream_try o); simpl; [lia|].
    unfold loadDream. simpl. destruct (truthy d); simpl.
    + rewrite filter_snoc_length, Hc. simpl. lia.
    + lia.
Qed.

Lemma continueLock_mount (e : Api.Env) (d : option string) :
  continueLock (mount e d).
Proof.
  unfold mount, dreamIdEffect. simpl.
  destruct (truthy_opt d); [|reflexivity].
  apply continueLock_loadDream. reflexivity.
Qed.

(** In every reachable state the continuation lock holds. *)
Lemma continueLock_run (e : Api.Env) (d : option string)
    (events : list Event) :
  continueLock (run events (mount e d)).
Proof.
  apply (run_invariant continueLock (fun _ => true)).
  - intros ev s _. apply continueLock_step.
  - apply forallb_always.
  - apply continueLock_mount.
Qed.

Lemma outstandingContinues_le (s : Sys) :
  length (outstandingContinues s) <= length (continueCalls s).
Proof.
  unfold outstandingContinues, continueCalls.
  induction (suspended s) as [|[req resume | req d] l IH]; simpl.
  - lia.
  - destruct resume; simpl; lia.
  - lia.
Qed.

(** At most one continuation call is under way, so at most one
    continuation request is outstanding, and while a call is under way
    [isContinuing] is set. *)
Lemma one_continue_outstanding (e : Api.Env) (d : option string)
    (events : list Event) :
  let s := run events (mount e d) in
  length (continueCalls s) <= 1
  /\ length (outstandingContinues s) <= 1
  /\ (continueCalls s <> [] -> isContinuing (state s) = true).
Proof.
  intro s. assert (H := continueLock_run e d events). fold s in H.
  assert (L := outstandingContinues_le s). unfold continueLock in H.
  destruct (isContinuing (state s)).
  - repeat split; lia.
  - repeat split; try lia. intro N. exfalso. apply N.
    destruct (continueCalls s); [reflexivity | discriminate H].
Qed.

Lemma continueAvailable_continuing (st : State) :
  isContinuing st = true -> continueAvailable st = false.
Proof.
  intro H. unfold continueAvailable, render. rewrite H.
  destruct (isLoading st); [reflexivity|].
  destruct (truthy_opt (error st)); [reflexivity|].
  destruct (dream st); [|reflexivity].
  destruct (2 <=? length (concepts st)); reflexivity.
Qed.

Lemma continueAvailable_error (st : State) :
  truthy_opt (error st) = true -> continueAvailable st = false.
Proof.
  intro H. unfold continueAvailable, render. rewrite H.
  destruct (isLoading st); reflexivity.
Qed.

(** A second click while the first call is under way is ignored. *)
Lemma second_click_ignored (s : Sys) :
  step ClickContinue (step ClickContinue s) = step ClickContinue s.
Proof.
  assert (N : forall x, continueAvailable (state x) = false ->
                        step ClickContinue x = x)
    by (intros x Hx; unfold step; rewrite Hx; reflexivity).
  destruct (continueAvailable (state s)) eqn:A.
  - apply N. unfold step. rewrite A. unfold continueDream.
    destruct (truthy_opt (dreamId s)).
    + apply continueAvailable_continuing. reflexivity.
    + apply continueAvailable_error. reflexivity.
  - rewrite (N s A). apply N. exact A.
Qed.

(** A click on the enabled continue button sends exactly one request,
    the POST to the continue endpoint of the current dream. *)
Lemma click_sends_one_post (s : Sys) (d : string) :
  continueAvailable (state s) = true ->
  dreamId s = Some d -> truthy d = true ->
  sent (step ClickContinue s)
  = (sent s
     ++ [{| method := POST;
            url := Api.createApiUrl (env s)
                     ("v1/dream/" ++ d ++ "/continue") |}])%list.
Proof.
  intros A Hd Ht. unfold step. rewrite A. unfold continueDream.
  rewrite Hd. simpl. rewrite Ht. reflexivity.
Qed.

(** *** Sessions: runs without route change *)

Lemma sessionInv_loadDream (d : option string) (s : Sys) :
  suspended s = [] -> isContinuing (state s) = false ->
  sessionInv (loadDream false d s).
Proof.
  intros Hs Hc. unfold sessionInv, loadDream.
  destruct (truthy_opt d); simpl; rewrite Hs; simpl; auto.
Qed.

Lemma sessionInv_step (e : Event) (s : Sys) :
  negb (isRouteChange e) = true -> sessionInv s -> sessionInv (step e s).
Proof.
  intros He Inv. assert (H := Inv).
  destruct e as [n | | | | w | | i o | i o]; unfold step;
    try discriminate He; clear He.
  - destruct (tryAgainAvailable (state s)) eqn:A; [|exact Inv].
    destruct (tryAgainAvailable_inv _ A) as (Hl & Hm).
    unfold sessionInv in H.
    destruct (suspended s) as [|[req resume | req d] [|t l]] eqn:S;
      try contradiction.
    + apply sessionInv_loadDream; assumption.
    + destruct H as (Hl' & _). congruence.
    + destruct H as (_ & Hn & _). rewrite Hn in Hm. discriminate.
  - destruct (continueAvailable (state s)) eqn:A; [|exact Inv].
    destruct (continueAvailable_inv _ A) as (Hl & _ & Hc & _).
    unfold sessionInv in H.
    destruct (suspended s) as [|[req resume | req d] [|t l]] eqn:S;
      try contradiction.
    + unfold sessionInv, continueDream.
      destruct (truthy_opt (dreamId s)); simpl; rewrite S; simpl; auto.
    + destruct H as (Hl' & _). congruence.
    + destruct H as (_ & _ & Hc'). congruence.
  - destruct (copyAvailable (state s)); exact Inv.
  - destruct (clipboardWrites s); [|destruct w]; exact Inv.
  - destruct (copyTimers s); exact Inv.
  - unfold sessionInv in H.
    destruct (suspended s) as [|[req resume | req d] [|t l]] eqn:S;
      try contradiction.
    + destruct i; exact Inv.
    + destruct i as [|[|i]]; try exact Inv.
      destruct H as (_ & _ & Hc). unfold sessionInv, loadDream_settle.
      simpl. destruct (loadDream_try o); destruct resume; simpl; auto.
    + destruct i as [|[|i]]; exact Inv.
  - unfold sessionInv in H.
    destruct (suspended s) as [|[req resume | req d] [|t l]] eqn:S;
      try contradiction.
    + destruct i; exact Inv.
    + destruct i as [|[|i]]; exact Inv.
    + destruct i as [|[|i]]; try exact Inv.
      destruct H as (Hl & He & Hc).
      unfold sessionInv, continueDream_settle. simpl.
      destruct (continueDream_try o); simpl; [reflexivity|].
      unfold loadDream. simpl. destruct (truthy d); simpl; auto.
Qed.

Lemma sessionInv_mount (e : Api.Env) (d : option string) :
  sessionInv (mount e d).
Proof.
  unfold mount, dreamIdEffect. simpl.
  destruct (truthy_opt d); [|reflexivity].
  apply sessionInv_loadDream; reflexivity.
Qed.

Lemma sessionInv_run (e : Api.Env) (d : option string)
    (events : list Event) :
  fixedRoute events = true -> sessionInv (run events (mount e d)).
Proof.
  intro H.
  apply (run_invariant sessionInv (fun ev => negb (isRouteChange ev))).
  - apply sessionInv_step.
  - exact H.
  - apply sessionInv_mount.
Qed.

(** In a session, a suspended load is the only suspended call, and
    while it is suspended [isLoading] is set and [error] is empty. *)
Lemma sessionInv_load (s : Sys) (i : nat) (req : Request)
    (resume : bool) :
  sessionInv s ->
  nth_error (suspended s) i = Some (AwaitDreamFetch req resume) ->
  isLoading (state s) = true /\ error (state s) = None.
Proof.
  unfold sessionInv.
  destruct (suspended s) as [|[req' resume' | req' d] [|t l]];
    try contradiction; intros H Hi.
  - destruct i; discriminate Hi.
  - destruct H as (Hl & He & _). split; assumption.
  - destruct i as [|[|i]]; discriminate Hi.
Qed.

Lemma outstandingDreamFetches_nth (s : Sys) :
  outstandingDreamFetches s <> [] ->
  exists i req resume,
    nth_error (suspended s) i = Some (AwaitDreamFetch req resume).
Proof.
  unfold outstandingDreamFetches.
  induction (suspended s) as [|[req resume | req d] l IH]; simpl; intro H.
  - contradiction.
  - exists 0, req, resume. reflexivity.
  - destruct (IH H) as (i & req' & resume & Hi).
    exists (S i), req', resume. exact Hi.
Qed.

(** A load that does not succeed fails in one of the ways of
    [LoadFailsWith], and hands [setError] the text given there. *)
Lemma loadDream_try_text (o : Outcome DreamGetResponse) :
  succeeded o = None ->
  exists err,
    loadDream_try o = inl err
    /\ LoadFailsWith o (message_or err "Failed to load dream").
Proof.
  destruct o as [err | r]; simpl.
  - intros _. exists err. split; [reflexivity|]. destruct err; constructor.
  - destruct (ok r) eqn:Hr; simpl.
    + destruct (json r) as [err | data] eqn:Hj; [|discriminate].
      intros _. exists err. split; [reflexivity|].
      destruct err; constructor; assumption.
    + intros _. destruct (Nat.eqb_spec (status r) 404) as [H4 | H4];
        eexists; (split; [reflexivity|]); simpl.
      * apply LoadNotFound. exact H4.
      * apply LoadStatusNotOk; assumption.
Qed.

(** *** Runs without overlapping calls *)

(** With nothing outstanding, a reachable state is one of a session,
    whatever happened before. *)
Lemma sessionInv_idle (e : Api.Env) (d : option string)
    (before : list Event) :
  idle (run before (mount e d)) = true ->
  sessionInv (run before (mount e d)).
Proof.
  intro H. assert (L := continueLock_run e d before).
  revert H L. unfold idle, sessionInv, continueLock, continueCalls.
  destruct (suspended (run before (mount e d))); [|discriminate].
  simpl. intros _ L. destruct (isContinuing _); [discriminate L|reflexivity].
Qed.

Lemma sessionInv_step_calm (ev : Event) (s : Sys) :
  negb (startsLoad ev s) || idle s = true ->
  sessionInv s -> sessionInv (step ev s).
Proof.
  intros Hc Inv.
  destruct (negb (isRouteChange ev)) eqn:Hr;
    [apply sessionInv_step; assumption|].
  destruct ev as [n | | | | w | | i o | i o]; try discriminate Hr.
  unfold startsLoad in Hc. unfold step.
  destruct (option_string_eqb n (dreamId s)); [exact Inv|].
  unfold dreamIdEffect. simpl.
  destruct (truthy_opt n) eqn:Hn; [|exact Inv].
  simpl in Hc. unfold idle in Hc.
  destruct (suspended s) eqn:S; [|discriminate Hc].
  assert (Hi : isContinuing (state s) = false)
    by (revert Inv; unfold sessionInv; rewrite S; trivial).
  apply sessionInv_loadDream; assumption.
Qed.

Lemma sessionInv_calm (events : list Event) :
  forall s, calm events s = true -> sessionInv s ->
            sessionInv (run events s).
Proof.
  induction events as [|ev events IH]; intros s Hc Inv; [exact Inv|].
  simpl in Hc. apply andb_prop in Hc. destruct Hc as (H1 & H2).
  apply (IH (step ev s) H2). apply sessionInv_step_calm; assumption.
Qed.

(** C8, as stated, fails twice over.  When the reload that follows a
    successful continuation is answered with status 500, the call
    settles with the dream still populated and the error populated as
    well.  And when the route changes while a load is outstanding, the
    first of the two loads to settle clears [isLoading] while the
    other is still outstanding. *)
Lemma failed_reload_leaves_dream_and_error :
  let s :=
    run [ClickContinue;
         ContinueFetchSettles 0
           (Fulfilled (okResponse {| success := true |}));
         DreamFetchSettles 0
           (Fulfilled (statusResponse 500 "Internal Server Error"))]
        (loaded ["s1"; "s2"]) in
  let t :=
    run [RouteChange (Some "d2");
         DreamFetchSettles 0
           (Fulfilled (okResponse (sampleBody ["s1"; "s2"])))]
        (mount None (Some "d1")) in
  (suspended s = []
   /\ isLoading (state s) = false
   /\ dream (state s) = Some sampleDream
   /\ error (state s) = Some "Failed to load dream: Internal Server Error")
  /\ (outstanding t
      = [{| method := GET; url := "http://localhost:8000/v1/dream/d2" |}]
      /\ isLoading (state t) = false).
Proof. repeat split. Qed.

(** C8, amended: take any state in which no call is outstanding, or
    the state at mount, and any run from it in which no route change
    starts a load while a call is outstanding.  Then [isLoading] is set, and
    the loading card shown, for as long as a load is outstanding, and
    cleared when it settles.  A load that succeeds populates the dream
    and the concepts, leaves the error empty and shows the dream page.
    A load that fails stores the text of the failure in [error] and
    leaves the stored dream and concepts as they were: exactly one of
    dream and error is populated after a load that started with no
    dream stored, both after a failed reload.  The view after a failure
    is the error card alone when the text is non-empty; for the empty
    text it is the not-found card, or the dream page when a dream was
    stored. *)
Theorem load_flag_and_outcome (e : Api.Env) (routeDreamId : option string)
    (before events : list Event) :
  let s0 := run before (mount e routeDreamId) in
  before = [] \/ idle s0 = true ->
  calm events s0 = true ->
  let s := run events s0 in
  (outstandingDreamFetches s <> [] ->
   isLoading (state s) = true /\ render (state s) = LoadingCard)
  /\ forall i req resume o,
       nth_error (suspended s) i = Some (AwaitDreamFetch req resume) ->
       let s' := step (DreamFetchSettles i o) s in
       isLoading (state s') = false
       /\ outstandingDreamFetches s' = []
       /\ match succeeded o with
          | Some data =>
              dream (state s') = Some (data_dream data)
              /\ concepts (state s') = data_concepts data
              /\ error (state s') = None
              /\ render (state s')
                 = DreamPage (length (data_concepts data) <? 2)%nat
                     (if (2 <=? length (data_concepts data))%nat
                      then Some false else None)
                     (data_concepts data) (copied (state s))
          | None =>
              (exists m,
                 LoadFailsWith o m
                 /\ error (state s') = Some m
                 /\ render (state s')
                    = if truthy m then ErrorCard m
                      else match dream (state s) with
                           | None => NotFoundCard
                           | Some _ =>
                               DreamPage
                                 (length (concepts (state s)) <? 2)%nat
                                 (if (2 <=? length (concepts (state s)))%nat
                                  then Some false else None)
                                 (concepts (state s)) (copied (state s))
                           end)
              /\ dream (state s') = dream (state s)
              /\ concepts (state s') = concepts (state s)
              /\ (dream (state s) = None -> dream (state s') = None)
          end.
Proof.
  intros s0 Hstart Hcalm s.
  assert (Inv0 : sessionInv s0).
  { destruct Hstart as [-> | Hidle].
    - apply sessionInv_mount.
    - apply sessionInv_idle. exact Hidle. }
  assert (Inv := sessionInv_calm events s0 Hcalm Inv0). fold s in Inv.
  split.
  - intro H. destruct (outstandingDreamFetches_nth s H) as (i & req & r & Hi).
    destruct (sessionInv_load s i req r Inv Hi) as (Hl & _).
    split; [exact Hl|]. unfold render. rewrite Hl. reflexivity.
  - intros i req resume o Hi s'.
    destruct (sessionInv_load s i req resume Inv Hi) as (_ & He).
    assert (Hres : isContinuing (state s) = resume).
    { revert Inv Hi. unfold sessionInv.
      destruct (suspended s) as [|[req' resume' | req' d] [|t l]];
        try contradiction; intros Inv Hi.
      - destruct i; discriminate Hi.
      - destruct i as [|[|i]]; try discriminate Hi.
        injection Hi as _ <-. apply Inv.
      - destruct i as [|[|i]]; discriminate Hi. }
    destruct (load_settle_state s i req resume o Hi)
      as (Hl & Hs & _ & Hc & H).
    fold s' in Hl, Hs, Hc, H.
    assert (Hc' : isContinuing (state s') = false)
      by (rewrite Hc, Hres; destruct resume; reflexivity).
    assert (Hk : copied (state s') = copied (state s)).
    { subst s'. unfold step. rewrite Hi. unfold loadDream_settle.
      destruct (loadDream_try o); destruct resume; reflexivity. }
    split; [exact Hl|]. split.
    + unfold outstandingDreamFetches. rewrite Hs.
      revert Inv Hi. unfold sessionInv.
      destruct (suspended s) as [|[req' resume' | req' d] [|t l]];
        try contradiction; intros _ Hi.
      * destruct i; discriminate Hi.
      * destruct i as [|[|i]]; [reflexivity | discriminate Hi ..].
      * destruct i as [|[|i]]; discriminate Hi.
    + destruct (succeeded o) as [data|] eqn:So.
      * assert (T := loadDream_try_succeeded o). rewrite So in T.
        rewrite T in H. destruct H as (Hd & Hcs & He').
        assert (E : error (state s') = None) by congruence.
        split; [exact Hd|]. split; [exact Hcs|]. split; [exact E|].
        unfold render. rewrite Hl, E, Hd, Hcs, Hc', Hk. reflexivity.
      * destruct (loadDream_try_text o So) as (err & T & Hm).
        rewrite T in H. destruct H as (He' & Hd & Hcs).
        split; [|split; [exact Hd|split; [exact Hcs|congruence]]].
        exists (message_or err "Failed to load dream").
        split; [exact Hm|]. split; [exact He'|].
        unfold render. rewrite Hl, He', Hd, Hcs, Hc', Hk. simpl.
        destruct (truthy (message_or err "Failed to load dream"));
          reflexivity.
Qed.

Lemma load_flag_and_outcome_witness :
  let s :=
    run [DreamFetchSettles 0
           (Fulfilled (okResponse (sampleBody ["s1"; "s2"])));
         RouteChange (Some "d2")]
        (mount None (Some "d1")) in
  let s' :=
    step (DreamFetchSettles 0
            (Fulfilled (statusResponse 500 "Internal Server Error"))) s in
  (isLoading (state s) = true /\ render (state s) = LoadingCard)
  /\ isLoading (state s') = false
  /\ dream (state s') = Some sampleDream
  /\ concepts (state s') = [seed "s1"; seed "s2"]
  /\ render (state s')
     = ErrorCard "Failed to load dream: Internal Server Error".
Proof.
  intros s s'.
  destruct (load_flag_and_outcome None (Some "d1") []
              [DreamFetchSettles 0
                 (Fulfilled (okResponse (sampleBody ["s1"; "s2"])));
               RouteChange (Some "d2")]
              (or_introl eq_refl) eq_refl) as (Hd & Hs).
  split; [apply Hd; intro N; vm_compute in N; discriminate N|].
  destruct (Hs 0 {| method := GET;
                    url := Api.createApiUrl None "v1/dream/d2" |}
               false
               (Fulfilled (statusResponse 500 "Internal Server Error"))
               eq_refl)
    as (Hl & _ & _ & Hdream & Hconcepts & _).
  split; [exact Hl|].
  split; [etransitivity; [exact Hdream | reflexivity]|].
  split; [etransitivity; [exact Hconcepts | reflexivity]|].
  reflexivity.
Defined.

(** *** Requests go through [createApiUrl] *)

Lemma throughGateway_issue (t : Suspended) (s : Sys) (endpoint : string) :
  url (requestOf t) = Api.createApiUrl (env s) endpoint ->
  throughGateway s -> throughGateway (issue t s).
Proof.
  intros Ht H. unfold throughGateway, issue. simpl.
  apply Forall_app. split; [exact H|].
  constructor; [|constructor]. exists endpoint. exact Ht.
Qed.

Lemma throughGateway_loadDream (resume : bool) (d : option string)
    (s : Sys) :
  throughGateway s -> throughGateway (loadDream resume d s).
Proof.
  intro H. unfold loadDream. destruct (truthy_opt d); [|exact H].
  eapply throughGateway_issue; [reflexivity | exact H].
Qed.

Lemma throughGateway_step (e : Event) (s : Sys) :
  throughGateway s -> throughGateway (step e s).
Proof.
  intro H. destruct e as [n | | | | w | | i o | i o]; unfold step.
  - destruct (option_string_eqb n (dreamId s)); [exact H|].
    unfold dreamIdEffect.
    destruct (truthy_opt (dreamId (withDreamId n s))); [|exact H].
    apply throughGateway_loadDream. exact H.
  - destruct (tryAgainAvailable (state s)); [|exact H].
    apply throughGateway_loadDream. exact H.
  - destruct (continueAvailable (state s)); [|exact H].
    unfold continueDream. destruct (truthy_opt (dreamId s)); [|exact H].
    eapply throughGateway_issue; [reflexivity | exact H].
  - destruct (copyAvailable (state s)); exact H.
  - destruct (clipboardWrites s); [|destruct w]; exact H.
  - destruct (copyTimers s); exact H.
  - destruct (nth_error (suspended s) i) as [[req resume | req d]|];
      exact H.
  - destruct (nth_error (suspended s) i) as [[req resume | req d]|];
      try exact H.
    unfold continueDream_settle.
    destruct (continueDream_try o); [exact H|].
    apply throughGateway_loadDream. exact H.
Qed.

(** Every request the dream view sends, in any run, has a URL built
    by [createApiUrl] from the configured base URL. *)
Lemma dream_view_requests_through_gateway (e : Api.Env)
    (d : option string) (events : list Event) :
  throughGateway (run events (mount e d)).
Proof.
  apply (run_invariant throughGateway (fun _ => true)).
  - intros ev s _. apply throughGateway_step.
  - apply forallb_always.
  - unfold mount, dreamIdEffect. simpl.
    destruct (truthy_opt d); [|constructor].
    apply throughGateway_loadDream. constructor.
Qed.

(** C4, as stated, fails for loads, which have no lock: a route
    change to another dream and back while the first load is
    outstanding leaves two equal requests of the dream view
    outstanding at once. *)
Lemma route_changes_overlap_loads :
  let s := run [RouteChange (Some "d2"); RouteChange (Some "d1")]
               (mount None (Some "d1")) in
  map url (outstanding s)
  = ["http://localhost:8000/v1/dream/d1";
     "http://localhost:8000/v1/dream/d2";
     "http://localhost:8000/v1/dream/d1"]
  /\ nth_error (outstanding s) 0 = nth_error (outstanding s) 2
  /\ ~ NoDup (outstanding s).
Proof.
  split; [reflexivity|]. split; [reflexivity|].
  intro N. inversion N as [|x l Hx _]. apply Hx. simpl. auto.
Qed.

End DreamViewFacts.

(** ** [FindDreamsDropdown.tsx] *)

Module FindDreamsDropdownFacts.

Import Js Fetch FindDreamsDropdown.
Local Open Scope nat_scope.
Local Arguments listUrl : simpl never.

Lemma browser_run_invariant (P : Sys -> Prop) :
  (forall e s, P s -> P (step e s)) ->
  forall events s, P s -> P (run events s).
Proof.
  intros Hstep events s.
  apply (runWith_invariant step P (fun _ => true));
    [intros e s' _; apply Hstep | apply forallb_always].
Qed.

(** *** The effect *)

Lemma fetchDreams_loading (offset : nat) (reset : bool) (s : Sys) :
  loading (state s) = true -> fetchDreams offset reset s = s.
Proof. intro H. unfold fetchDreams. rewrite H. reflexivity. Qed.

Lemma fetchDreams_sets_loading (offset : nat) (reset : bool) (s : Sys) :
  loading (state (fetchDreams offset reset s)) = true.
Proof.
  unfold fetchDreams. destruct (loading (state s)) eqn:E; [exact E|].
  reflexivity.
Qed.

(** The run of the effect that follows its own [setLoading(true)]
    finds [loading] set and does nothing. *)
Lemma openEffect_rerun (s : Sys) :
  openEffect (openEffect s) = openEffect s.
Proof.
  unfold openEffect at 2 3.
  destruct (isDropdownOpen (state s)
            && (length (dreams (state s)) =? 0)) eqn:E.
  - unfold openEffect.
    destruct (isDropdownOpen (state (fetchDreams 0 true s))
              && (length (dreams (state (fetchDreams 0 true s))) =? 0));
      [|reflexivity].
    apply fetchDreams_loading, fetchDreams_sets_loading.
  - unfold openEffect. rewrite E. reflexivity.
Qed.

Lemma openEffectDepsChanged_same (st : State) :
  openEffectDepsChanged st st = false.
Proof.
  unfold openEffectDepsChanged.
  rewrite !Bool.eqb_reflx, Nat.eqb_refl. reflexivity.
Qed.

(** The render that follows a commit changes nothing more. *)
Lemma commit_settled (before : State) (s : Sys) :
  commit (state s) (commit before s) = commit before s.
Proof.
  unfold commit at 2 3. destruct (openEffectDepsChanged before (state s)).
  - unfold commit.
    destruct (openEffectDepsChanged (state s) (state (openEffect s)));
      [apply openEffect_rerun | reflexivity].
  - unfold commit. rewrite openEffectDepsChanged_same. reflexivity.
Qed.

Lemma dreams_fetchDreams (offset : nat) (reset : bool) (s : Sys) :
  dreams (state (fetchDreams offset reset s)) = dreams (state s).
Proof. unfold fetchDreams. destruct (loading (state s)); reflexivity. Qed.

Lemma dreams_commit (before : State) (s : Sys) :
  dreams (state (commit before s)) = dreams (state s).
Proof.
  unfold commit, openEffect.
  destruct (openEffectDepsChanged before (state s)); [|reflexivity].
  destruct (isDropdownOpen (state s) && (length (dreams (state s)) =? 0));
    [apply dreams_fetchDreams | reflexivity].
Qed.

(** *** The fetch lock *)

Lemma fetchLock_fetchDreams (offset : nat) (reset : bool) (s : Sys) :
  fetchLock s -> fetchLock (fetchDreams offset reset s).
Proof.
  unfold fetchLock, fetchDreams. intro H.
  destruct (loading (state s)) eqn:E; simpl.
  - rewrite E. exact H.
  - rewrite length_app, H. reflexivity.
Qed.

Lemma fetchLock_commit (before : State) (s : Sys) :
  fetchLock s -> fetchLock (commit before s).
Proof.
  intro H. unfold commit, openEffect.
  destruct (openEffectDepsChanged before (state s)); [|exact H].
  destruct (isDropdownOpen (state s) && (length (dreams (state s)) =? 0));
    [apply fetchLock_fetchDreams|]; exact H.
Qed.

Lemma remove_nth_length {A} (l : list A) :
  forall i x, nth_error l i = Some x ->
  length l = S (length (remove_nth i l)).
Proof.
  induction l as [|y l IH]; intros [|i] x H; simpl in H; try discriminate.
  - reflexivity.
  - simpl. rewrite (IH i x H). reflexivity.
Qed.

Lemma fetchLock_handle (e : Event) (s : Sys) :
  fetchLock s -> fetchLock (handle e s).
Proof.
  intro H. destruct e as [b | b | d | i o]; unfold handle.
  - exact H.
  - destruct (sentinel (render (state s))); [|exact H].
    destruct (b && hasMore (state s) && negb (loading (state s)));
      [apply fetchLock_fetchDreams|]; exact H.
  - destruct (hasItem d (items (render (state s)))); exact H.
  - destruct (nth_error (suspended s) i) as [t|] eqn:Hi; [|exact H].
    revert H. unfold fetchLock, fetchDreams_settle.
    rewrite (remove_nth_length _ _ _ Hi). simpl.
    destruct (loading (state s)); [|discriminate].
    intro H. injection H as H.
    destruct (fetchDreams_try o); exact H.
Qed.

Lemma fetchLock_step (e : Event) (s : Sys) :
  fetchLock s -> fetchLock (step e s).
Proof.
  intro H. unfold step. apply fetchLock_commit, fetchLock_handle, H.
Qed.

(** In every reachable state the fetch lock holds. *)
Lemma fetchLock_run (events : list Event) : fetchLock (run events mount).
Proof. apply browser_run_invariant; [apply fetchLock_step | reflexivity]. Qed.

(** At most one list request is outstanding, and while one is,
    [loading] is set. *)
Lemma one_fetch_outstanding (events : list Event) :
  let s := run events mount in
  length (outstanding s) <= 1
  /\ (outstanding s <> [] -> loading (state s) = true).
Proof.
  intro s. assert (H := fetchLock_run events). fold s in H.
  unfold fetchLock in H. unfold outstanding. rewrite length_map.
  destruct (loading (state s)).
  - split; [lia | reflexivity].
  - split; [lia|]. intro N. exfalso. apply N.
    destruct (suspended s); [reflexivity | discriminate H].
Qed.

(** While a fetch is outstanding, opening, closing, reaching the
    sentinel and selecting a dream start no fetch. *)
Lemma loading_suppresses_triggers (e : Event) (s : Sys) :
  loading (state s) = true ->
  (forall i o, e <> FetchSettles i o) ->
  sent (step e s) = sent s /\ suspended (step e s) = suspended s.
Proof.
  intros Hl He.
  assert (Q : forall s', loading (state s') = true ->
                         sent (commit (state s) s') = sent s'
                         /\ suspended (commit (state s) s') = suspended s').
  { intros s' Hl'. unfold commit, openEffect.
    destruct (openEffectDepsChanged (state s) (state s'));
      [|split; reflexivity].
    destruct (isDropdownOpen (state s')
              && (length (dreams (state s')) =? 0));
      [|split; reflexivity].
    rewrite (fetchDreams_loading 0 true s' Hl'). split; reflexivity. }
  destruct e as [b | b | d | i o]; unfold step, handle.
  - exact (Q (withState (setIsDropdownOpen b (state s)) s) Hl).
  - unfold render. simpl. rewrite Hl.
    rewrite Bool.andb_false_r. simpl. exact (Q s Hl).
  - destruct (hasItem d (items (render (state s)))); [|exact (Q s Hl)].
    exact (Q {| state := setIsDropdownOpen false (state s);
                suspended := suspended s; sent := sent s;
                navigated := (navigated s ++ [append "/dream/" d])%list |}
             Hl).
  - exfalso. apply (He i o). reflexivity.
Qed.

(** *** The accumulated list *)

Lemma openEffect_nonempty (s : Sys) :
  dreams (state s) <> [] -> openEffect s = s.
Proof.
  intro H. unfold openEffect.
  destruct (dreams (state s)); [contradiction|].
  simpl. rewrite Bool.andb_false_r. reflexivity.
Qed.

Lemma commit_nonempty (before : State) (s : Sys) :
  dreams (state s) <> [] -> commit before s = s.
Proof.
  intro H. unfold commit.
  destruct (openEffectDepsChanged before (state s)); [|reflexivity].
  apply openEffect_nonempty, H.
Qed.

Lemma resetOnEmpty_fetchDreams (offset : nat) (reset : bool) (s : Sys) :
  (reset = true -> dreams (state s) = []) ->
  resetOnEmpty s -> resetOnEmpty (fetchDreams offset reset s).
Proof.
  intros Hr H. unfold fetchDreams.
  destruct (loading (state s)); [exact H|].
  intros t Ht. simpl in Ht. apply in_app_or in Ht.
  destruct Ht as [Ht | [<- | []]]; simpl.
  - apply H. exact Ht.
  - exact Hr.
Qed.

Lemma resetOnEmpty_commit (before : State) (s : Sys) :
  resetOnEmpty s -> resetOnEmpty (commit before s).
Proof.
  intro H. unfold commit, openEffect.
  destruct (openEffectDepsChanged before (state s)); [|exact H].
  destruct (isDropdownOpen (state s)
            && (length (dreams (state s)) =? 0)) eqn:E; [|exact H].
  apply resetOnEmpty_fetchDreams; [|exact H]. intros _.
  apply andb_prop in E. destruct E as [_ E]. apply Nat.eqb_eq in E.
  destruct (dreams (state s)); [reflexivity | discriminate E].
Qed.

Lemma fetchLock_single (s : Sys) (i : nat) (t : Suspended) :
  fetchLock s -> nth_error (suspended s) i = Some t ->
  remove_nth i (suspended s) = [].
Proof.
  unfold fetchLock. intros H Hi.
  destruct (suspended s) as [|t0 [|t1 l]].
  - destruct i; discriminate Hi.
  - destruct i as [|[|i]]; [reflexivity | discriminate Hi ..].
  - destruct (loading (state s)); discriminate H.
Qed.

Lemma resetOnEmpty_handle (e : Event) (s : Sys) :
  fetchLock s -> resetOnEmpty s -> resetOnEmpty (handle e s).
Proof.
  intros L H. destruct e as [b | b | d | i o]; unfold handle.
  - exact H.
  - destruct (sentinel (render (state s))); [|exact H].
    destruct (b && hasMore (state s) && negb (loading (state s)));
      [|exact H].
    apply resetOnEmpty_fetchDreams; [discriminate | exact H].
  - destruct (hasItem d (items (render (state s)))); exact H.
  - destruct (nth_error (suspended s) i) as [t|] eqn:Hi; [|exact H].
    intros t' Ht'. simpl in Ht'.
    rewrite (fetchLock_single s i t L Hi) in Ht'. contradiction.
Qed.

(** In every reachable state the fetch lock holds and a suspended
    initial fetch goes with an empty list. *)
Lemma browser_invariants (events : list Event) :
  fetchLock (run events mount) /\ resetOnEmpty (run events mount).
Proof.
  apply (browser_run_invariant (fun s => fetchLock s /\ resetOnEmpty s)).
  - intros e s [L R]. split; [apply fetchLock_step, L|].
    unfold step. apply resetOnEmpty_commit, resetOnEmpty_handle; assumption.
  - split; [reflexivity|]. intros t [].
Qed.

(** No event ever removes a dream from the accumulated list: the list
    after the event extends the list before it. *)
Lemma dreams_only_grow (events : list Event) (e : Event) :
  let s := run events mount in
  exists more,
    dreams (state (step e s)) = (dreams (state s) ++ more)%list.
Proof.
  intro s. destruct (browser_invariants events) as [L R].
  fold s in L, R. unfold step. rewrite dreams_commit.
  destruct e as [b | b | d | i o]; unfold handle.
  - exists []. simpl. rewrite app_nil_r. reflexivity.
  - exists []. rewrite app_nil_r.
    destruct (sentinel (render (state s))); [|reflexivity].
    destruct (b && hasMore (state s) && negb (loading (state s)));
      [apply dreams_fetchDreams | reflexivity].
  - exists []. rewrite app_nil_r.
    destruct (hasItem d (items (render (state s)))); reflexivity.
  - destruct (nth_error (suspended s) i) as [t|] eqn:Hi.
    + unfold fetchDreams_settle.
      destruct (fetchDreams_try o) as [err | data]; simpl.
      * exists []. rewrite app_nil_r. reflexivity.
      * exists (data_dreams data).
        destruct (reset t) eqn:Hr; [|reflexivity].
        rewrite (R t (nth_error_In _ _ Hi) Hr). reflexivity.
    + exists []. rewrite app_nil_r. reflexivity.
Qed.

(** C6: re-opening the browser when the accumulated list is not empty
    sends no request and leaves no call suspended; an open sends a
    request only when the list is empty (and no fetch is under way),
    and that request is the page at offset 0; opening, closing and
    selecting leave the accumulated list as it is, and no event of the
    component's life ever removes a dream from it. *)
Theorem reopen_does_not_refetch (events : list Event) :
  let s := run events mount in
  (dreams (state s) <> [] ->
   sent (step (OpenChange true) s) = sent s
   /\ suspended (step (OpenChange true) s) = suspended s)
  /\ (sent (step (OpenChange true) s) <> sent s ->
      dreams (state s) = [] /\ loading (state s) = false
      /\ isDropdownOpen (state s) = false
      /\ sent (step (OpenChange true) s)
         = (sent s ++ [{| method := GET; url := listUrl 0 |}])%list)
  /\ (dreams (state s) = [] -> loading (state s) = false ->
      isDropdownOpen (state s) = false ->
      sent (step (OpenChange true) s)
      = (sent s ++ [{| method := GET; url := listUrl 0 |}])%list)
  /\ (forall b,
      dreams (state (step (OpenChange b) s)) = dreams (state s))
  /\ (forall d,
      dreams (state (step (SelectDream d) s)) = dreams (state s))
  /\ (forall e, exists more,
      dreams (state (step e s)) = (dreams (state s) ++ more)%list).
Proof.
  intro s.
  assert (Open : step (OpenChange true) s
                 = commit (state s)
                     (withState (setIsDropdownOpen true (state s)) s))
    by reflexivity.
  split; [|split; [|split; [|split; [|split]]]].
  - intro H. rewrite Open, commit_nonempty by exact H.
    split; reflexivity.
  - rewrite Open. unfold commit, openEffect, openEffectDepsChanged. simpl.
    rewrite Nat.eqb_refl, Bool.eqb_reflx. simpl.
    rewrite !Bool.orb_false_r.
    destruct (isDropdownOpen (state s)); simpl;
      [intro N; exfalso; apply N; reflexivity|].
    destruct (dreams (state s)); simpl;
      [|intro N; exfalso; apply N; reflexivity].
    unfold fetchDreams. simpl.
    destruct (loading (state s)); simpl;
      [intro N; exfalso; apply N; reflexivity|].
    intros _. repeat split; reflexivity.
  - intros Hd Hl Ho. rewrite Open.
    unfold commit, openEffect, openEffectDepsChanged, fetchDreams. simpl.
    rewrite Hd, Hl, Ho. reflexivity.
  - intro b. unfold step. rewrite dreams_commit. reflexivity.
  - intro d. unfold step. rewrite dreams_commit. unfold handle.
    destruct (hasItem d (items (render (state s)))); reflexivity.
  - intro e. apply (dreams_only_grow events e).
Qed.

Lemma reopen_does_not_refetch_witness :
  let s := run [OpenChange true;
                FetchSettles 0
                  (Fulfilled (okResponse (listDreams sampleDreams 0 20)));
                OpenChange false] mount in
  length (dreams (state s)) = 20
  /\ sent (step (OpenChange true) s) = sent s
  /\ sent s = [{| method := GET; url := listUrl 0 |}].
Proof.
  intro s.
  destruct (reopen_does_not_refetch
              [OpenChange true;
               FetchSettles 0
                 (Fulfilled (okResponse (listDreams sampleDreams 0 20)));
               OpenChange false])
    as (H & _).
  split; [reflexivity|]. split; [|reflexivity].
  apply H. discriminate.
Defined.

(** *** Pages *)

Lemma firstn_next_page {A} (k : nat) (l : list A) :
  forall n,
    (firstn n l ++ firstn k (skipn n l))%list = firstn (n + k) l.
Proof.
  induction l as [|x l IH]; intros [|n]; simpl.
  - destruct k; reflexivity.
  - destruct k; reflexivity.
  - reflexivity.
  - rewrite IH. reflexivity.
Qed.

(** Opening against a backend that holds at least one dream: one
    request, for offset 0, and the first page replaces the empty
    list. *)
Lemma open_fetches_first_page (db : list DreamSummary) :
  db <> [] ->
  served db (step (OpenChange true) mount)
  = {| state := {| dreams := firstn ITEMS_PER_PAGE db; loading := false;
                   hasMore := ITEMS_PER_PAGE <? length db; error := None;
                   isDropdownOpen := true |};
       suspended := [];
       sent := [{| method := GET; url := listUrl 0 |}];
       navigated := [] |}.
Proof.
  intro H. destruct db as [|x db]; [contradiction|]. reflexivity.
Qed.

(** Reaching the sentinel with [n] dreams accumulated, more to come
    and no fetch under way: one request, for offset [n], and the page
    is appended. *)
Lemma scroll_fetches_next_page (db ds : list DreamSummary)
    (rs : list Request) (nav : list string) (opened : bool) :
  ds <> [] ->
  served db
    (step (Intersect true)
       {| state := {| dreams := ds; loading := false; hasMore := true;
                      error := None; isDropdownOpen := opened |};
          suspended := []; sent := rs; navigated := nav |})
  = {| state := {| dreams :=
                     (ds ++ firstn ITEMS_PER_PAGE (skipn (length ds) db))%list;
                   loading := false;
                   hasMore := length ds + ITEMS_PER_PAGE <? length db;
                   error := None; isDropdownOpen := opened |};
       suspended := [];
       sent := (rs ++ [{| method := GET; url := listUrl (length ds) |}])%list;
       navigated := nav |}.
Proof.
  intro H. destruct ds as [|x ds]; [contradiction|].
  unfold step at 1. simpl handle.
  rewrite commit_nonempty by (simpl; discriminate).
  unfold served. simpl suspended. unfold step. simpl handle.
  rewrite commit_nonempty by (simpl; discriminate).
  reflexivity.
Qed.

(** C1: against a backend holding 45 dreams, opening the browser and
    then reaching the sentinel twice, each time with no fetch under
    way, sends exactly three requests, for offsets 0, 20 and 40 with
    limit 20; after the third answer [hasMore] is false, nothing is
    outstanding, the sentinel is gone and the "all loaded" row is
    shown; the accumulated list is the backend's list, so it holds all
    45 dreams in the server's order, without a duplicate when the
    backend has none. *)
Theorem forty_five_dreams_three_fetches (db : list DreamSummary) :
  length db = 45 ->
  let s := openAndScrollTwice db in
  map url (sent s)
  = ["http://localhost:8000/v1/dream/list?offset=0&limit=20";
     "http://localhost:8000/v1/dream/list?offset=20&limit=20";
     "http://localhost:8000/v1/dream/list?offset=40&limit=20"]
  /\ hasMore (state s) = false
  /\ dreams (state s) = db
  /\ length (dreams (state s)) = 45
  /\ (NoDup db -> NoDup (dreams (state s)))
  /\ suspended s = []
  /\ sentinel (render (state s)) = false
  /\ allLoaded (render (state s)) = true
  /\ step (Intersect true) s = s.
Proof.
  intros Hlen s.
  assert (Hne : db <> []) by (intro E; rewrite E in Hlen; discriminate).
  assert (L20 : length (firstn ITEMS_PER_PAGE db) = 20)
    by (rewrite length_firstn, Hlen; reflexivity).
  assert (L40 : length (firstn (20 + ITEMS_PER_PAGE) db) = 40)
    by (rewrite length_firstn, Hlen; reflexivity).
  assert (E : s
              = {| state := {| dreams := db; loading := false;
                               hasMore := false; error := None;
                               isDropdownOpen := true |};
                   suspended := [];
                   sent := [{| method := GET; url := listUrl 0 |};
                            {| method := GET; url := listUrl 20 |};
                            {| method := GET; url := listUrl 40 |}];
                   navigated := [] |}).
  { subst s. unfold openAndScrollTwice.
    rewrite (open_fetches_first_page db Hne).
    rewrite Hlen. change (ITEMS_PER_PAGE <? 45) with true.
    rewrite scroll_fetches_next_page
      by (intro N; rewrite N in L20; discriminate).
    rewrite L20, firstn_next_page, Hlen.
    change (20 + ITEMS_PER_PAGE <? 45) with true.
    rewrite scroll_fetches_next_page
      by (intro N; rewrite N in L40; discriminate).
    rewrite L40, firstn_next_page, Hlen.
    change (40 + ITEMS_PER_PAGE <? 45) with false.
    rewrite firstn_all2 by (rewrite Hlen; unfold ITEMS_PER_PAGE; lia).
    reflexivity. }
  rewrite E. simpl.
  destruct db as [|x db]; [discriminate Hlen|]. simpl.
  repeat split; try reflexivity; auto.
  unfold step. simpl handle. apply commit_nonempty. discriminate.
Qed.

Lemma forty_five_dreams_three_fetches_witness :
  length sampleDreams = 45
  /\ dreams (state (openAndScrollTwice sampleDreams)) = sampleDreams
  /\ length (sent (openAndScrollTwice sampleDreams)) = 3.
Proof.
  split; [reflexivity|].
  destruct (forty_five_dreams_three_fetches sampleDreams eq_refl)
    as (Hs & _ & Hd & _).
  split; [exact Hd|].
  rewrite <- (length_map url), Hs. reflexivity.
Defined.

(** *** The request URL *)

Lemma listUrl_hardcoded (n : nat) :
  listUrl n
  = "http://localhost:8000/" ++ "v1/dream/list?offset=" ++ of_number n
      ++ "&limit=" ++ of_number ITEMS_PER_PAGE.
Proof. reflexivity. Qed.

Lemma sent_fetchDreams (offset : nat) (reset : bool) (s : Sys) :
  Forall (fun r => exists n, url r = listUrl n) (sent s) ->
  Forall (fun r => exists n, url r = listUrl n)
         (sent (fetchDreams offset reset s)).
Proof.
  intro H. unfold fetchDreams. destruct (loading (state s)); [exact H|].
  simpl. apply Forall_app. split; [exact H|].
  constructor; [|constructor]. exists offset. reflexivity.
Qed.

(** Every request the browser sends, in any run, goes to the fixed
    address [http://localhost:8000]; no configuration enters the
    component. *)
Lemma browser_requests_hardcoded (events : list Event) :
  Forall (fun r => exists n, url r = listUrl n) (sent (run events mount)).
Proof.
  apply (browser_run_invariant
           (fun s => Forall (fun r => exists n, url r = listUrl n) (sent s))).
  - intros e s H. unfold step, commit, openEffect.
    assert (Hh : Forall (fun r => exists n, url r = listUrl n)
                        (sent (handle e s))).
    { destruct e as [b | b | d | i o]; unfold handle.
      - exact H.
      - destruct (sentinel (render (state s))); [|exact H].
        destruct (b && hasMore (state s) && negb (loading (state s)));
          [apply sent_fetchDreams|]; exact H.
      - destruct (hasItem d (items (render (state s)))); exact H.
      - destruct (nth_error (suspended s) i); exact H. }
    destruct (openEffectDepsChanged (state s) (state (handle e s)));
      [|exact Hh].
    destruct (isDropdownOpen (state (handle e s))
              && (length (dreams (state (handle e s))) =? 0));
      [apply sent_fetchDreams|]; exact Hh.
  - constructor.
Qed.

(** C9, at the failing input: with the base URL configured as
    [https://daydream.melbournedev.com], opening the browser requests
    the first page from [http://localhost:8000]; the URL is not the
    one [createApiUrl] builds for that endpoint and does not start
    with the configured base URL. *)
Theorem browser_request_bypasses_gateway :
  let configured := Some "https://daydream.melbournedev.com" in
  map url (sent (step (OpenChange true) mount))
  = ["http://localhost:8000/v1/dream/list?offset=0&limit=20"]
  /\ Api.createApiUrl configured "v1/dream/list?offset=0&limit=20"
     = "https://daydream.melbournedev.com/v1/dream/list?offset=0&limit=20"
  /\ startsWith (Api.getApiBaseUrl configured)
       "http://localhost:8000/v1/dream/list?offset=0&limit=20" = false.
Proof. repeat split. Qed.

End FindDreamsDropdownFacts.

(** ** The two in-flight guards together *)

Module GuardFacts.

Local Open Scope nat_scope.

(** C4, amended: in every reachable state of a dream view at most one
    continuation call is under way and at most one continuation request
    is outstanding, and while a call is under way the continue button is
    not available and a click on it changes nothing; a double click
    sends what a single click sends, one POST
    when the button is enabled; in every reachable state of a dream
    browser at most one list request is outstanding, and while one is,
    opening, closing, reaching the sentinel and selecting send
    nothing.  (Loads of the dream view are not guarded.) *)
Theorem continue_and_list_fetch_single_flight :
  (forall (e : Api.Env) (d : option string)
          (events : list DreamView.Event),
      let s := DreamView.run events (DreamView.mount e d) in
      length (DreamView.continueCalls s) <= 1
      /\ length (DreamView.outstandingContinues s) <= 1
      /\ (DreamView.continueCalls s <> [] ->
          DreamView.continueAvailable (DreamView.state s) = false
          /\ DreamView.step DreamView.ClickContinue s = s)
      /\ DreamView.run [DreamView.ClickContinue; DreamView.ClickContinue] s
         = DreamView.step DreamView.ClickContinue s
      /\ (forall id,
          DreamView.continueAvailable (DreamView.state s) = true ->
          DreamView.dreamId s = Some id -> Js.truthy id = true ->
          DreamView.sent
            (DreamView.run
               [DreamView.ClickContinue; DreamView.ClickContinue] s)
          = (DreamView.sent s
             ++ [{| Fetch.method := Fetch.POST;
                    Fetch.url :=
                      Api.createApiUrl (DreamView.env s)
                        ("v1/dream/" ++ id ++ "/continue") |}])%list))
  /\ (forall events : list FindDreamsDropdown.Event,
      let s := FindDreamsDropdown.run events FindDreamsDropdown.mount in
      length (FindDreamsDropdown.outstanding s) <= 1
      /\ (FindDreamsDropdown.outstanding s <> [] ->
          forall e,
            (forall i o, e <> FindDreamsDropdown.FetchSettles i o) ->
            FindDreamsDropdown.sent (FindDreamsDropdown.step e s)
            = FindDreamsDropdown.sent s
            /\ FindDreamsDropdown.suspended (FindDreamsDropdown.step e s)
               = FindDreamsDropdown.suspended s)).
Proof.
  split.
  - intros e d events s.
    destruct (DreamViewFacts.one_continue_outstanding e d events)
      as (Hcalls & Hle & Hc).
    fold s in Hcalls, Hle, Hc.
    assert (D : DreamView.run
                  [DreamView.ClickContinue; DreamView.ClickContinue] s
                = DreamView.step DreamView.ClickContinue s)
      by apply DreamViewFacts.second_click_ignored.
    split; [exact Hcalls|]. split; [exact Hle|].
    split; [|split; [exact D|]].
    + intro N.
      assert (A := DreamViewFacts.continueAvailable_continuing _ (Hc N)).
      split; [exact A|]. unfold DreamView.step. rewrite A. reflexivity.
    + intros id A Hd Ht. rewrite D.
      apply DreamViewFacts.click_sends_one_post; assumption.
  - intros events s.
    destruct (FindDreamsDropdownFacts.one_fetch_outstanding events)
      as [Hle Hl].
    fold s in Hle, Hl. split; [exact Hle|].
    intros N e He.
    apply FindDreamsDropdownFacts.loading_suppresses_triggers;
      [exact (Hl N) | exact He].
Qed.

Lemma continue_and_list_fetch_single_flight_witness :
  let s := DreamView.loaded ["s1"; "s2"] in
  let b := FindDreamsDropdown.run [FindDreamsDropdown.OpenChange true]
             FindDreamsDropdown.mount in
  length (DreamView.sent s) = 1
  /\ length (FindDreamsDropdown.outstanding b) = 1
  /\ FindDreamsDropdown.sent
       (FindDreamsDropdown.step (FindDreamsDropdown.Intersect true) b)
     = FindDreamsDropdown.sent b
  /\ length (DreamView.sent
               (DreamView.run
                  [DreamView.ClickContinue; DreamView.ClickContinue] s))
     = 2.
Proof.
  intros s b. split; [reflexivity|]. split; [reflexivity|].
  destruct continue_and_list_fetch_single_flight as [H B].
  split.
  { destruct (B [FindDreamsDropdown.OpenChange true]) as (_ & Hb).
    apply Hb; [discriminate|]. intros i o. discriminate. }
  destruct (H None (Some "d1")
              [DreamView.DreamFetchSettles 0
                 (Fetch.Fulfilled
                    (Fetch.okResponse
                       (DreamView.sampleBody ["s1"; "s2"])))])
    as (_ & _ & _ & _ & Hs).
  change (DreamView.run _ (DreamView.mount None (Some "d1")))
    with s in Hs.
  rewrite (Hs "d1" eq_refl eq_refl eq_refl).
  rewrite length_app. reflexivity.
Defined.

End GuardFacts.

(** * Further properties *)

(** ** [lib/api.ts] *)

Module ApiExtra.

Import Api.

Lemma append_cancel_left (a x y : string) : a ++ x = a ++ y -> x = y.
Proof.
  induction a as [|c a IH]; simpl; intro H; [exact H|].
  injection H as H. apply IH, H.
Qed.

(** X1: the base URL is the setting itself whenever the setting is a
    non-empty string; an absent setting and an empty one both give
    [http://localhost:8000]; so the base URL is never empty. *)
Theorem getApiBaseUrl_setting_or_fallback (env : Env) :
  (forall s, env = Some s -> Js.truthy s = true -> getApiBaseUrl env = s)
  /\ (Js.truthy_opt env = false ->
      getApiBaseUrl env = "http://localhost:8000")
  /\ getApiBaseUrl (Some "") = getApiBaseUrl None
  /\ getApiBaseUrl env <> "".
Proof.
  split; [|split; [|split]].
  - intros s -> H. simpl. rewrite H. reflexivity.
  - destruct env as [s|]; simpl; [|reflexivity].
    intro H. rewrite H. reflexivity.
  - reflexivity.
  - assert (T := ApiFacts.getApiBaseUrl_truthy env).
    intro E. rewrite E in T. discriminate T.
Qed.

Lemma getApiBaseUrl_setting_or_fallback_witness :
  getApiBaseUrl (Some "https://daydream.melbournedev.com")
  = "https://daydream.melbournedev.com".
Proof.
  apply (proj1 (getApiBaseUrl_setting_or_fallback
                  (Some "https://daydream.melbournedev.com"))
           "https://daydream.melbournedev.com" eq_refl eq_refl).
Defined.

(** X2: two endpoints get the same URL only if they are equal or differ
    by one leading slash; an endpoint with one more leading slash gets
    the same URL exactly when the shorter one does not begin with a
    slash itself. *)
Theorem createApiUrl_same_url (env : Env) (e1 e2 : string) :
  (createApiUrl env e1 = createApiUrl env e2 ->
   e1 = e2 \/ e1 = String "/" e2 \/ e2 = String "/" e1)
  /\ (Js.startsWith "/" e1 = false ->
      createApiUrl env (String "/" e1) = createApiUrl env e1)
  /\ (Js.startsWith "/" e1 = true ->
      createApiUrl env (String "/" e1) <> createApiUrl env e1).
Proof.
  assert (C : forall e,
             createApiUrl env e
             = getApiBaseUrl env ++ "/"
                 ++ (if Js.startsWith "/" e then Js.slice1 e else e))
    by reflexivity.
  assert (S1 : forall e, Js.startsWith "/" (String "/" e) = true)
    by (intro e; rewrite ApiFacts.startsWith_slash_cons; reflexivity).
  split; [|split].
  - rewrite !C. intro H.
    apply append_cancel_left in H. apply append_cancel_left in H.
    destruct (Js.startsWith "/" e1) eqn:E1;
      destruct (Js.startsWith "/" e2) eqn:E2.
    + left. rewrite (ApiFacts.startsWith_slash _ E1),
                    (ApiFacts.startsWith_slash _ E2), H. reflexivity.
    + right. left. rewrite (ApiFacts.startsWith_slash _ E1), H.
      reflexivity.
    + right. right. rewrite (ApiFacts.startsWith_slash _ E2), <- H.
      reflexivity.
    + left. exact H.
  - intro E1. rewrite !C, S1, E1. reflexivity.
  - intro E1. rewrite !C, S1, E1. simpl Js.slice1. intro H.
    apply append_cancel_left in H. apply append_cancel_left in H.
    rewrite (ApiFacts.startsWith_slash _ E1) in H at 1.
    assert (L : String.length (String "/" (Js.slice1 e1))
                = String.length (Js.slice1 e1)) by (rewrite H; reflexivity).
    simpl in L. clear -L.
    induction (String.length (Js.slice1 e1)) as [|n IH];
      [discriminate L | injection L as L; apply IH, L].
Qed.

Lemma createApiUrl_same_url_witness :
  createApiUrl None "/v1/dream/list" = createApiUrl None "v1/dream/list"
  /\ createApiUrl None "//v1/dream/list"
     <> createApiUrl None "/v1/dream/list".
Proof.
  destruct (createApiUrl_same_url None "v1/dream/list" "") as (_ & H & _).
  destruct (createApiUrl_same_url None "/v1/dream/list" "") as (_ & _ & N).
  split; [apply H; reflexivity | apply N; reflexivity].
Defined.

End ApiExtra.

(** ** [DreamView.tsx] *)

Module DreamViewExtra.

Import Js Fetch DreamView Notions.
Local Open Scope nat_scope.
Local Arguments Api.createApiUrl : simpl never.

(** *** Requests and closures *)

Lemma Forall_remove_nth {A} (P : A -> Prop) (l : list A) :
  forall i, Forall P l -> Forall P (remove_nth i l).
Proof.
  induction l as [|x l IH]; intros i H; [destruct i; exact H|].
  inversion H as [|y l' Hx Hl]; subst.
  destruct i; simpl; [exact Hl|]. constructor; [exact Hx | apply IH, Hl].
Qed.


Lemma truthy_opt_some (d : option string) :
  truthy_opt d = true -> exists id, d = Some id /\ truthy id = true.
Proof.
  destruct d as [id|]; [|discriminate]. intro H. exists id. auto.
Qed.

Lemma requestsInv_loadDream (e : Api.Env) (resume : bool)
    (d : option string) (s : Sys) :
  dreamViewRequestsInv e s -> dreamViewRequestsInv e (loadDream resume d s).
Proof.
  intros (He & Hs & Hr). unfold loadDream.
  destruct (truthy_opt d) eqn:T; [|repeat split; assumption].
  destruct (truthy_opt_some d T) as (id & -> & Hid).
  unfold dreamViewRequestsInv, issue. simpl. rewrite He.
  split; [reflexivity|]. split; apply Forall_app; split; try assumption;
    (constructor; [|constructor]).
  - exists id. split; [exact Hid | reflexivity].
  - exists id. split; [exact Hid|]. left. reflexivity.
Qed.

Lemma requestsInv_continueDream (e : Api.Env) (d : option string)
    (s : Sys) :
  dreamViewRequestsInv e s -> dreamViewRequestsInv e (continueDream d s).
Proof.
  intros (He & Hs & Hr). unfold continueDream.
  destruct (truthy_opt d) eqn:T; [|repeat split; assumption].
  destruct (truthy_opt_some d T) as (id & -> & Hid).
  unfold dreamViewRequestsInv, issue. simpl. rewrite He.
  split; [reflexivity|]. split; apply Forall_app; split; try assumption;
    (constructor; [|constructor]).
  - split; [exact Hid | reflexivity].
  - exists id. split; [exact Hid|]. right. reflexivity.
Qed.

Lemma requestsInv_step (e : Api.Env) (ev : Event) (s : Sys) :
  dreamViewRequestsInv e s -> dreamViewRequestsInv e (step ev s).
Proof.
  intro H. destruct ev as [n | | | | w | | i o | i o]; unfold step.
  - destruct (option_string_eqb n (dreamId s)); [exact H|].
    unfold dreamIdEffect.
    destruct (truthy_opt (dreamId (withDreamId n s))); [|exact H].
    apply requestsInv_loadDream. exact H.
  - destruct (tryAgainAvailable (state s)); [|exact H].
    apply requestsInv_loadDream. exact H.
  - destruct (continueAvailable (state s)); [|exact H].
    apply requestsInv_continueDream. exact H.
  - destruct (copyAvailable (state s)); exact H.
  - destruct (clipboardWrites s); [|destruct w]; exact H.
  - destruct (copyTimers s); exact H.
  - destruct (nth_error (suspended s) i) as [[req resume | req d]|] eqn:Hi;
      try exact H.
    destruct H as (He & Hs & Hr). unfold loadDream_settle.
    repeat split; try assumption. simpl. apply Forall_remove_nth, Hs.
  - destruct (nth_error (suspended s) i) as [[req resume | req d]|] eqn:Hi;
      try exact H.
    destruct H as (He & Hs & Hr).
    assert (H' : dreamViewRequestsInv e
                   (withSuspended (remove_nth i (suspended s)) s))
      by (repeat split; try assumption; simpl; apply Forall_remove_nth, Hs).
    unfold continueDream_settle.
    destruct (continueDream_try o); [exact H'|].
    apply requestsInv_loadDream. exact H'.
Qed.

Lemma requestsInv_run (e : Api.Env) (d : option string)
    (events : list Event) :
  dreamViewRequestsInv e (run events (mount e d)).
Proof.
  apply (DreamViewFacts.run_invariant (dreamViewRequestsInv e)
           (fun _ => true)).
  - intros ev s _. apply requestsInv_step.
  - apply forallb_always.
  - unfold mount, dreamIdEffect. simpl.
    destruct (truthy_opt d).
    + apply requestsInv_loadDream. repeat split; constructor.
    + repeat split; constructor.
Qed.

Lemma continueDream_try_succeeded (o : Outcome DreamContinueResponse)
    (data : DreamContinueResponse) :
  succeeded o = Some data -> success data = true ->
  continueDream_try o = inr tt.
Proof.
  destruct o as [err | r]; simpl; [discriminate|].
  destruct (ok r); simpl; [|discriminate].
  destruct (json r) as [err | b]; [discriminate|].
  intro H. injection H as ->. intro Hs. rewrite Hs. reflexivity.
Qed.

(** X3: every request the dream view ever sends is the GET of a dream
    or the POST of its continuation, for a non-empty dream id: no
    request is sent for a missing or empty id. *)
Theorem dream_view_requests_for_some_dream (e : Api.Env)
    (d : option string) (events : list Event) :
  Forall (forSomeDream e) (sent (run events (mount e d))).
Proof. apply (requestsInv_run e d events). Qed.



(** *** Sessions *)

Lemma dreamId_fixed (e : Api.Env) (d : option string)
    (events : list Event) :
  fixedRoute events = true -> dreamId (run events (mount e d)) = d.
Proof.
  intro H.
  apply (DreamViewFacts.run_invariant (fun s => dreamId s = d)
           (fun ev => negb (isRouteChange ev))); [|exact H|].
  - intros ev s Hev Hs.
    destruct ev as [n | | | | w | | i o | i o]; unfold step;
      try discriminate Hev.
    + destruct (tryAgainAvailable (state s)); [|exact Hs].
      unfold loadDream. destruct (truthy_opt (dreamId s)); exact Hs.
    + destruct (continueAvailable (state s)); [|exact Hs].
      unfold continueDream. destruct (truthy_opt (dreamId s)); exact Hs.
    + destruct (copyAvailable (state s)); exact Hs.
    + destruct (clipboardWrites s); [|destruct w]; exact Hs.
    + destruct (copyTimers s); exact Hs.
    + destruct (nth_error (suspended s) i) as [[req resume | req c]|];
        exact Hs.
    + destruct (nth_error (suspended s) i) as [[req resume | req c]|];
        try exact Hs.
      unfold continueDream_settle.
      destruct (continueDream_try o); [exact Hs|].
      unfold loadDream. destruct (truthy_opt (Some c)); exact Hs.
  - unfold mount, dreamIdEffect. simpl.
    destruct (truthy_opt d); [|reflexivity].
    unfold loadDream. destruct (truthy_opt d); reflexivity.
Qed.

(** In a session, a view that offers a button has no call suspended. *)
Lemma session_idle (s : Sys) :
  sessionInv s -> isLoading (state s) = false ->
  (isContinuing (state s) = false \/ error (state s) <> None) ->
  suspended s = [] /\ isContinuing (state s) = false.
Proof.
  unfold sessionInv.
  destruct (suspended s) as [|[req resume | req c] [|t l]];
    try contradiction; intros H Hl Hc.
  - split; [reflexivity | exact H].
  - destruct H as (Hl' & _). congruence.
  - destruct H as (_ & He & Hc'). destruct Hc as [Hc | Hc];
      [congruence | contradiction].
Qed.

(** X5: in a session (the route parameter stays what it was at mount)
    at most one request of the view is outstanding at any time, loads
    included; the loading card is shown for as long as a load is
    outstanding, and [isContinuing] is cleared whenever nothing is
    outstanding. *)
Theorem session_one_request_at_a_time (e : Api.Env) (d : option string)
    (events : list Event) :
  fixedRoute events = true ->
  let s := run events (mount e d) in
  length (outstanding s) <= 1
  /\ (outstandingDreamFetches s <> [] -> render (state s) = LoadingCard)
  /\ (outstanding s = [] -> isContinuing (state s) = false).
Proof.
  intros H s. assert (Inv := DreamViewFacts.sessionInv_run e d events H).
  fold s in Inv. unfold outstanding, outstandingDreamFetches.
  revert Inv. unfold sessionInv, render.
  destruct (suspended s) as [|[req resume | req c] [|t l]];
    try contradiction; simpl; intro Inv.
  - repeat split; [lia | intro N; contradiction | intros _; exact Inv].
  - destruct Inv as (Hl & _). rewrite Hl.
    repeat split; [lia | discriminate].
  - repeat split; [lia | intro N; contradiction | discriminate].
Qed.

Lemma session_one_request_at_a_time_witness :
  length (outstanding (run [ClickContinue] (loaded ["s1"; "s2"]))) = 1
  /\ render (state (mount None (Some "d1"))) = LoadingCard.
Proof.
  split; [reflexivity|].
  destruct (session_one_request_at_a_time None (Some "d1") [] eq_refl)
    as (_ & H & _).
  apply H. discriminate.
Defined.

(** X6: a continuation that goes well, from the click to the end of the
    reload, in a session: two requests are sent, the POST of the
    continuation and then the GET of the same dream; the view ends with
    the dream and the concepts of the reload's answer, no error, both
    flags cleared and nothing outstanding. *)
Theorem continue_round_trip (e : Api.Env) (id : string)
    (events : list Event) (o1 : Outcome DreamContinueResponse)
    (c : DreamContinueResponse) (o2 : Outcome DreamGetResponse)
    (data : DreamGetResponse) :
  fixedRoute events = true ->
  truthy id = true ->
  let s := run events (mount e (Some id)) in
  continueAvailable (state s) = true ->
  succeeded o1 = Some c -> success c = true ->
  succeeded o2 = Some data ->
  let s' := run [ClickContinue; ContinueFetchSettles 0 o1;
                 DreamFetchSettles 0 o2] s in
  state s'
  = {| isLoading := false; isContinuing := false;
       dream := Some (data_dream data); concepts := data_concepts data;
       error := None; copied := copied (state s) |}
  /\ sent s' = (sent s ++ [continueRequest e id; dreamRequest e id])%list
  /\ suspended s' = [].
Proof.
  intros Hf Hid s Ha Ho1 Hc Ho2 s'.
  assert (Inv := DreamViewFacts.sessionInv_run e (Some id) events Hf).
  assert (Hd := dreamId_fixed e (Some id) events Hf).
  destruct (requestsInv_run e (Some id) events) as (He & _).
  fold s in Inv, Hd, He.
  destruct (DreamViewFacts.continueAvailable_inv _ Ha)
    as (Hl & _ & Hcont & _).
  destruct (session_idle s Inv Hl (or_introl Hcont)) as (Hs & _).
  assert (T1 := continueDream_try_succeeded o1 c Ho1 Hc).
  assert (T2 := DreamViewFacts.loadDream_try_succeeded o2).
  rewrite Ho2 in T2.
  assert (E1 : step ClickContinue s
               = issue (AwaitContinueFetch (continueRequest e id) id)
                   (withState
                      (setError None (setIsContinuing true (state s))) s)).
  { unfold step. rewrite Ha. unfold continueDream. rewrite Hd.
    simpl. rewrite Hid, He. reflexivity. }
  change s' with (step (DreamFetchSettles 0 o2)
                    (step (ContinueFetchSettles 0 o1)
                       (step ClickContinue s))).
  rewrite E1. unfold issue. simpl. rewrite Hs. simpl.
  unfold continueDream_settle. rewrite T1.
  unfold loadDream. simpl. rewrite Hid. unfold issue. simpl.
  unfold loadDream_settle. rewrite T2. simpl. rewrite He.
  repeat split. rewrite <- app_assoc. reflexivity.
Qed.

Lemma continue_round_trip_witness :
  let s' := run [ClickContinue;
                 ContinueFetchSettles 0
                   (Fulfilled (okResponse {| success := true |}));
                 DreamFetchSettles 0
                   (Fulfilled (okResponse (sampleBody ["s1"; "s2"; "s3"])))]
                (loaded ["s1"; "s2"]) in
  concepts (state s') = [seed "s1"; seed "s2"; seed "s3"]
  /\ length (sent s') = 3.
Proof.
  intro s'.
  destruct (continue_round_trip None "d1"
              [DreamFetchSettles 0
                 (Fulfilled (okResponse (sampleBody ["s1"; "s2"])))]
              (Fulfilled (okResponse {| success := true |}))
              {| success := true |}
              (Fulfilled (okResponse (sampleBody ["s1"; "s2"; "s3"])))
              (sampleBody ["s1"; "s2"; "s3"])
              eq_refl eq_refl eq_refl eq_refl eq_refl eq_refl)
    as (Hst & Hsent & _).
  change (run _ (run _ (mount None (Some "d1")))) with s' in Hst, Hsent.
  rewrite Hst, Hsent. split; reflexivity.
Defined.

(** X7: from the error card, in a session with a non-empty route id,
    "Try Again" sends one request, the GET of the route's dream, and
    when that is answered well the view holds the answer's dream and
    concepts with the error cleared: the dream page is shown again. *)
Theorem try_again_recovers (e : Api.Env) (id : string)
    (events : list Event) (m : string) (o : Outcome DreamGetResponse)
    (data : DreamGetResponse) :
  fixedRoute events = true ->
  truthy id = true ->
  let s := run events (mount e (Some id)) in
  render (state s) = ErrorCard m ->
  succeeded o = Some data ->
  let s' := run [ClickTryAgain; DreamFetchSettles 0 o] s in
  render (state (step ClickTryAgain s)) = LoadingCard
  /\ state s'
     = {| isLoading := false; isContinuing := false;
          dream := Some (data_dream data); concepts := data_concepts data;
          error := None; copied := copied (state s) |}
  /\ sent s' = (sent s ++ [dreamRequest e id])%list
  /\ suspended s' = []
  /\ render (state s')
     = DreamPage (length (data_concepts data) <? 2)
         (if 2 <=? length (data_concepts data) then Some false else None)
         (data_concepts data) (copied (state s)).
Proof.
  intros Hf Hid s Hr Ho s'.
  assert (Inv := DreamViewFacts.sessionInv_run e (Some id) events Hf).
  assert (Hd := dreamId_fixed e (Some id) events Hf).
  destruct (requestsInv_run e (Some id) events) as (He & _).
  fold s in Inv, Hd, He.
  assert (Ha : tryAgainAvailable (state s) = true)
    by (unfold tryAgainAvailable; rewrite Hr; reflexivity).
  destruct (DreamViewFacts.tryAgainAvailable_inv _ Ha) as (Hl & Hm).
  assert (Hne : error (state s) <> None)
    by (intro N; rewrite N in Hm; discriminate Hm).
  destruct (session_idle s Inv Hl (or_intror Hne)) as (Hs & Hc).
  assert (T := DreamViewFacts.loadDream_try_succeeded o).
  rewrite Ho in T.
  assert (E1 : step ClickTryAgain s
               = issue (AwaitDreamFetch (dreamRequest e id) false)
                   (withState
                      (setError None (setIsLoading true (state s))) s)).
  { unfold step. rewrite Ha. unfold loadDream. rewrite Hd.
    simpl. rewrite Hid, He. reflexivity. }
  change s' with (step (DreamFetchSettles 0 o) (step ClickTryAgain s)).
  rewrite E1. unfold issue. simpl. rewrite Hs. simpl.
  unfold loadDream_settle. rewrite T.
  unfold render, setIsLoading, setConcepts, setDream, setError. simpl.
  rewrite Hc. repeat split.
Qed.

Lemma try_again_recovers_witness :
  let s := run [DreamFetchSettles 0
                  (Fulfilled (statusResponse 500 "Internal Server Error"))]
               (mount None (Some "d1")) in
  render (state s) = ErrorCard "Failed to load dream: Internal Server Error"
  /\ render (state (run [ClickTryAgain;
                         DreamFetchSettles 0
                           (Fulfilled (okResponse (sampleBody ["s1"; "s2"])))]
                        s))
     = DreamPage false (Some false) [seed "s1"; seed "s2"] false.
Proof.
  intro s. split; [reflexivity|].
  apply (try_again_recovers None "d1"
           [DreamFetchSettles 0
              (Fulfilled (statusResponse 500 "Internal Server Error"))]
           "Failed to load dream: Internal Server Error"
           (Fulfilled (okResponse (sampleBody ["s1"; "s2"])))
           (sampleBody ["s1"; "s2"]) eq_refl eq_refl eq_refl eq_refl).
Defined.

(** X8: a view mounted without a dream id (the route parameter absent
    or empty) never leaves its initial state in a session: it shows the
    loading card for good, offers no button and sends no request. *)
Theorem mount_without_id_is_inert (e : Api.Env) (d : option string)
    (events : list Event) :
  truthy_opt d = false ->
  fixedRoute events = true ->
  run events (mount e d) = mount e d
  /\ render (state (run events (mount e d))) = LoadingCard
  /\ sent (run events (mount e d)) = [].
Proof.
  intros Hd Hf.
  assert (M : mount e d
              = {| env := e; dreamId := d; state := initialState;
                   suspended := []; sent := []; clipboardWrites := 0;
                   copyTimers := 0 |})
    by (unfold mount, dreamIdEffect; simpl; rewrite Hd; reflexivity).
  assert (R : run events (mount e d) = mount e d).
  { apply (DreamViewFacts.run_invariant (fun s => s = mount e d)
             (fun ev => negb (isRouteChange ev))); [|exact Hf|reflexivity].
    intros ev s Hev ->. rewrite M.
    destruct ev as [n | | | | w | | i o | i o]; try discriminate Hev;
      try reflexivity; destruct i; reflexivity. }
  rewrite R, M. repeat split.
Qed.

Lemma mount_without_id_is_inert_witness :
  run [ClickTryAgain; ClickContinue; ClickCopy] (mount None (Some ""))
  = mount None (Some "").
Proof.
  apply (mount_without_id_is_inert None (Some "")
           [ClickTryAgain; ClickContinue; ClickCopy] eq_refl eq_refl).
Defined.

(** *** The copy-link mark *)

Lemma copiedInv_step (ev : Event) (s : Sys) :
  copiedInv s -> copiedInv (step ev s).
Proof.
  unfold copiedInv. intro H.
  destruct ev as [n | | | | w | | i o | i o]; unfold step.
  - destruct (option_string_eqb n (dreamId s)); [exact H|].
    unfold dreamIdEffect, loadDream.
    destruct (truthy_opt (dreamId (withDreamId n s))); exact H.
  - destruct (tryAgainAvailable (state s)); [|exact H].
    unfold loadDream. destruct (truthy_opt (dreamId s)); exact H.
  - destruct (continueAvailable (state s)); [|exact H].
    unfold continueDream. destruct (truthy_opt (dreamId s)); exact H.
  - destruct (copyAvailable (state s)); exact H.
  - destruct (clipboardWrites s); [exact H|].
    destruct w; [|exact H]. simpl. intros _. lia.
  - destruct (copyTimers s) eqn:E; [rewrite E; exact H|].
    simpl. discriminate.
  - destruct (nth_error (suspended s) i) as [[req resume | req c]|];
      try exact H.
    unfold loadDream_settle.
    destruct (loadDream_try o); destruct resume; exact H.
  - destruct (nth_error (suspended s) i) as [[req resume | req c]|];
      try exact H.
    unfold continueDream_settle.
    destruct (continueDream_try o); [exact H|].
    unfold loadDream. destruct (truthy_opt (Some c)); exact H.
Qed.

(** X9: the "Copied!" mark never stays for good: in every reachable
    state in which [copied] is set a timer of [copyLink] is pending,
    and the next timer to fire clears the mark; a clipboard write that
    fails changes none of the state cells. *)
Theorem copied_mark_reverts (e : Api.Env) (d : option string)
    (events : list Event) :
  let s := run events (mount e d) in
  (copied (state s) = true -> 0 < copyTimers s)
  /\ (0 < copyTimers s -> copied (state (step CopiedTimeout s)) = false)
  /\ state (step (ClipboardSettles false) s) = state s.
Proof.
  intro s. split; [|split].
  - apply (DreamViewFacts.run_invariant copiedInv (fun _ => true)).
    + intros ev x _. apply copiedInv_step.
    + apply forallb_always.
    + unfold copiedInv, mount, dreamIdEffect, loadDream. simpl.
      destruct (truthy_opt d); simpl; discriminate.
  - unfold step. destruct (copyTimers s); [lia | reflexivity].
  - unfold step. destruct (clipboardWrites s); reflexivity.
Qed.

Lemma copied_mark_reverts_witness :
  let s := run [ClickCopy; ClipboardSettles true] (loaded ["s1"; "s2"]) in
  copied (state s) = true
  /\ copyTimers s = 1
  /\ copied (state (step CopiedTimeout s)) = false.
Proof.
  intro s.
  destruct (copied_mark_reverts None (Some "d1")
              [DreamFetchSettles 0
                 (Fulfilled (okResponse (sampleBody ["s1"; "s2"])));
               ClickCopy; ClipboardSettles true])
    as (_ & H & _).
  split; [reflexivity|]. split; [reflexivity|].
  apply H. change (0 < 1). lia.
Defined.

End DreamViewExtra.

(** ** [FindDreamsDropdown.tsx] *)

Module BrowserExtra.

Import Js Fetch FindDreamsDropdown Scrolling Notions.
Import FindDreamsDropdownFacts.
Local Open Scope nat_scope.
Local Arguments listUrl : simpl never.

(** *** What every reachable state satisfies *)

Lemma fetchDreams_try_succeeded (o : Outcome DreamListResponse) :
  match succeeded o with
  | Some data => fetchDreams_try o = inr data
  | None => exists err, fetchDreams_try o = inl err
  end.
Proof.
  destruct o as [err | r]; simpl; [exists err; reflexivity|].
  destruct (ok r); simpl; [|eexists; reflexivity].
  destruct (json r) as [err | data]; [exists err|]; reflexivity.
Qed.

(** The parts of [browserInv] that hold between a handler and the
    render that follows it. *)
Lemma calls_fetchDreams (offset : nat) (reset : bool) (s : Sys) :
  offset = length (dreams (state s)) ->
  reset = (offset =? 0) ->
  hasMore (state s) = true \/ dreams (state s) = [] ->
  (loading (state s) = true ->
   error (state s) = None
   /\ (hasMore (state s) = true \/ dreams (state s) = [])) ->
  Forall (fun t => FindDreamsDropdown.offset t = length (dreams (state s))
                   /\ req t = pageRequest (FindDreamsDropdown.offset t)
                   /\ FindDreamsDropdown.reset t
                      = (FindDreamsDropdown.offset t =? 0))
         (suspended s) ->
  let s' := fetchDreams offset reset s in
  (loading (state s') = true ->
   error (state s') = None
   /\ (hasMore (state s') = true \/ dreams (state s') = []))
  /\ Forall (fun t => FindDreamsDropdown.offset t
                      = length (dreams (state s'))
                      /\ req t = pageRequest (FindDreamsDropdown.offset t)
                      /\ FindDreamsDropdown.reset t
                         = (FindDreamsDropdown.offset t =? 0))
            (suspended s').
Proof.
  intros Ho Hr Hm Hl Hf s'. subst s'. unfold fetchDreams.
  destruct (loading (state s)) eqn:E.
  { rewrite E. split; [exact Hl | exact Hf]. }
  simpl. split; [intros _; split; [reflexivity | exact Hm]|].
  apply Forall_app. split; [exact Hf|].
  constructor; [|constructor]. simpl.
  repeat split; try assumption; reflexivity.
Qed.

Lemma browserInv_step (e : Event) (s : Sys) :
  fetchLock s -> browserInv s -> browserInv (step e s).
Proof.
  intros L (A & K & F). unfold browserInv. cbv zeta.
  assert (Hh : (loading (state (handle e s)) = true ->
                error (state (handle e s)) = None
                /\ (hasMore (state (handle e s)) = true
                    \/ dreams (state (handle e s)) = []))
               /\ Forall (fun t =>
                            offset t = length (dreams (state (handle e s)))
                            /\ req t = pageRequest (offset t)
                            /\ reset t = (offset t =? 0))
                         (suspended (handle e s))).
  { destruct e as [b | b | d | i o]; unfold handle.
    - split; assumption.
    - destruct (sentinel (render (state s))) eqn:S; [|split; assumption].
      destruct (b && hasMore (state s) && negb (loading (state s))) eqn:C;
        [|split; assumption].
      unfold render in S. simpl in S.
      apply andb_prop in S. destruct S as [S1 S3].
      apply andb_prop in S1. destruct S1 as [S1 _].
      apply Nat.ltb_lt in S3.
      apply calls_fetchDreams; auto.
      symmetry. apply Nat.eqb_neq. lia.
    - destruct (hasItem d (items (render (state s)))); split; assumption.
    - destruct (nth_error (suspended s) i) as [t|] eqn:Hi;
        [|split; assumption].
      unfold fetchDreams_settle. simpl.
      rewrite (fetchLock_single s i t L Hi).
      split; [discriminate | constructor]. }
  destruct Hh as (K1 & F1).
  assert (Hc : (loading (state (step e s)) = true ->
                error (state (step e s)) = None
                /\ (hasMore (state (step e s)) = true
                    \/ dreams (state (step e s)) = []))
               /\ Forall (fun t =>
                            offset t = length (dreams (state (step e s)))
                            /\ req t = pageRequest (offset t)
                            /\ reset t = (offset t =? 0))
                         (suspended (step e s))).
  { unfold step, commit, openEffect.
    destruct (openEffectDepsChanged (state s) (state (handle e s)));
      [|split; assumption].
    destruct (isDropdownOpen (state (handle e s))
              && (length (dreams (state (handle e s))) =? 0)) eqn:C;
      [|split; assumption].
    apply andb_prop in C. destruct C as [_ C]. apply Nat.eqb_eq in C.
    apply calls_fetchDreams; auto.
    right. destruct (dreams (state (handle e s)));
             [reflexivity | discriminate C]. }
  split; [|exact Hc].
  unfold step, commit.
  destruct (openEffectDepsChanged (state s) (state (handle e s))) eqn:D.
  - unfold openEffect.
    destruct (isDropdownOpen (state (handle e s))
              && (length (dreams (state (handle e s))) =? 0)) eqn:C.
    + intros _ _. apply fetchDreams_sets_loading.
    + intros Ho He. rewrite Ho, He in C. discriminate C.
  - unfold openEffectDepsChanged in D.
    apply Bool.orb_false_elim in D. destruct D as [D D3].
    apply Bool.orb_false_elim in D. destruct D as [D1 D2].
    apply Bool.negb_false_iff in D1, D2, D3.
    apply Bool.eqb_prop in D1, D3. apply Nat.eqb_eq in D2.
    intros Ho He. rewrite <- D3. apply A; [congruence|].
    rewrite He in D2. destruct (dreams (state s));
                        [reflexivity | discriminate D2].
Qed.

Lemma dreams_grow_step (e : Event) (s : Sys) :
  fetchLock s -> resetOnEmpty s ->
  exists more, dreams (state (step e s)) = (dreams (state s) ++ more)%list.
Proof.
  intros L R. unfold step. rewrite dreams_commit.
  destruct e as [b | b | d | i o]; unfold handle.
  - exists []. simpl. rewrite app_nil_r. reflexivity.
  - exists []. rewrite app_nil_r.
    destruct (sentinel (render (state s))); [|reflexivity].
    destruct (b && hasMore (state s) && negb (loading (state s)));
      [apply dreams_fetchDreams | reflexivity].
  - exists []. rewrite app_nil_r.
    destruct (hasItem d (items (render (state s)))); reflexivity.
  - destruct (nth_error (suspended s) i) as [t|] eqn:Hi.
    + unfold fetchDreams_settle.
      destruct (fetchDreams_try o) as [err | data]; simpl.
      * exists []. rewrite app_nil_r. reflexivity.
      * exists (data_dreams data).
        destruct (reset t) eqn:Hr; [|reflexivity].
        rewrite (R t (nth_error_In _ _ Hi) Hr). reflexivity.
    + exists []. rewrite app_nil_r. reflexivity.
Qed.

Lemma hasItem_In (dreamId : string) (l : list DreamSummary) :
  hasItem dreamId l = true -> exists d, In d l /\ id d = dreamId.
Proof.
  unfold hasItem. intro H. apply existsb_exists in H.
  destruct H as (d & Hd & He). exists d. split; [exact Hd|].
  apply String.eqb_eq, He.
Qed.

Lemma navigated_commit (before : State) (s : Sys) :
  navigated (commit before s) = navigated s.
Proof.
  unfold commit, openEffect, fetchDreams.
  destruct (openEffectDepsChanged before (state s)); [|reflexivity].
  destruct (isDropdownOpen (state s) && (length (dreams (state s)) =? 0));
    [|reflexivity].
  destruct (loading (state s)); reflexivity.
Qed.

Lemma navigatedListed_step (e : Event) (s : Sys) :
  fetchLock s -> resetOnEmpty s -> navigatedListed s ->
  navigatedListed (step e s).
Proof.
  intros L R N. destruct (dreams_grow_step e s L R) as (more & Hm).
  assert (Old : Forall (fun p => exists d,
                          In d (dreams (state (step e s)))
                          /\ p = "/dream/" ++ id d) (navigated s)).
  { revert N. unfold navigatedListed. apply Forall_impl.
    intros p (d & Hd & Hp). exists d. split; [|exact Hp].
    rewrite Hm. apply in_or_app. left. exact Hd. }
  unfold navigatedListed. unfold step at 2. rewrite navigated_commit.
  destruct e as [b | b | d | i o]; unfold handle.
  - exact Old.
  - destruct (sentinel (render (state s))); [|exact Old].
    destruct (b && hasMore (state s) && negb (loading (state s)));
      [|exact Old].
    unfold fetchDreams. destruct (loading (state s)); exact Old.
  - destruct (hasItem d (items (render (state s)))) eqn:H; [|exact Old].
    simpl. apply Forall_app. split; [exact Old|].
    constructor; [|constructor].
    destruct (hasItem_In _ _ H) as (x & Hx & <-).
    exists x. split; [|reflexivity].
    rewrite Hm. apply in_or_app. left.
    unfold render in Hx. simpl in Hx.
    destruct (((length (dreams (state s)) =? 0) && negb (loading (state s))
               && negb (truthy_opt (error (state s))))%bool);
      [contradiction | exact Hx].
  - destruct (nth_error (suspended s) i); exact Old.
Qed.

(** Everything that holds in every reachable state of the browser. *)
Lemma browser_reachable (events : list Event) :
  let s := run events mount in
  fetchLock s /\ resetOnEmpty s /\ browserInv s /\ navigatedListed s.
Proof.
  apply (browser_run_invariant
           (fun s => fetchLock s /\ resetOnEmpty s /\ browserInv s
                     /\ navigatedListed s)).
  - intros e s (L & R & B & N). split; [|split; [|split]].
    + apply fetchLock_step, L.
    + unfold step. apply resetOnEmpty_commit, resetOnEmpty_handle;
        assumption.
    + apply (browserInv_step e s L B).
    + apply navigatedListed_step; assumption.
  - split; [reflexivity|]. split; [intros t []|]. split.
    + split; [discriminate|]. split; [discriminate | constructor].
    + constructor.
Qed.

Lemma single_suspended (s : Sys) :
  fetchLock s -> loading (state s) = true ->
  exists t, suspended s = [t].
Proof.
  unfold fetchLock. intros L Hl. rewrite Hl in L.
  destruct (suspended s) as [|t [|t' l]]; try discriminate L.
  exists t. reflexivity.
Qed.

(** *** Failures and empty pages *)

(** X10: a page fetch that fails, in any state, leaves the accumulated
    list, [hasMore] and the open state as they were; unless the
    dropdown is open on an empty list, it ends with the message set,
    [loading] cleared and nothing sent. *)
Theorem failed_fetch_keeps_list (s : Sys) (i : nat) (t : Suspended)
    (o : Outcome DreamListResponse) :
  nth_error (suspended s) i = Some t ->
  succeeded o = None ->
  let s' := step (FetchSettles i o) s in
  dreams (state s') = dreams (state s)
  /\ hasMore (state s') = hasMore (state s)
  /\ isDropdownOpen (state s') = isDropdownOpen (state s)
  /\ (isDropdownOpen (state s) = false \/ dreams (state s) <> [] ->
      (exists m, error (state s') = Some m)
      /\ loading (state s') = false
      /\ sent s' = sent s
      /\ suspended s' = remove_nth i (suspended s)).
Proof.
  intros Hi Ho s'.
  assert (T := fetchDreams_try_succeeded o). rewrite Ho in T.
  destruct T as (err & T).
  assert (E : handle (FetchSettles i o) s
              = withState
                  (setLoading false
                     (setError
                        (Some (message_or err "Failed to load dreams"))
                        (state s)))
                  (withSuspended (remove_nth i (suspended s)) s)).
  { unfold handle. rewrite Hi. unfold fetchDreams_settle. rewrite T.
    reflexivity. }
  subst s'. unfold step. rewrite E.
  split; [rewrite dreams_commit; reflexivity|].
  unfold commit, openEffect. simpl.
  destruct (openEffectDepsChanged _ _).
  - destruct (isDropdownOpen (state s)) eqn:Hopen; simpl.
    + destruct (dreams (state s)) eqn:Hd; simpl.
      * split; [reflexivity|]. split; [exact Hopen|].
        intros [N | N]; [discriminate N|]. exfalso. apply N. reflexivity.
      * repeat split; try assumption. eexists. reflexivity.
    + repeat split; try assumption. eexists. reflexivity.
  - repeat split. eexists. reflexivity.
Qed.

Lemma failed_fetch_keeps_list_witness :
  let s := step (Intersect true)
             (served sampleDreams (step (OpenChange true) mount)) in
  let s' := step (FetchSettles 0
                    (Fulfilled (statusResponse 503 "Service Unavailable")))
              s in
  length (dreams (state s')) = 20
  /\ error (state s') = Some "Failed to fetch dreams: Service Unavailable"
  /\ hasMore (state s') = true.
Proof.
  intros s s'.
  destruct (failed_fetch_keeps_list s 0
              {| req := pageRequest 20; offset := 20; reset := false |}
              (Fulfilled (statusResponse 503 "Service Unavailable"))
              eq_refl eq_refl)
    as (Hd & Hm & _).
  fold s' in Hd, Hm. rewrite Hd, Hm. repeat split.
Defined.

(** X11: while the dropdown is open on an empty list, in every
    reachable state a fetch of the first page is outstanding, and the
    component shows the loading row and nothing else: neither the error
    message nor "No dreams found". *)
Theorem open_empty_shows_loading (events : list Event) :
  let s := run events mount in
  isDropdownOpen (state s) = true ->
  dreams (state s) = [] ->
  outstanding s = [pageRequest 0]
  /\ render (state s)
     = {| errorBanner := None; noDreamsFound := false; items := [];
          loadingRow := true; sentinel := false; allLoaded := false |}.
Proof.
  intros s Ho Hd.
  destruct (browser_reachable events) as (L & _ & (A & K & F) & _).
  fold s in L, A, K, F. cbv zeta in A, K, F.
  assert (Hl := A Ho Hd). destruct (K Hl) as (He & _).
  destruct (single_suspended s L Hl) as (t & Ht).
  rewrite Ht in F. inversion F as [|x l (Hoff & Hreq & _) _]; subst.
  split.
  - unfold outstanding. rewrite Ht. simpl. rewrite Hreq, Hoff, Hd.
    reflexivity.
  - unfold render. rewrite Hd, Hl, He. simpl.
    destruct (hasMore (state s)); reflexivity.
Qed.

Lemma open_empty_shows_loading_witness :
  loadingRow (render (state (run [OpenChange true] mount))) = true.
Proof.
  destruct (open_empty_shows_loading [OpenChange true] eq_refl eq_refl)
    as (_ & H).
  rewrite H. reflexivity.
Defined.

(** X12: while the dropdown is open on an empty list, a fetch that
    brings nothing (it fails, or its page is empty) is followed at once
    by a new request for the first page: the message it set is cleared
    again and [loading] is set again, for as long as the dropdown stays
    open and nothing comes. *)
Theorem empty_settle_refetches (events : list Event)
    (o : Outcome DreamListResponse) :
  let s := run events mount in
  isDropdownOpen (state s) = true ->
  dreams (state s) = [] ->
  bringsNothing o = true ->
  let s' := step (FetchSettles 0 o) s in
  sent s' = (sent s ++ [pageRequest 0])%list
  /\ outstanding s' = [pageRequest 0]
  /\ loading (state s') = true
  /\ error (state s') = None
  /\ dreams (state s') = []
  /\ isDropdownOpen (state s') = true.
Proof.
  intros s Ho Hd Hb s'.
  destruct (browser_reachable events) as (L & _ & (A & K & F) & _).
  fold s in L, A, K, F. cbv zeta in A, K, F.
  assert (Hl := A Ho Hd).
  destruct (single_suspended s L Hl) as (t & Ht).
  assert (Hh : exists st1,
             handle (FetchSettles 0 o) s
             = {| state := st1; suspended := []; sent := sent s;
                  navigated := navigated s |}
             /\ dreams st1 = [] /\ loading st1 = false
             /\ isDropdownOpen st1 = true).
  { unfold handle. rewrite Ht. simpl. unfold fetchDreams_settle.
    assert (T := fetchDreams_try_succeeded o).
    unfold bringsNothing in Hb.
    destruct (succeeded o) as [data|].
    - rewrite T. eexists. split; [reflexivity|]. simpl.
      destruct (data_dreams data); [|discriminate Hb].
      rewrite Hd. destruct (reset t); repeat split; assumption.
    - destruct T as (err & T). rewrite T.
      eexists. split; [reflexivity|]. simpl. repeat split; assumption. }
  destruct Hh as (st1 & Hh & Hd1 & Hl1 & Ho1).
  subst s'. unfold step. rewrite Hh.
  unfold commit, openEffectDepsChanged. simpl. rewrite Hl, Hl1. simpl.
  rewrite Bool.orb_true_r. unfold openEffect, fetchDreams. simpl.
  rewrite Ho1, Hd1, Hl1. simpl. repeat split; assumption.
Qed.

Lemma empty_settle_refetches_witness :
  let s' := run [OpenChange true;
                 FetchSettles 0
                   (Fulfilled (statusResponse 500 "Internal Server Error"))]
                mount in
  length (sent s') = 2 /\ error (state s') = None.
Proof.
  intro s'.
  destruct (empty_settle_refetches [OpenChange true]
              (Fulfilled (statusResponse 500 "Internal Server Error"))
              eq_refl eq_refl eq_refl)
    as (Hs & _ & _ & He & _).
  change (step _ (run [OpenChange true] mount)) with s' in Hs, He.
  rewrite Hs, He. split; reflexivity.
Defined.

(** *** The end of the list *)

(** X13: once the list is exhausted ([hasMore] false with at least one
    dream and no fetch under way), the browser never sends a request
    again: whatever events follow, the list and [hasMore] stay as they
    are, nothing is outstanding, and the "all loaded" row is shown. *)
Theorem exhausted_is_final (events more : list Event) :
  let s := run events mount in
  hasMore (state s) = false ->
  loading (state s) = false ->
  dreams (state s) <> [] ->
  let s' := run more s in
  sent s' = sent s
  /\ dreams (state s') = dreams (state s)
  /\ hasMore (state s') = false
  /\ outstanding s' = []
  /\ allLoaded (render (state s')) = true
  /\ sentinel (render (state s')) = false.
Proof.
  intros s Hm Hl Hd s'.
  destruct (browser_reachable events) as (L & _).
  fold s in L. unfold fetchLock in L. rewrite Hl in L.
  assert (Hs : suspended s = [])
    by (destruct (suspended s); [reflexivity | discriminate L]).
  assert (P : sent s' = sent s /\ dreams (state s') = dreams (state s)
              /\ hasMore (state s') = false /\ loading (state s') = false
              /\ suspended s' = []).
  { apply (browser_run_invariant
             (fun x => sent x = sent s /\ dreams (state x) = dreams (state s)
                       /\ hasMore (state x) = false
                       /\ loading (state x) = false /\ suspended x = []));
      [|repeat split; assumption].
    intros e x (Px & Pd & Pm & Pl & Ps).
    assert (Hne : forall y, dreams (state y) = dreams (state x) ->
                            dreams (state y) <> [])
      by (intros y Hy; rewrite Hy, Pd; exact Hd).
    unfold step. destruct e as [b | b | d | i o]; unfold handle.
    - rewrite commit_nonempty by (apply Hne; reflexivity).
      repeat split; assumption.
    - unfold render. simpl. rewrite Pm. simpl.
      rewrite commit_nonempty by (apply Hne; reflexivity).
      repeat split; assumption.
    - destruct (hasItem d (items (render (state x))));
        rewrite commit_nonempty by (apply Hne; reflexivity);
        repeat split; assumption.
    - rewrite Ps. destruct i; simpl;
        rewrite commit_nonempty by (apply Hne; reflexivity);
        repeat split; assumption. }
  destruct P as (Px & Pd & Pm & Pl & Ps).
  repeat split; try assumption.
  - unfold outstanding. rewrite Ps. reflexivity.
  - unfold render. simpl. rewrite Pm, Pd.
    destruct (dreams (state s)); [contradiction | reflexivity].
  - unfold render. simpl. rewrite Pm. reflexivity.
Qed.

Lemma exhausted_is_final_witness :
  let s := openAndScrollTwice sampleDreams in
  sent (run [Intersect true; OpenChange false; OpenChange true;
             Intersect true] s)
  = sent s.
Proof.
  intro s.
  apply (exhausted_is_final
           [OpenChange true; FetchSettles 0 (answer sampleDreams
              {| req := pageRequest 0; offset := 0; reset := true |});
            Intersect true; FetchSettles 0 (answer sampleDreams
              {| req := pageRequest 20; offset := 20; reset := false |});
            Intersect true; FetchSettles 0 (answer sampleDreams
              {| req := pageRequest 40; offset := 40; reset := false |})]
           [Intersect true; OpenChange false; OpenChange true;
            Intersect true] eq_refl eq_refl).
  intro N. vm_compute in N. discriminate N.
Defined.

(** *** Pages in general *)

Lemma firstn_nonempty {A} (n : nat) (l : list A) :
  l <> [] -> firstn (S n) l <> [].
Proof. destruct l; [contradiction | discriminate]. Qed.

Lemma offsets_snoc (len n : nat) :
  map (fun j => pageRequest (20 * j))
      (filter (fun j => 20 * j <? len) (seq 0 (S (S n))))
  = (map (fun j => pageRequest (20 * j))
         (filter (fun j => 20 * j <? len) (seq 0 (S n)))
     ++ (if 20 * S n <? len then [pageRequest (20 * S n)] else []))%list.
Proof.
  rewrite (seq_S (S n) 0), filter_app, map_app.
  change (0 + S n) with (S n). cbn [filter].
  destruct (20 * S n <? len); reflexivity.
Qed.

(** The state after opening and reaching the sentinel [n] times. *)
Lemma openAndScroll_state (db : list DreamSummary) (n : nat) :
  db <> [] ->
  openAndScroll db n
  = {| state := {| dreams := firstn (20 * S n) db; loading := false;
                   hasMore := 20 * S n <? length db; error := None;
                   isDropdownOpen := true |};
       suspended := [];
       sent := map (fun j => pageRequest (20 * j))
                   (filter (fun j => 20 * j <? length db) (seq 0 (S n)));
       navigated := [] |}.
Proof.
  intro Hne. induction n as [|n IH].
  - simpl openAndScroll. rewrite (open_fetches_first_page db Hne).
    assert (H0 : (0 <? length db) = true)
      by (destruct db; [contradiction | reflexivity]).
    simpl seq. simpl filter. change (20 * 0) with 0. rewrite H0.
    reflexivity.
  - simpl openAndScroll. rewrite IH. clear IH.
    rewrite offsets_snoc.
    assert (N : firstn (20 * S n) db <> []).
    { replace (20 * S n) with (S (19 + 20 * n)) by lia.
      apply firstn_nonempty, Hne. }
    destruct (20 * S n <? length db) eqn:E.
    + apply Nat.ltb_lt in E.
      rewrite (scroll_fetches_next_page db _ _ _ _ N).
      rewrite length_firstn, (Nat.min_l _ _ (Nat.lt_le_incl _ _ E)).
      rewrite firstn_next_page.
      replace (20 * S n + ITEMS_PER_PAGE) with (20 * S (S n))
        by (unfold ITEMS_PER_PAGE; lia).
      reflexivity.
    + apply Nat.ltb_ge in E.
      assert (St : step (Intersect true)
                     {| state := {| dreams := firstn (20 * S n) db;
                                    loading := false; hasMore := false;
                                    error := None; isDropdownOpen := true |};
                        suspended := [];
                        sent := map (fun j => pageRequest (20 * j))
                                    (filter (fun j => 20 * j <? length db)
                                       (seq 0 (S n)));
                        navigated := [] |}
                   = {| state := {| dreams := firstn (20 * S n) db;
                                    loading := false; hasMore := false;
                                    error := None; isDropdownOpen := true |};
                        suspended := [];
                        sent := map (fun j => pageRequest (20 * j))
                                    (filter (fun j => 20 * j <? length db)
                                       (seq 0 (S n)));
                        navigated := [] |}).
      { unfold step. simpl handle. apply commit_nonempty. exact N. }
      rewrite St. unfold served. simpl suspended. rewrite app_nil_r.
      rewrite (firstn_all2 db E).
      rewrite (firstn_all2 db) by lia.
      assert (F : (20 * S (S n) <? length db) = false)
        by (apply Nat.ltb_ge; lia).
      rewrite F. reflexivity.
Qed.

(** X14: against a backend that holds at least one dream, opening the
    browser and reaching the sentinel [n] times, each request answered
    before the next event, accumulates the first [20 * (n + 1)] dreams
    of the backend's list, in its order; the requests sent are those for
    the offsets [0, 20, 40, ...] below the length of that list, one
    each; [hasMore] tells whether dreams remain; and once [20 * (n + 1)]
    reaches the length of the list, the accumulated list is the
    backend's list. *)
Theorem pages_accumulate (db : list DreamSummary) (n : nat) :
  db <> [] ->
  let s := openAndScroll db n in
  dreams (state s) = firstn (20 * S n) db
  /\ hasMore (state s) = (20 * S n <? length db)
  /\ sent s = map (fun j => pageRequest (20 * j))
                  (filter (fun j => 20 * j <? length db) (seq 0 (S n)))
  /\ outstanding s = []
  /\ (length db <= 20 * S n -> dreams (state s) = db)
  /\ (NoDup db -> NoDup (dreams (state s))).
Proof.
  intros Hne s. subst s. rewrite (openAndScroll_state db n Hne).
  cbn [state dreams hasMore sent].
  split; [reflexivity|]. split; [reflexivity|]. split; [reflexivity|].
  split; [reflexivity|]. split.
  - intro H. apply firstn_all2, H.
  - intro H. rewrite <- (firstn_skipn (20 * S n) db) in H.
    apply NoDup_app_remove_r in H. exact H.
Qed.

Lemma pages_accumulate_witness :
  let db := firstn 7 sampleDreams in
  dreams (state (openAndScroll db 3)) = db
  /\ length (sent (openAndScroll db 3)) = 1.
Proof.
  intro db.
  destruct (pages_accumulate db 3) as (_ & _ & Hs & _ & Hd & _);
    [discriminate|].
  split; [apply Hd; simpl; lia|].
  rewrite Hs. reflexivity.
Defined.

(** *** Requests, rows and navigation *)

(** X15: in every reachable state, an outstanding list request asks for
    the page that starts right after the dreams accumulated so far, with
    the page size 20 and the fixed address; it is a replacing ([reset])
    fetch exactly when that offset is 0, and then the list is empty. *)
Theorem outstanding_fetch_continues_list (events : list Event)
    (t : Suspended) :
  let s := run events mount in
  In t (suspended s) ->
  offset t = length (dreams (state s))
  /\ url (req t)
     = "http://localhost:8000/v1/dream/list?offset="
         ++ of_number (length (dreams (state s))) ++ "&limit=20"
  /\ reset t = (length (dreams (state s)) =? 0)
  /\ (reset t = true -> dreams (state s) = []).
Proof.
  intros s Ht.
  destruct (browser_reachable events) as (_ & R & (_ & _ & F) & _).
  fold s in R, F. cbv zeta in F.
  destruct (proj1 (Forall_forall _ _) F t Ht) as (Ho & Hr & Hz).
  split; [exact Ho|]. split; [rewrite Hr, Ho; reflexivity|].
  split; [rewrite Hz, Ho; reflexivity|]. apply (R t Ht).
Qed.

Lemma outstanding_fetch_continues_list_witness :
  let s := step (Intersect true)
             (served sampleDreams (step (OpenChange true) mount)) in
  length (dreams (state s)) = 20.
Proof.
  intro s.
  destruct (outstanding_fetch_continues_list
              [OpenChange true;
               FetchSettles 0 (answer sampleDreams
                 {| req := pageRequest 0; offset := 0; reset := true |});
               Intersect true]
              {| req := pageRequest 20; offset := 20; reset := false |}
              (or_introl eq_refl))
    as (H & _).
  symmetry. exact H.
Defined.

(** X16: in every reachable state at most one of the four rows that can
    follow the items is rendered: "No dreams found", "Loading...", the
    sentinel, "All dreams loaded". *)
Theorem footer_rows_exclusive (events : list Event) :
  let v := render (state (run events mount)) in
  countTrue [noDreamsFound v; loadingRow v; sentinel v; allLoaded v] <= 1.
Proof.
  intro v. subst v.
  destruct (browser_reachable events) as (_ & _ & (_ & K & _) & _).
  cbv zeta in K. revert K.
  generalize (state (run events mount)). intros st K.
  unfold render, countTrue. simpl.
  destruct (loading st) eqn:Hl.
  - destruct (K eq_refl) as (_ & [Hm | Hd]).
    + rewrite Hm. rewrite !Bool.andb_false_r. simpl.
      destruct (length (dreams st) =? 0); simpl; lia.
    + rewrite Hd. simpl. rewrite !Bool.andb_false_r. simpl. lia.
  - destruct (dreams st); destruct (hasMore st);
      destruct (truthy_opt (error st)); simpl; lia.
Qed.

(** X17: the browser only ever navigates to the page of a dream it has
    listed: in every reachable state each path given to [navigate] is
    [/dream/] followed by the id of a dream of the accumulated list;
    selecting sends no request, closes the dropdown and leaves the list
    as it is, and selecting an id that is not listed does nothing. *)
Theorem navigates_to_listed_dreams (events : list Event)
    (dreamId : string) :
  let s := run events mount in
  Forall (fun p => exists d, In d (dreams (state s))
                             /\ p = "/dream/" ++ id d) (navigated s)
  /\ sent (step (SelectDream dreamId) s) = sent s
  /\ dreams (state (step (SelectDream dreamId) s)) = dreams (state s)
  /\ (hasItem dreamId (dreams (state s)) = true ->
      isDropdownOpen (state (step (SelectDream dreamId) s)) = false
      /\ navigated (step (SelectDream dreamId) s)
         = (navigated s ++ [append "/dream/" dreamId])%list)
  /\ (hasItem dreamId (dreams (state s)) = false ->
      step (SelectDream dreamId) s = s).
Proof.
  intro s.
  destruct (browser_reachable events) as (_ & _ & _ & N). fold s in N.
  split; [exact N|].
  assert (I : items (render (state s)) = dreams (state s)).
  { unfold render. simpl. destruct (dreams (state s)); simpl;
      [destruct (negb (loading (state s))
                 && negb (truthy_opt (error (state s))))|]; reflexivity. }
  assert (C : forall x, isDropdownOpen (state x) = false ->
                        commit (state s) x = x).
  { intros x Hx. unfold commit, openEffect. rewrite Hx. simpl.
    destruct (openEffectDepsChanged (state s) (state x)); reflexivity. }
  unfold step, handle. rewrite I.
  destruct (hasItem dreamId (dreams (state s))) eqn:H.
  - rewrite C by reflexivity. simpl.
    repeat split; try reflexivity. discriminate.
  - unfold commit. rewrite openEffectDepsChanged_same.
    repeat split; try reflexivity; discriminate.
Qed.

Lemma navigates_to_listed_dreams_witness :
  let s := served sampleDreams (step (OpenChange true) mount) in
  navigated (step (SelectDream "3") s) = ["/dream/3"]
  /\ step (SelectDream "nowhere") s = s.
Proof.
  intro s.
  destruct (navigates_to_listed_dreams
              [OpenChange true;
               FetchSettles 0 (answer sampleDreams
                 {| req := pageRequest 0; offset := 0; reset := true |})]
              "3") as (_ & _ & _ & H & _).
  destruct (navigates_to_listed_dreams
              [OpenChange true;
               FetchSettles 0 (answer sampleDreams
                 {| req := pageRequest 0; offset := 0; reset := true |})]
              "nowhere") as (_ & _ & _ & _ & N).
  split; [apply H; reflexivity | apply N; reflexivity].
Defined.

End BrowserExtra.

(** ** [NewDreamView.tsx] *)

Module NewDreamViewFacts.

Import Js Fetch NewDreamView Notions.
Local Open Scope nat_scope.

Section WithTrim.

Variable trim : string -> string.

Lemma startAvailable_inv (st : State) :
  startAvailable trim st = true ->
  isLoading st = false /\ truthy_opt (error st) = false
  /\ truthy (concept1 st) = true /\ truthy (concept2 st) = true
  /\ isStarting st = false
  /\ truthy (trim (concept1 st)) = true
  /\ truthy (trim (concept2 st)) = true.
Proof.
  unfold startAvailable, render.
  destruct (isLoading st); [discriminate|].
  destruct (truthy_opt (error st)); [discriminate|].
  destruct (truthy (concept1 st)); [|discriminate].
  destruct (truthy (concept2 st)); [|discriminate]. simpl.
  destruct (isStarting st); [discriminate|].
  destruct (truthy (trim (concept1 st))); [|discriminate].
  destruct (truthy (trim (concept2 st))); [|discriminate].
  intros _. repeat split.
Qed.

Lemma editorShown_inv (st : State) :
  editorShown trim st = true ->
  isLoading st = false /\ truthy_opt (error st) = false
  /\ truthy (concept1 st) = true /\ truthy (concept2 st) = true.
Proof.
  unfold editorShown, render.
  destruct (isLoading st); [discriminate|].
  destruct (truthy_opt (error st)); [discriminate|].
  destruct (truthy (concept1 st)); [|discriminate].
  destruct (truthy (concept2 st)); [|discriminate].
  intros _. repeat split.
Qed.

Lemma tryAgainAvailable_new_inv (st : State) :
  tryAgainAvailable trim st = true ->
  isLoading st = false /\ truthy_opt (error st) = true.
Proof.
  unfold tryAgainAvailable, render.
  destruct (isLoading st); [discriminate|].
  destruct (truthy_opt (error st)); [auto|].
  destruct (truthy (concept1 st) && truthy (concept2 st)); discriminate.
Qed.

Lemma startDreaming_sends (s : Sys) :
  startAvailable trim (state s) = true ->
  startDreaming trim s
  = {| state := setError None (setIsStarting true (state s));
       suspended := (suspended s ++ [AwaitStart])%list;
       sent := (sent s
                ++ [startRequest
                      {| concept_1 := trim (concept1 (state s));
                         concept_2 := trim (concept2 (state s)) |}])%list;
       navigated := navigated s |}.
Proof.
  intro H. destruct (startAvailable_inv _ H) as (_ & _ & _ & _ & _ & T1 & T2).
  unfold startDreaming. rewrite T1, T2. reflexivity.
Qed.

Lemma start_try_id (o : Outcome DreamStartResponse) (id : string) :
  start_try o = inr id -> truthy id = true.
Proof.
  destruct o as [err | r]; simpl; [discriminate|].
  destruct (ok r); simpl; [|discriminate].
  destruct (json r) as [err | data]; [discriminate|].
  destruct (success data); simpl; [|discriminate].
  destruct (truthy (dream_id data)) eqn:T; [|discriminate].
  intro H. injection H as <-. exact T.
Qed.

Lemma count_zero_no_call {A} (p : A -> bool) (l : list A) (i : nat)
    (x : A) :
  length (filter p l) = 0 -> nth_error l i = Some x -> p x = false.
Proof.
  intros H Hi.
  rewrite (DreamViewFacts.nth_error_remove_nth_length p l i x Hi) in H.
  destruct (p x); [discriminate H | reflexivity].
Qed.

Lemma newDreamInv_generate (s : Sys) :
  isLoading (state s) = false ->
  isStarting (state s) = false ->
  startLock s -> generateLock s ->
  Forall newDreamRequest (sent s) -> Forall dreamPath (navigated s) ->
  newDreamInv trim (generateInitialConcepts s).
Proof.
  intros Hl Hs SL GL Fs Fn.
  unfold newDreamInv, startLock, generateLock, generateInitialConcepts
    in *. simpl. rewrite Hl in GL. rewrite Hs in SL |- *.
  rewrite !DreamViewFacts.filter_snoc_length, SL, GL. simpl.
  repeat split; try assumption; try discriminate.
  apply Forall_app. split; [exact Fs|].
  constructor; [|constructor]. left. reflexivity.
Qed.

Lemma newDreamInv_step (e : Event) (s : Sys) :
  newDreamInv trim s -> newDreamInv trim (step trim e s).
Proof.
  intros (SL & GL & U & V & Fs & Fn).
  assert (Inv : newDreamInv trim s)
    by exact (conj SL (conj GL (conj U (conj V (conj Fs Fn))))).
  destruct e as [t | t | | | | i o | i o]; unfold step.
  - destruct (editorShown trim (state s)); exact Inv.
  - destruct (editorShown trim (state s)); exact Inv.
  - destruct (tryAgainAvailable trim (state s)) eqn:A; [|exact Inv].
    destruct (tryAgainAvailable_new_inv _ A) as (Hl & He).
    apply newDreamInv_generate; try assumption.
    destruct (isStarting (state s)); [|reflexivity].
    destruct (V eq_refl) as (N & _). rewrite N in He. discriminate He.
  - destruct (editorShown trim (state s)); [|exact Inv].
    apply newDreamInv_generate; try reflexivity; try assumption.
  - destruct (startAvailable trim (state s)) eqn:A; [|exact Inv].
    rewrite (startDreaming_sends s A).
    destruct (startAvailable_inv _ A) as (Hl & _ & _ & _ & Hs & T1 & T2).
    unfold newDreamInv, startLock, generateLock in *. simpl.
    rewrite Hs in SL. rewrite Hl in GL |- *.
    rewrite !DreamViewFacts.filter_snoc_length, SL, GL. simpl.
    repeat split; try assumption; try discriminate.
    apply Forall_app. split; [exact Fs|].
    constructor; [|constructor]. right. eexists.
    split; [reflexivity|]. split; assumption.
  - destruct (nth_error (suspended s) i) as [[|]|] eqn:Hi; try exact Inv.
    assert (Hl : isLoading (state s) = true).
    { destruct (isLoading (state s)) eqn:E; [reflexivity|].
      unfold generateLock in GL. rewrite E in GL.
      assert (N := count_zero_no_call isGenerate _ _ _ GL Hi).
      discriminate N. }
    destruct (U Hl) as (He & Hs).
    unfold newDreamInv, startLock, generateLock in *.
    rewrite (DreamViewFacts.nth_error_remove_nth_length isGenerate
               _ _ _ Hi) in GL.
    rewrite (DreamViewFacts.nth_error_remove_nth_length isStart
               _ _ _ Hi) in SL.
    rewrite Hl in GL. simpl in SL, GL. unfold generate_settle.
    destruct (generate_try o); simpl; rewrite Hs in *;
      repeat split; try assumption; try discriminate; lia.
  - destruct (nth_error (suspended s) i) as [[|]|] eqn:Hi; try exact Inv.
    assert (Hs : isStarting (state s) = true).
    { destruct (isStarting (state s)) eqn:E; [reflexivity|].
      unfold startLock in SL. rewrite E in SL.
      assert (N := count_zero_no_call isStart _ _ _ SL Hi).
      discriminate N. }
    destruct (V Hs) as (He & Hl).
    unfold newDreamInv, startLock, generateLock in *.
    rewrite (DreamViewFacts.nth_error_remove_nth_length isGenerate
               _ _ _ Hi) in GL.
    rewrite (DreamViewFacts.nth_error_remove_nth_length isStart
               _ _ _ Hi) in SL.
    rewrite Hs in SL. simpl in SL, GL. unfold start_settle.
    destruct (start_try o) as [err | id] eqn:T; simpl; rewrite Hl in *;
      repeat split; try assumption; try discriminate; try lia.
    apply Forall_app. split; [exact Fn|].
    constructor; [|constructor]. exists id.
    split; [exact (start_try_id o id T) | reflexivity].
Qed.

Lemma newDreamInv_run (events : list Event) :
  newDreamInv trim (run trim events mount).
Proof.
  apply (runWith_invariant (step trim) (newDreamInv trim) (fun _ => true)).
  - intros e s _. apply newDreamInv_step.
  - apply forallb_always.
  - apply newDreamInv_generate; try reflexivity; constructor.
Qed.

(** In a reachable state that shows a button, nothing is suspended
    unless a start is under way. *)
Lemma idle_nothing_suspended (s : Sys) :
  newDreamInv trim s ->
  isLoading (state s) = false -> isStarting (state s) = false ->
  suspended s = [].
Proof.
  intros (SL & GL & _) Hl Hs.
  unfold startLock, generateLock in *. rewrite Hs in SL. rewrite Hl in GL.
  destruct (suspended s) as [|[|] l]; [reflexivity | discriminate GL
                                      | discriminate SL].
Qed.

(** X18: at most one start request and at most one generation request
    are outstanding in any reachable state, and never one of each; the
    start button is disabled while a start is under way, so a second
    click on it changes nothing. *)
Theorem new_dream_single_flight (events : list Event) :
  let s := run trim events mount in
  length (suspended s) <= 1
  /\ (isStarting (state s) = true ->
      suspended s = [AwaitStart] /\ startAvailable trim (state s) = false)
  /\ (isLoading (state s) = true ->
      suspended s = [AwaitGenerate] /\ render trim (state s) = LoadingCard)
  /\ step trim ClickStart (step trim ClickStart s) = step trim ClickStart s.
Proof.
  intro s. assert (Inv := newDreamInv_run events). fold s in Inv.
  assert (Inv1 := newDreamInv_step ClickStart s Inv).
  destruct Inv as (SL & GL & U & V & _).
  unfold startLock, generateLock in SL, GL.
  assert (N : forall x, startAvailable trim (state x) = false ->
                        step trim ClickStart x = x)
    by (intros x Hx; unfold step; rewrite Hx; reflexivity).
  assert (D : forall st, isStarting st = true ->
                         startAvailable trim st = false).
  { intros st Hst. unfold startAvailable, render. rewrite Hst.
    destruct (isLoading st); [reflexivity|].
    destruct (truthy_opt (error st)); [reflexivity|].
    destruct (truthy (concept1 st) && truthy (concept2 st)); reflexivity. }
  split; [|split; [|split]].
  - destruct (isStarting (state s)) eqn:Hs;
      destruct (isLoading (state s)) eqn:Hl.
    + destruct (V eq_refl) as (_ & F). discriminate F.
    + destruct (suspended s) as [|[|] [|[|] l]];
        simpl in *; try discriminate; lia.
    + destruct (suspended s) as [|[|] [|[|] l]];
        simpl in *; try discriminate; lia.
    + destruct (suspended s) as [|[|] l]; simpl in *; try discriminate; lia.
  - intro Hs. rewrite Hs in SL. destruct (V Hs) as (_ & Hl).
    rewrite Hl in GL. split; [|apply D, Hs].
    destruct (suspended s) as [|[|] [|[|] l]];
      simpl in *; try discriminate; reflexivity.
  - intro Hl. rewrite Hl in GL. destruct (U Hl) as (_ & Hs).
    rewrite Hs in SL. split; [|unfold render; rewrite Hl; reflexivity].
    destruct (suspended s) as [|[|] [|[|] l]];
      simpl in *; try discriminate; reflexivity.
  - destruct (startAvailable trim (state s)) eqn:A.
    + apply N. unfold step. rewrite A, (startDreaming_sends s A).
      apply D. reflexivity.
    + rewrite (N s A). apply N, A.
Qed.

(** X19: every request the page ever sends is the generation request,
    without a body, or the start request with two non-empty texts; a
    click on the enabled start button sends exactly one request, the
    POST to [/v1/dream/start] whose body holds the two texts as [trim]
    returns them, and sets no error: the message "Both concepts must be
    filled in" cannot come from a click, for the button is disabled
    whenever [startDreaming] would refuse. *)
Theorem start_sends_trimmed_texts (events : list Event) :
  let s := run trim events mount in
  Forall newDreamRequest (sent s)
  /\ (startAvailable trim (state s) = true ->
      sent (step trim ClickStart s)
      = (sent s
         ++ [{| request :=
                  {| method := POST;
                     url := "http://localhost:8000/v1/dream/start" |};
                body := Some {| concept_1 := trim (concept1 (state s));
                                concept_2 := trim (concept2 (state s)) |}
             |}])%list
      /\ error (state (step trim ClickStart s)) = None
      /\ isStarting (state (step trim ClickStart s)) = true)
  /\ (truthy (trim (concept1 (state s))) = false
      \/ truthy (trim (concept2 (state s))) = false ->
      step trim ClickStart s = s).
Proof.
  intro s. destruct (newDreamInv_run events) as (_ & _ & _ & _ & Fs & _).
  fold s in Fs. split; [exact Fs|]. split.
  - intro A. unfold step. rewrite A, (startDreaming_sends s A).
    repeat split.
  - intro H. unfold step.
    destruct (startAvailable trim (state s)) eqn:A; [|reflexivity].
    destruct (startAvailable_inv _ A) as (_ & _ & _ & _ & _ & T1 & T2).
    destruct H as [H | H]; congruence.
Qed.

(** X20: the page navigates only when a start is answered with
    [success = true] and a non-empty [dream_id], and then to the path
    [/dream/] followed by that id; an answer with [success = false] or
    an empty id gives the message "Dream start was not successful", any
    other failure a message as well, and then nothing is navigated to.
    Either way [isStarting] is cleared and the two texts are kept.  So
    every path ever navigated to is [/dream/] followed by a non-empty
    id. *)
Theorem start_outcome (events : list Event)
    (o : Outcome DreamStartResponse) :
  let s := run trim events mount in
  Forall dreamPath (navigated s)
  /\ (isStarting (state s) = true ->
      let s' := step trim (StartSettles 0 o) s in
      isStarting (state s') = false
      /\ concept1 (state s') = concept1 (state s)
      /\ concept2 (state s') = concept2 (state s)
      /\ suspended s' = []
      /\ match succeeded o with
         | Some data =>
             if success data && truthy (dream_id data) then
               navigated s'
               = (navigated s ++ [append "/dream/" (dream_id data)])%list
               /\ error (state s') = None
             else
               navigated s' = navigated s
               /\ error (state s') = Some "Dream start was not successful"
         | None =>
             navigated s' = navigated s
             /\ exists m, error (state s') = Some m
         end).
Proof.
  intro s. assert (Inv := newDreamInv_run events). fold s in Inv.
  destruct Inv as (SL & GL & U & V & _ & Fn).
  split; [exact Fn|]. intros Hs s'.
  destruct (V Hs) as (He & Hl).
  unfold startLock, generateLock in SL, GL. rewrite Hs in SL.
  rewrite Hl in GL.
  assert (S1 : suspended s = [AwaitStart])
    by (destruct (suspended s) as [|[|] [|[|] l]];
        simpl in *; try discriminate; reflexivity).
  subst s'. unfold step. rewrite S1. simpl. unfold start_settle.
  destruct o as [err | r]; simpl.
  - repeat split. eexists. reflexivity.
  - destruct (ok r); simpl.
    + destruct (json r) as [err | data]; simpl.
      * repeat split. eexists. reflexivity.
      * destruct (success data && truthy (dream_id data)); simpl;
          repeat split; exact He.
    + repeat split. eexists. reflexivity.
Qed.

(** X21: a page that shows neither card nor editor (one of the two
    texts is empty, with no error and nothing under way) offers no
    control at all, and every event leaves it as it is: the texts can
    not be edited again and no request is ever sent from it. *)
Theorem blank_page_is_dead (events more : list Event) :
  let s := run trim events mount in
  render trim (state s) = Blank ->
  isStarting (state s) = false ->
  run trim more s = s.
Proof.
  intros s Hb Hs. assert (Inv := newDreamInv_run events). fold s in Inv.
  assert (Hl : isLoading (state s) = false)
    by (revert Hb; unfold render; destruct (isLoading (state s));
        [discriminate | reflexivity]).
  assert (Hn := idle_nothing_suspended s Inv Hl Hs).
  apply (runWith_invariant (step trim) (fun x => x = s) (fun _ => true));
    [|apply forallb_always | reflexivity].
  intros e x _ ->.
  destruct e as [t | t | | | | i o | i o]; unfold step,
    editorShown, tryAgainAvailable, startAvailable; rewrite ?Hb, ?Hn;
    try reflexivity; destruct i; reflexivity.
Qed.

(** X22: a generation that is answered well, in a reachable state, puts
    the contents of the first two generated concepts into the two
    texts, an absent or empty one giving the empty text, and sets no
    error; the editor is then shown when both texts are non-empty, and
    otherwise, in particular when fewer than two concepts came, the
    page is blank. *)
Lemma generate_settle_state (s : Sys) (o : Outcome DreamCreateResponse)
    (data : DreamCreateResponse) :
  newDreamInv trim s ->
  isLoading (state s) = true ->
  succeeded o = Some data ->
  step trim (GenerateSettles 0 o) s
  = {| state := {| isLoading := false; isStarting := false;
                   concept1 := contentAt 0 data;
                   concept2 := contentAt 1 data; error := None |};
       suspended := []; sent := sent s; navigated := navigated s |}.
Proof.
  intros (SL & GL & U & _) Hl Ho.
  destruct (U Hl) as (He & Hs).
  unfold startLock, generateLock in SL, GL. rewrite Hs in SL.
  rewrite Hl in GL.
  assert (S1 : suspended s = [AwaitGenerate])
    by (destruct (suspended s) as [|[|] [|[|] l]];
        simpl in *; try discriminate; reflexivity).
  assert (T : generate_try o = inr data).
  { revert Ho. destruct o as [err | r]; simpl; [discriminate|].
    destruct (ok r); simpl; [|discriminate].
    destruct (json r); [discriminate|]. intro H. injection H as ->.
    reflexivity. }
  unfold step. rewrite S1. simpl. unfold generate_settle.
  rewrite T. unfold withState, setIsLoading, setConcept2, setConcept1.
  simpl. rewrite Hs, He. reflexivity.
Qed.

Theorem generation_outcome (events : list Event)
    (o : Outcome DreamCreateResponse) (data : DreamCreateResponse) :
  let s := run trim events mount in
  isLoading (state s) = true ->
  succeeded o = Some data ->
  let s' := step trim (GenerateSettles 0 o) s in
  state s'
  = {| isLoading := false; isStarting := false;
       concept1 := contentAt 0 data; concept2 := contentAt 1 data;
       error := None |}
  /\ suspended s' = []
  /\ sent s' = sent s
  /\ (length (concepts data) < 2 -> render trim (state s') = Blank)
  /\ (contentAt 0 data = "" \/ contentAt 1 data = "" ->
      render trim (state s') = Blank)
  /\ (truthy (contentAt 0 data) = true ->
      truthy (contentAt 1 data) = true ->
      editorShown trim (state s') = true).
Proof.
  intros s Hl Ho s'. assert (Inv := newDreamInv_run events). fold s in Inv.
  assert (E := generate_settle_state s o data Inv Hl Ho). fold s' in E.
  rewrite E. simpl.
  assert (B : contentAt 0 data = "" \/ contentAt 1 data = "" ->
              render trim
                {| isLoading := false; isStarting := false;
                   concept1 := contentAt 0 data;
                   concept2 := contentAt 1 data; error := None |}
              = Blank).
  { intros [H | H]; unfold render; simpl; rewrite H; simpl;
      [|rewrite Bool.andb_false_r]; reflexivity. }
  split; [reflexivity|]. split; [reflexivity|]. split; [reflexivity|].
  split; [|split; [exact B|]].
  - intro Hlen. apply B. right. unfold contentAt.
    destruct (concepts data) as [|c1 [|c2 l]]; try reflexivity.
    simpl in Hlen. lia.
  - intros T0 T1. unfold editorShown, render. simpl. rewrite T0, T1.
    reflexivity.
Qed.

(** X23: the "Try Again" button of the error card always generates
    anew, also when the error came from a failed start: it sends the
    generation request, never a start request, and when that is
    answered well the two texts are replaced by the generated ones,
    whatever the user had written. *)
Theorem try_again_regenerates (events : list Event) (m : string)
    (o : Outcome DreamCreateResponse) (data : DreamCreateResponse) :
  let s := run trim events mount in
  render trim (state s) = ErrorCard m ->
  succeeded o = Some data ->
  let s' := run trim [ClickTryAgain; GenerateSettles 0 o] s in
  sent (step trim ClickTryAgain s) = (sent s ++ [generateRequest])%list
  /\ render trim (state (step trim ClickTryAgain s)) = LoadingCard
  /\ sent s' = (sent s ++ [generateRequest])%list
  /\ concept1 (state s') = contentAt 0 data
  /\ concept2 (state s') = contentAt 1 data
  /\ error (state s') = None.
Proof.
  intros s Hr Ho s'.
  assert (A : tryAgainAvailable trim (state s) = true)
    by (unfold tryAgainAvailable; rewrite Hr; reflexivity).
  assert (E1 : step trim ClickTryAgain s = generateInitialConcepts s)
    by (unfold step; rewrite A; reflexivity).
  assert (Inv := newDreamInv_run events). fold s in Inv.
  assert (Inv1 := newDreamInv_step ClickTryAgain s Inv).
  assert (E2 := generate_settle_state (step trim ClickTryAgain s) o data
                  Inv1).
  rewrite E1 in E2 |- *. specialize (E2 eq_refl Ho).
  change s' with (step trim (GenerateSettles 0 o)
                    (step trim ClickTryAgain s)).
  rewrite E1, E2. repeat split.
Qed.

End WithTrim.

Lemma new_dream_single_flight_witness :
  suspended (run trimAscii [GenerateSettles 0 (generated "tea" "moon");
                            ClickStart; ClickStart] mount)
  = [AwaitStart].
Proof.
  apply (new_dream_single_flight trimAscii
           [GenerateSettles 0 (generated "tea" "moon");
            ClickStart; ClickStart]).
  reflexivity.
Defined.

Lemma start_sends_trimmed_texts_witness :
  let s := run trimAscii [GenerateSettles 0 (generated "  tea " "moon")]
             mount in
  map body (sent (step trimAscii ClickStart s))
  = [None; Some {| concept_1 := "tea"; concept_2 := "moon" |}].
Proof.
  intro s.
  destruct (start_sends_trimmed_texts trimAscii
              [GenerateSettles 0 (generated "  tea " "moon")])
    as (_ & H & _).
  destruct (H eq_refl) as (Hs & _). fold s in Hs. rewrite Hs. reflexivity.
Defined.

Lemma start_outcome_witness :
  let s := run trimAscii [GenerateSettles 0 (generated "tea" "moon");
                          ClickStart] mount in
  navigated
    (step trimAscii
       (StartSettles 0
          (Fulfilled (okResponse {| success := true; dream_id := "d9" |})))
       s)
  = ["/dream/d9"]
  /\ navigated
       (step trimAscii
          (StartSettles 0
             (Fulfilled (okResponse {| success := true; dream_id := "" |})))
          s)
     = [].
Proof.
  intro s. split.
  - destruct (start_outcome trimAscii
                [GenerateSettles 0 (generated "tea" "moon"); ClickStart]
                (Fulfilled
                   (okResponse {| success := true; dream_id := "d9" |})))
      as (_ & H).
    destruct (H eq_refl) as (_ & _ & _ & _ & Hn & _). exact Hn.
  - destruct (start_outcome trimAscii
                [GenerateSettles 0 (generated "tea" "moon"); ClickStart]
                (Fulfilled
                   (okResponse {| success := true; dream_id := "" |})))
      as (_ & H).
    destruct (H eq_refl) as (_ & _ & _ & _ & Hn & _). exact Hn.
Defined.

Lemma blank_page_is_dead_witness :
  let s := run trimAscii [GenerateSettles 0 (generated "tea" "moon");
                          ChangeConcept1 ""] mount in
  render trimAscii (state s) = Blank
  /\ run trimAscii [ChangeConcept1 "tea"; ClickStart; ClickReroll;
                    ClickTryAgain] s
     = s.
Proof.
  intro s. split; [reflexivity|].
  apply (blank_page_is_dead trimAscii
           [GenerateSettles 0 (generated "tea" "moon"); ChangeConcept1 ""]
           [ChangeConcept1 "tea"; ClickStart; ClickReroll; ClickTryAgain]
           eq_refl eq_refl).
Defined.

Lemma generation_outcome_witness :
  render trimAscii
    (state (step trimAscii
              (GenerateSettles 0
                 (Fulfilled
                    (okResponse {| concepts := [{| content := "tea" |}] |})))
              mount))
  = Blank.
Proof.
  destruct (generation_outcome trimAscii []
              (Fulfilled
                 (okResponse {| concepts := [{| content := "tea" |}] |}))
              {| concepts := [{| content := "tea" |}] |} eq_refl eq_refl)
    as (_ & _ & _ & H & _).
  apply H. simpl. lia.
Defined.

Lemma try_again_regenerates_witness :
  let s := run trimAscii
             [GenerateSettles 0 (generated "tea" "moon");
              ChangeConcept1 "green tea"; ClickStart;
              StartSettles 0
                (Fulfilled (statusResponse 500 "Internal Server Error"))]
             mount in
  concept1 (state s) = "green tea"
  /\ concept1 (state (run trimAscii
                        [ClickTryAgain;
                         GenerateSettles 0 (generated "salt" "rain")] s))
     = "salt".
Proof.
  intro s. split; [reflexivity|].
  apply (try_again_regenerates trimAscii
           [GenerateSettles 0 (generated "tea" "moon");
            ChangeConcept1 "green tea"; ClickStart;
            StartSettles 0
              (Fulfilled (statusResponse 500 "Internal Server Error"))]
           "Failed to start dream: Internal Server Error"
           (generated "salt" "rain")
           {| concepts := [{| content := "salt" |};
                           {| content := "rain" |}] |}
           eq_refl eq_refl).
Defined.

End NewDreamViewFacts.

(** ** [ConceptCard.tsx] *)

Module ConceptCardFacts.

Import Js DreamView ConceptCard.
Local Open Scope nat_scope.

(** On an ASCII string the code units are the characters. *)
Lemma codeUnits_ascii (s : string) :
  isAscii s = true ->
  codeUnits s = Some (map N_of_ascii (list_ascii_of_string s)).
Proof.
  unfold codeUnits. induction s as [|c s IH]; simpl; [reflexivity|].
  intro H. apply andb_prop in H. destruct H as (Hc & Hs).
  rewrite Hc. rewrite (IH Hs). reflexivity.
Qed.

Lemma isAscii_substring (n : nat) (s : string) :
  isAscii s = true -> isAscii (String.substring 0 n s) = true.
Proof.
  revert s. induction n as [|n IH]; intros s H.
  - destruct s; reflexivity.
  - destruct s as [|c s]; [reflexivity|]. simpl in *.
    apply andb_prop in H. destruct H as (Hc & Hs).
    rewrite Hc. simpl. apply IH. exact Hs.
Qed.

Lemma list_ascii_substring (n : nat) (s : string) :
  list_ascii_of_string (String.substring 0 n s)
  = firstn n (list_ascii_of_string s).
Proof.
  revert s. induction n as [|n IH]; intro s.
  - destruct s; reflexivity.
  - destruct s as [|c s]; [reflexivity|]. simpl. rewrite IH. reflexivity.
Qed.

(** X24: the badge of a card and the text beside it follow different
    tests.  The badge reads "Initial" (secondary variant) exactly when
    both parent ids are absent or empty, and then the text is "Initial
    concept"; two badges are shown exactly when both ids are non-empty,
    one badge when the first is and the second is not; a concept whose
    only non-empty parent id is the second has the badge "Generated"
    beside the text "Initial concept", and no parent badge. *)
Theorem badge_and_parent_info (concept : ConceptResponse) :
  let p1 := truthy_opt (parent1_id concept) in
  let p2 := truthy_opt (parent2_id concept) in
  (getConceptType concept = "Initial" <-> p1 = false /\ p2 = false)
  /\ (getConceptVariant concept = VariantSecondary
      <-> getConceptType concept = "Initial")
  /\ (getConceptType concept = "Initial" ->
      parentInfo concept = InitialConceptText)
  /\ ((exists a b, parentInfo concept = Parents a b)
      <-> p1 = true /\ p2 = true)
  /\ ((exists a, parentInfo concept = Parent a) <-> p1 = true /\ p2 = false)
  /\ (getConceptType concept = "Generated"
      /\ parentInfo concept = InitialConceptText
      <-> p1 = false /\ p2 = true).
Proof.
  intros p1 p2. subst p1 p2.
  unfold getConceptType, getConceptVariant, parentInfo.
  destruct (truthy_opt (parent1_id concept));
    destruct (truthy_opt (parent2_id concept)); simpl;
    repeat split; intros; try reflexivity;
    try (eexists; reflexivity); try (eexists; eexists; reflexivity);
    repeat match goal with
           | H : exists _, _ |- _ => destruct H
           | H : _ /\ _ |- _ => destruct H
           end;
    discriminate.
Qed.

Lemma badge_and_parent_info_witness :
  let concept := {| concept_id := "c3"; content := "tea on the moon";
                    parent1_id := None; parent2_id := Some "c2" |} in
  getConceptType concept = "Generated"
  /\ parentInfo concept = InitialConceptText.
Proof.
  intro concept.
  apply (badge_and_parent_info concept). split; reflexivity.
Defined.

(** X25: a parent badge shows the first five UTF-16 code units of the
    parent id, all of them when the id has five or fewer; for an ASCII
    id these are its first five characters.  Its click looks for the
    element whose [id] is the one a card takes for that concept id, and
    distinct concept ids give distinct element ids. *)
Theorem parent_badge_text_and_target (parentId conceptId : string) :
  (forall units, codeUnits parentId = Some units ->
     exists text rest,
       badgeText (parentBadge parentId) = Some text
       /\ units = (text ++ rest)%list
       /\ length text = Nat.min 5 (length units)
       /\ (length units <= 5 -> text = units))
  /\ (isAscii parentId = true ->
      badgeText (parentBadge parentId)
      = codeUnits (String.substring 0 5 parentId))
  /\ (cardElementId (badgeTarget (parentBadge parentId))
      = cardElementId conceptId <-> parentId = conceptId).
Proof.
  unfold parentBadge. cbn [badgeText badgeTarget].
  split; [|split].
  - intros units E. rewrite E.
    exists (firstn 5 units), (skipn 5 units).
    split; [reflexivity|].
    split; [symmetry; apply firstn_skipn|].
    split; [apply length_firstn|].
    intro H. apply firstn_all2. exact H.
  - intro H.
    rewrite (codeUnits_ascii parentId H).
    rewrite (codeUnits_ascii _ (isAscii_substring 5 parentId H)).
    rewrite list_ascii_substring. unfold option_map.
    f_equal. apply firstn_map.
  - unfold cardElementId. split; [|intros ->; reflexivity].
    intro H. apply (ApiExtra.append_cancel_left "concept-"), H.
Qed.

Lemma parent_badge_text_and_target_witness :
  badgeText (parentBadge "9f3a77e2-aa") = codeUnits "9f3a7"
  /\ badgeText (parentBadge "c1") = codeUnits "c1"
  /\ badgeText (parentBadge "日本語の夢-1")
     = Some [26085; 26412; 35486; 12398; 22818]%N
  /\ badgeText (parentBadge "😀😀😀")
     = Some [55357; 56832; 55357; 56832; 55357]%N.
Proof.
  split; [|split; [|split; reflexivity]].
  - apply (parent_badge_text_and_target "9f3a77e2-aa" "c1"). reflexivity.
  - apply (parent_badge_text_and_target "c1" "c1"). reflexivity.
Defined.

End ConceptCardFacts.
